(** * Crimson Forge Ops (Overseer): monitors, scheduler and notifier boundary

    A shallow embedding of the TypeScript sources:
    - [types/index.ts]        the result envelope and the payload records;
    - [tools/uptime.ts]       two copies: with one retry, and single attempt;
    - [tools/railway.ts]      two copies: faults propagate, and faults caught;
    - [tools/supabase.ts], [tools/sentry.ts], [tools/email.ts];
    - [scheduler.ts]          [runSilentHealthCheck] and [runMorningBriefing];
    - [notifications/slack.ts] at its call boundary, and again with the
      bodies of its functions (module [Slack]);
    - [index.ts]              [validateEnvironment].

    Asynchronous functions are computations in a small monad that threads a
    world (number of fetches issued, trace of observable events) and may
    throw, so that every [try]/[catch] of the source is written out.  The
    trace records fetches, delays, calls to the notifier and the console
    lines of the scheduler and of the notifier; the console lines of the
    adapters are not recorded. *)

From Stdlib Require Import ZArith List String Bool Lia DecimalString Permutation.
Import ListNotations.
Local Open Scope string_scope.
Local Open Scope Z_scope.

Set Implicit Arguments.

(** ** JavaScript values the code inspects *)

(** A thrown value: an [Error] instance with its [message]; a value that
    is not an [Error] instance but has a string [message] of its own; or
    any other value, which has none. *)
Inductive Thrown : Type :=
| JsError (message : string)
| JsOther
| JsObject (message : string).

(** [err instanceof Error ? err.message : 'Unknown error'] *)
Definition errorMessage (err : Thrown) : string :=
  match err with
  | JsError m => m
  | JsOther => "Unknown error"
  | JsObject _ => "Unknown error"
  end.

(** The TypeErrors of the engine, with the texts V8 gives them. *)
Definition cannotRead (what key : string) : Thrown :=
  JsError ("Cannot read properties of " ++ what ++ " (reading '" ++ key ++ "')").

Definition notAFunction (expression : string) : Thrown :=
  JsError (expression ++ " is not a function").

(** Truthiness of a string: only the empty string is falsy. *)
Definition truthy_string (s : string) : bool :=
  negb (String.eqb s "").

(** [s || fallback] on strings. *)
Definition or_string (s fallback : string) : string :=
  if truthy_string s then s else fallback.

(** [s || null] on strings. *)
Definition or_null (s : string) : option string :=
  if truthy_string s then Some s else None.

(** [n || 0] on a possibly absent number. *)
Definition or_zero (n : option Z) : Z :=
  match n with
  | Some z => z
  | None => 0
  end.

(** Template interpolation of a number. *)
Definition show_number (z : Z) : string :=
  NilZero.string_of_int (Z.to_int z).

(** Concatenation of an environment variable: [undefined] prints itself. *)
Definition show_env (v : option string) : string :=
  match v with
  | Some s => s
  | None => "undefined"
  end.

(** [Array.prototype.join] *)
Definition join (sep : string) (xs : list string) : string :=
  String.concat sep xs.

(** A value [JSON.parse] returns. A number is held by its integer value:
    the code counts numbers, copies them and tests them for zero, and
    computes nothing else with them. A string is held in UTF-8. Where a
    property may be missing, [None] stands for [undefined]. *)
#[warnings="-register-all"]
Inductive JSON : Type :=
| JNull
| JBool (b : bool)
| JNum (n : Z)
| JStr (s : string)
| JArr (items : list JSON)
| JObj (fields : list (string * JSON)).

Definition JsVal : Type := option JSON.

Definition truthy (v : JsVal) : bool :=
  match v with
  | None => false
  | Some JNull => false
  | Some (JBool b) => b
  | Some (JNum n) => negb (n =? 0)
  | Some (JStr s) => truthy_string s
  | Some (JArr _) => true
  | Some (JObj _) => true
  end.

(** The own property [key] of a parsed object; of two entries with the
    same key the later one counts. *)
Fixpoint lookup (fields : list (string * JSON)) (key : string) : JsVal :=
  match fields with
  | [] => None
  | (k, v) :: rest =>
      match lookup rest key with
      | Some later => Some later
      | None => if String.eqb k key then Some v else None
      end
  end.

(** The [length] of a string counts UTF-16 code units: one for every
    character, two for those outside the basic plane, which are the ones
    whose UTF-8 encoding starts with a byte from 240 on; the bytes from
    128 to 191 continue a character. *)
Definition utf16_units (c : Ascii.ascii) : Z :=
  let n := Z.of_nat (Ascii.nat_of_ascii c) in
  if n <? 128 then 1 else if n <? 192 then 0 else if n <? 240 then 1 else 2.

Fixpoint utf16_length (s : string) : Z :=
  match s with
  | EmptyString => 0
  | String c rest => utf16_units c + utf16_length rest
  end.

(** ** types/index.ts *)

Inductive HealthStatus : Type := healthy | degraded | down | unknown.

Definition HealthStatus_eqb (a b : HealthStatus) : bool :=
  match a, b with
  | healthy, healthy | degraded, degraded | down, down | unknown, unknown => true
  | _, _ => false
  end.

(** Result every tool must return. [error] is the optional field. *)
Record ToolResult (T : Type) : Type := mkToolResult {
  tool : string;
  success : bool;
  timestamp : string;
  data : T;
  error : option string
}.

Module UptimeData.
Record t : Type := mk {
  url : string;
  status : HealthStatus;
  responseMs : option Z;
  statusCode : option Z
}.
End UptimeData.

Module SilentShop.
Record t : Type := mk {
  shopId : string;
  shopName : string;
  lastActivityAt : option Z;
  daysSilent : Z
}.
End SilentShop.

Module SupabaseData.
Record t : Type := mk {
  connectionStatus : HealthStatus;
  totalShops : Z;
  activeShopsLast24h : Z;
  ticketsCreatedLast24h : Z;
  aiSessionsLast24h : Z;
  silentShops : list SilentShop.t
}.
End SupabaseData.

Module SentryIssue.
Record t : Type := mk {
  id : string;
  title : string;
  level : string;
  count : Z;
  firstSeen : string;
  lastSeen : string;
  url : string
}.
End SentryIssue.

Module SentryData.
Record t : Type := mk {
  newIssueCount : Z;
  unresolvedCount : Z;
  recentIssues : list SentryIssue.t
}.
End SentryData.

Module RailwayData.
Record t : Type := mk {
  status : HealthStatus;
  latestDeploymentStatus : option string;
  latestDeploymentAt : option string
}.
End RailwayData.

Module EmailData.
Record t : Type := mk {
  status : HealthStatus;
  unreadCount : Z;
  lastCheckAt : string
}.
End EmailData.

Module GitHubData.
Record t : Type := mk {
  status : HealthStatus
}.
End GitHubData.

Inductive Severity : Type := critical | warning | info.

Module Alert.
Record t : Type := mk {
  severity : Severity;
  tool : string;
  message : string;
  details : option string;
  actionUrl : option string
}.
End Alert.

(** What [getResult] hands back: the adapter's own envelope, or, for a
    rejected promise, the bare object [{ success: false, error }] that has
    no [data], [tool] or [timestamp]. *)
Inductive Extracted (T : Type) : Type :=
| Envelope (r : ToolResult T)
| Bare (err : string).

Arguments Bare {T} err.

Definition ex_success {T} (x : Extracted T) : bool :=
  match x with
  | Envelope r => success r
  | Bare _ => false
  end.

(** [x.data], [None] standing for [undefined]. *)
Definition ex_data {T} (x : Extracted T) : option T :=
  match x with
  | Envelope r => Some (data r)
  | Bare _ => None
  end.

Definition ex_error {T} (x : Extracted T) : option string :=
  match x with
  | Envelope r => error r
  | Bare e => Some e
  end.

Module MorningBriefing.
Record t : Type := mk {
  timestamp : string;
  overallStatus : HealthStatus;
  uptime : Extracted (list UptimeData.t);
  supabase : Extracted SupabaseData.t;
  sentry : Extracted SentryData.t;
  railway : Extracted RailwayData.t;
  email : Extracted EmailData.t;
  alerts : list Alert.t
}.
End MorningBriefing.

(** ** Effects *)

(** A call that reaches the notifier. *)
Inductive NotifierCall : Type :=
| SendBriefing (b : MorningBriefing.t)
| SendAlert (a : Alert.t).

(** Observable events of a run, in the order they happen. *)
Inductive Event : Type :=
| Fetch (url : string) (timeoutMs : Z)
| Sleep (ms : Z)
| Log (line : string)
| Notify (c : NotifierCall).

Record World : Type := mkWorld {
  attempts : nat;
  trace : list Event
}.

Definition World0 : World := mkWorld 0 [].

Definition IO (A : Type) : Type := World -> (Thrown + A) * World.

Definition ret {A} (a : A) : IO A :=
  fun w => (inr a, w).

Definition bind {A B} (m : IO A) (k : A -> IO B) : IO B :=
  fun w =>
    match m w with
    | (inl t, w') => (inl t, w')
    | (inr a, w') => k a w'
    end.

Definition throw {A} (t : Thrown) : IO A :=
  fun w => (inl t, w).

(** [try { body } catch (err) { handler }] *)
Definition try_catch {A} (body : IO A) (handler : Thrown -> IO A) : IO A :=
  fun w =>
    match body w with
    | (inl t, w') => handler t w'
    | (inr a, w') => (inr a, w')
    end.

Definition emit (e : Event) : IO unit :=
  fun w => (inr tt, mkWorld (attempts w) (trace w ++ [e])).

Notation "x <- m ;; k" := (bind m (fun x => k))
  (at level 61, m at next level, right associativity).
Notation "m ;; k" := (bind m (fun _ => k))
  (at level 61, right associativity).

(** [for (const x of xs) { await f(x) }] *)
Fixpoint forOf {A} (xs : list A) (f : A -> IO unit) : IO unit :=
  match xs with
  | [] => ret tt
  | x :: rest => f x ;; forOf rest f
  end.

(** A settled promise. *)
Inductive Settled (T : Type) : Type :=
| Fulfilled (value : T)
| Rejected (reason : Thrown).

Arguments Rejected {T} reason.

(** [await p] *)
Definition await {T} (p : Settled T) : IO T :=
  match p with
  | Fulfilled v => ret v
  | Rejected t => throw t
  end.

(** The notifier calls of a trace. *)
Fixpoint notifications (tr : list Event) : list NotifierCall :=
  match tr with
  | [] => []
  | Notify c :: rest => c :: notifications rest
  | _ :: rest => notifications rest
  end.

(** The console lines of a trace. *)
Fixpoint console (tr : list Event) : list string :=
  match tr with
  | [] => []
  | Log l :: rest => l :: console rest
  | _ :: rest => console rest
  end.

(** ** notifications/slack.ts, at the call boundary

    Both entry points wrap their whole body in [try]/[catch] and
    [postToSlack] swallows every transport fault, so neither throws; the
    text formatting and the webhook transport are not modelled. *)

Definition sendBriefing (briefing : MorningBriefing.t) : IO unit :=
  emit (Notify (SendBriefing briefing)).

Definition sendAlert (alert : Alert.t) : IO unit :=
  emit (Notify (SendAlert alert)).

(** ** scheduler.ts *)

Section Scheduler.

(** [process.env.RAILWAY_PROJECT_ID], [process.env.SENTRY_ORG] and the
    value of [new Date().toISOString()] when the briefing is built. *)
Variable RAILWAY_PROJECT_ID : option string.
Variable SENTRY_ORG : option string.
Variable now : string.
(** [JSON.stringify(briefing, null, 2)] *)
Variable JSON_stringify : MorningBriefing.t -> string.

(** *** Health check job (every 15 minutes) *)

(** [Array.isArray(uptimeResult.data)] holds of every typed envelope. *)
Definition isUptimeDown (uptimeResult : ToolResult (list UptimeData.t)) : bool :=
  success uptimeResult
  && existsb (fun e => HealthStatus_eqb (UptimeData.status e) down) (data uptimeResult).

Definition isRailwayDown (railwayResult : ToolResult RailwayData.t) : bool :=
  success railwayResult
  && HealthStatus_eqb (RailwayData.status (data railwayResult)) down.

Definition downEndpoints (uptimeResult : ToolResult (list UptimeData.t)) : string :=
  join ", "
    (map UptimeData.url
       (filter (fun e => HealthStatus_eqb (UptimeData.status e) down)
          (data uptimeResult))).

Definition uptimeDownAlert (uptimeResult : ToolResult (list UptimeData.t)) : Alert.t :=
  Alert.mk critical "uptime" "Services are DOWN"
    (Some (downEndpoints uptimeResult)) None.

Definition railwayDownAlert : Alert.t :=
  Alert.mk critical "railway" "Railway deployment is DOWN" None
    (Some ("https://railway.app/project/" ++ show_env RAILWAY_PROJECT_ID)).

Definition runSilentHealthCheck
    (uptime : Settled (ToolResult (list UptimeData.t)))
    (railway : Settled (ToolResult RailwayData.t)) : IO unit :=
  emit (Log "[SCHEDULER] Running silent health check...") ;;
  try_catch
    (uptimeResult <- await uptime ;;
     railwayResult <- await railway ;;
     if isUptimeDown uptimeResult || isRailwayDown railwayResult then
       let alerts :=
         ((if isUptimeDown uptimeResult then [uptimeDownAlert uptimeResult] else [])
          ++ (if isRailwayDown railwayResult then [railwayDownAlert] else []))%list in
       forOf alerts sendAlert
     else
       emit (Log "[SCHEDULER] Silent health check passed. No alerts needed."))
    (fun err => emit (Log "[SCHEDULER] Error in silent health check:")).

(** *** Morning briefing job *)

(** [(result.reason as Error)?.message || 'Unknown error'] *)
Definition reasonMessage (reason : Thrown) : string :=
  match reason with
  | JsError m => or_string m "Unknown error"
  | JsOther => "Unknown error"
  | JsObject m => or_string m "Unknown error"
  end.

Definition getResult {T} (result : Settled (ToolResult T)) : Extracted T :=
  match result with
  | Rejected reason => Bare (reasonMessage reason)
  | Fulfilled value => Envelope value
  end.

(** [x || 'unknown'], [None] standing for [undefined]. *)
Definition or_unknown (x : option HealthStatus) : HealthStatus :=
  match x with
  | Some s => s
  | None => unknown
  end.

(** [data?.every((e) => e.status === 'healthy') ? 'healthy' : 'degraded'] *)
Definition uptimeStatus (uptimeResult : Extracted (list UptimeData.t)) : HealthStatus :=
  match ex_data uptimeResult with
  | Some d =>
      if forallb (fun e => HealthStatus_eqb (UptimeData.status e) healthy) d
      then healthy else degraded
  | None => degraded
  end.

Definition statuses
    (uptimeResult : Extracted (list UptimeData.t))
    (supabaseResult : Extracted SupabaseData.t)
    (railwayResult : Extracted RailwayData.t) : list HealthStatus :=
  filter (fun s => negb (HealthStatus_eqb s unknown))
    [ uptimeStatus uptimeResult;
      or_unknown (option_map SupabaseData.connectionStatus (ex_data supabaseResult));
      or_unknown (option_map RailwayData.status (ex_data railwayResult)) ].

Definition includes (xs : list HealthStatus) (s : HealthStatus) : bool :=
  existsb (HealthStatus_eqb s) xs.

Definition overallStatus
    (uptimeResult : Extracted (list UptimeData.t))
    (supabaseResult : Extracted SupabaseData.t)
    (railwayResult : Extracted RailwayData.t) : HealthStatus :=
  let sts := statuses uptimeResult supabaseResult railwayResult in
  let hasDown := includes sts down in
  let hasDegraded := includes sts degraded in
  if hasDown then down else if hasDegraded then degraded else healthy.

(** [data?.newIssueCount ?? 0 > 0], which groups as
    [data?.newIssueCount ?? (0 > 0)]: the count itself is the condition
    when it is present, and it is truthy when it is not zero. *)
Definition sentryCondition (sentryResult : Extracted SentryData.t) : bool :=
  match option_map SentryData.newIssueCount (ex_data sentryResult) with
  | Some n => negb (n =? 0)
  | None => 0 >? 0
  end.

Definition sentryAlert (sentryResult : Extracted SentryData.t) : Alert.t :=
  Alert.mk warning "sentry"
    (match option_map SentryData.newIssueCount (ex_data sentryResult) with
     | Some n => show_number n
     | None => "undefined"
     end ++ " new error issues detected")
    None
    (Some ("https://sentry.io/organizations/" ++ show_env SENTRY_ORG ++ "/issues/")).

(** [data?.silentShops ?? []] *)
Definition silentShopsOf (supabaseResult : Extracted SupabaseData.t) : list SilentShop.t :=
  match option_map SupabaseData.silentShops (ex_data supabaseResult) with
  | Some l => l
  | None => []
  end.

Definition silentShopsAlert (silentShops : list SilentShop.t) : Alert.t :=
  Alert.mk info "supabase"
    (show_number (Z.of_nat (List.length silentShops)) ++ " shops inactive for 3+ days")
    None None.

Definition buildAlerts
    (sentryResult : Extracted SentryData.t)
    (supabaseResult : Extracted SupabaseData.t) : list Alert.t :=
  ((if sentryCondition sentryResult then [sentryAlert sentryResult] else [])
   ++ (let silentShops := silentShopsOf supabaseResult in
       if 0 <? Z.of_nat (List.length silentShops)
       then [silentShopsAlert silentShops] else []))%list.

Definition buildBriefing
    (uptime : Settled (ToolResult (list UptimeData.t)))
    (supabase : Settled (ToolResult SupabaseData.t))
    (sentry : Settled (ToolResult SentryData.t))
    (railway : Settled (ToolResult RailwayData.t))
    (email : Settled (ToolResult EmailData.t)) : MorningBriefing.t :=
  let uptimeResult := getResult uptime in
  let supabaseResult := getResult supabase in
  let sentryResult := getResult sentry in
  let railwayResult := getResult railway in
  let emailResult := getResult email in
  MorningBriefing.mk now
    (overallStatus uptimeResult supabaseResult railwayResult)
    uptimeResult supabaseResult sentryResult railwayResult emailResult
    (buildAlerts sentryResult supabaseResult).

(** The five arguments are the outcomes [Promise.allSettled] collects. *)
Definition runMorningBriefing
    (uptime : Settled (ToolResult (list UptimeData.t)))
    (supabase : Settled (ToolResult SupabaseData.t))
    (sentry : Settled (ToolResult SentryData.t))
    (railway : Settled (ToolResult RailwayData.t))
    (email : Settled (ToolResult EmailData.t)) : IO unit :=
  emit (Log "[SCHEDULER] Running morning briefing...") ;;
  try_catch
    (let briefing := buildBriefing uptime supabase sentry railway email in
     sendBriefing briefing ;;
     emit (Log "[SCHEDULER] Morning briefing sent. Summary:") ;;
     emit (Log (JSON_stringify briefing)))
    (fun err => emit (Log "[SCHEDULER] Error in morning briefing:")).

End Scheduler.

(** ** The network, as the adapters see it *)

(** The text of a response body, as [JSON.parse] sees it. *)
Inductive Text (B : Type) : Type :=
| Garbled (syntaxError : string)
| Parses (b : B).

Arguments Garbled {B} syntaxError.

Inductive Body (B : Type) : Type :=
| Unreadable (t : Thrown)
| Readable (txt : Text B).

Arguments Unreadable {B} t.

Record Response (B : Type) : Type := mkResponse {
  res_status : Z;
  res_statusText : string;
  res_elapsedMs : Z;
  res_body : Body B
}.

(** [res.ok]: the status is in the range 200-299. *)
Definition res_ok {B} (res : Response B) : bool :=
  (200 <=? res_status res) && (res_status res <=? 299).

(** Outcome of one [fetch]: it rejects (network fault, or the abort of
    [AbortSignal.timeout]), or it resolves to a response. *)
Inductive FetchResult (B : Type) : Type :=
| FetchFault (t : Thrown)
| FetchResponse (r : Response B).

Arguments FetchFault {B} t.

(** [await fetch(url, { signal: AbortSignal.timeout(timeoutMs) })]: the
    n-th fetch of a task gets the n-th scripted outcome. *)
Definition fetch {B} (net : nat -> FetchResult B) (url : string) (timeoutMs : Z)
  : IO (Response B) :=
  fun w =>
    let w' := mkWorld (S (attempts w)) (trace w ++ [Fetch url timeoutMs]) in
    match net (attempts w) with
    | FetchFault t => (inl t, w')
    | FetchResponse r => (inr r, w')
    end.

(** [await res.text()] *)
Definition text {B} (res : Response B) : IO (Text B) :=
  match res_body res with
  | Unreadable t => throw t
  | Readable txt => ret txt
  end.

(** [JSON.parse(body)] *)
Definition JSON_parse {B} (txt : Text B) : IO B :=
  match txt with
  | Garbled m => throw (JsError m)
  | Parses b => ret b
  end.

(** [await res.json()] *)
Definition json {B} (res : Response B) : IO B :=
  txt <- text res ;; JSON_parse txt.

(** [v.key] on a parsed value, for a key that no prototype defines: [null]
    has no properties, an object has the ones it was parsed with, every
    other value has none under such a key. *)
Definition get (v : JSON) (key : string) : IO JsVal :=
  match v with
  | JNull => throw (cannotRead "null" key)
  | JObj fields => ret (lookup fields key)
  | _ => ret None
  end.

(** [v.length] *)
Definition lengthOf (v : JSON) : IO JsVal :=
  match v with
  | JNull => throw (cannotRead "null" "length")
  | JArr items => ret (Some (JNum (Z.of_nat (List.length items))))
  | JStr s => ret (Some (JNum (utf16_length s)))
  | JObj fields => ret (lookup fields "length")
  | _ => ret None
  end.

Fixpoint mapM {A B} (f : A -> IO B) (xs : list A) : IO (list B) :=
  match xs with
  | [] => ret []
  | x :: rest =>
      y <- f x ;;
      ys <- mapM f rest ;;
      ret (y :: ys)
  end.

(** [v.slice(0, 5).map(f)], where the source calls the value [name]: only
    an array has both methods; a string has [slice] and its result has no
    [map]; nothing a parse returns is a function, so an object has neither
    even with a property of that name. *)
Definition sliceThenMap {B} (name : string) (v : JSON) (f : JSON -> IO B)
  : IO (list B) :=
  match v with
  | JNull => throw (cannotRead "null" "slice")
  | JArr items => mapM f (firstn 5 items)
  | JStr _ => throw (notAFunction (name ++ ".slice(...).map"))
  | _ => throw (notAFunction (name ++ ".slice"))
  end.

Definition settle {A} (r : Thrown + A) : Settled A :=
  match r with
  | inl t => Rejected t
  | inr a => Fulfilled a
  end.

(** The tasks of [xs.map(start)], started without being awaited: each one
    counts its own fetches and its outcome is a settled promise. A task
    runs up to its first fetch as soon as it is started, so the first
    event of every task comes first, in the order of the array; how the
    tasks interleave after that depends on the timing of the network, and
    the trace takes them one after the other, which is one of the orders
    the event loop can produce. *)
Definition spawnAll {A} (tasks : list (IO A)) : IO (list (Settled A)) :=
  fun w =>
    let runs := map (fun task : IO A => task World0) tasks in
    (inr (map (fun run => settle (fst run)) runs),
     mkWorld (attempts w)
       (trace w
        ++ flat_map (fun run => firstn 1 (trace (snd run))) runs
        ++ flat_map (fun run => skipn 1 (trace (snd run))) runs)).

(** [await Promise.all(promises)]: the values in order, or the rejection
    (the first one in the array stands for the first one in time). *)
Fixpoint Promise_all {A} (promises : list (Settled A)) : IO (list A) :=
  match promises with
  | [] => ret []
  | Fulfilled v :: rest => vs <- Promise_all rest ;; ret (v :: vs)
  | Rejected t :: _ => throw t
  end.

(** [xs.map((x, i) => f i x)] *)
Definition mapi {A B} (f : nat -> A -> B) (xs : list A) : list B :=
  map (fun ix => f (fst ix) (snd ix)) (combine (seq 0 (List.length xs)) xs).

(** ** tools/uptime.ts, the copy that retries once *)

Module UptimeRetry.
Section Env.

Variable FRONTEND_URL : string.
Variable API_HEALTH_URL : string.
Variable now : string.

Definition ENDPOINTS : list (string * string) :=
  [ ("Frontend", FRONTEND_URL); ("API", API_HEALTH_URL) ].

Definition pingEndpoint (net : nat -> FetchResult unit) (url : string)
  : IO UptimeData.t :=
  res <- fetch net url 20000 ;;
  ret (UptimeData.mk url
         (if res_ok res then healthy else degraded)
         (Some (res_elapsedMs res))
         (Some (res_status res))).

Definition checkEndpoint (net : nat -> FetchResult unit) (url : string)
  : IO UptimeData.t :=
  try_catch (pingEndpoint net url)
    (fun err =>
       (* First attempt failed: wait 5s and retry once *)
       emit (Sleep 5000) ;;
       try_catch (pingEndpoint net url)
         (fun retryErr => ret (UptimeData.mk url down None None))).

(** [nets i] scripts the fetches of the i-th endpoint's check. *)
Definition runUptimeCheck (nets : nat -> nat -> FetchResult unit)
  : IO (ToolResult (list UptimeData.t)) :=
  try_catch
    (promises <- spawnAll (mapi (fun i e => checkEndpoint (nets i) (snd e)) ENDPOINTS) ;;
     results <- Promise_all promises ;;
     ret (mkToolResult "uptime" true now results None))
    (fun err =>
       ret (mkToolResult "uptime" false now [] (Some (errorMessage err)))).

End Env.
End UptimeRetry.

(** ** tools/uptime.ts, the copy that makes a single attempt *)

Module UptimeOnce.
Section Env.

Variable FRONTEND_URL : string.
Variable API_HEALTH_URL : string.
Variable now : string.

Definition ENDPOINTS : list (string * string) :=
  [ ("Frontend", FRONTEND_URL); ("API", API_HEALTH_URL) ].

Definition checkEndpoint (net : nat -> FetchResult unit) (url : string)
  : IO UptimeData.t :=
  try_catch
    (res <- fetch net url 10000 ;;
     ret (UptimeData.mk url
            (if res_ok res then healthy else degraded)
            (Some (res_elapsedMs res))
            (Some (res_status res))))
    (fun _ => ret (UptimeData.mk url down None None)).

Definition runUptimeCheck (nets : nat -> nat -> FetchResult unit)
  : IO (ToolResult (list UptimeData.t)) :=
  try_catch
    (promises <- spawnAll (mapi (fun i e => checkEndpoint (nets i) (snd e)) ENDPOINTS) ;;
     results <- Promise_all promises ;;
     ret (mkToolResult "uptime" true now results None))
    (fun err =>
       ret (mkToolResult "uptime" false now [] (Some (errorMessage err)))).

End Env.
End UptimeOnce.

(** ** tools/railway.ts *)

Module DeploymentNode.
Record t : Type := mk {
  id : string;
  status : string;
  createdAt : string
}.
End DeploymentNode.

(** [{ node?: ... }] *)
Definition DeploymentEdge : Type := option DeploymentNode.t.

(** [edges[0]?.node] *)
Definition firstNode (edges : list DeploymentEdge) : option DeploymentNode.t :=
  match hd_error edges with
  | Some edge => edge
  | None => None
  end.

Definition RAILWAY_GRAPHQL_URL : string := "https://backboard.railway.app/graphql/v2".

Definition unknownStatus : RailwayData.t := RailwayData.mk unknown None None.

(** [undefined] or [null]. *)
Inductive Nullish : Type := JsUndefined | JsNull.

Definition nullishText (n : Nullish) : string :=
  match n with
  | JsUndefined => "undefined"
  | JsNull => "null"
  end.

(** What [deployments.edges] holds: nothing, so that [edges[0]] throws, or
    a value of which entry 0 can be read, given as the list whose head is
    what [edges[0]] finds (the empty list when it finds nothing). *)
Inductive Edges : Type :=
| NoEdges (n : Nullish)
| EdgeList (edges : list DeploymentEdge).

(** *** The copy whose [fetchRailwayStatus] catches its own faults *)

Module RailwayCatching.

(** The value [res.json()] resolves to, by what the accesses of the code
    find in it: [null], on which every access throws, or any other value
    with its [errors] when they are truthy and, behind [data] and
    [deployments] (each of which may be nullish), its [edges]. A node is
    held with the fields its interface declares. *)
Inductive RailwayResponse : Type :=
| NullBody
| Shaped (errors_ : option (list string)) (deployments_ : option (option Edges)).

Definition errors (data : RailwayResponse) : option (list string) :=
  match data with
  | NullBody => None
  | Shaped es _ => es
  end.

Definition deploymentOf (data : RailwayResponse) : option DeploymentNode.t :=
  match data with
  | Shaped _ (Some (Some (EdgeList edges))) => firstNode edges
  | _ => None
  end.

(** [data.errors] *)
Definition readErrors (data : RailwayResponse) : IO (option (list string)) :=
  match data with
  | NullBody => throw (cannotRead "null" "errors")
  | Shaped es _ => ret es
  end.

(** [data.data?.deployments?.edges[0]?.node] *)
Definition readDeployment (data : RailwayResponse) : IO (option DeploymentNode.t) :=
  match data with
  | NullBody => throw (cannotRead "null" "data")
  | Shaped _ (Some (Some (NoEdges n))) => throw (cannotRead (nullishText n) "0")
  | Shaped _ _ => ret (deploymentOf data)
  end.

Section Env.

Variable now : string.

Definition fetchRailwayStatus (net : nat -> FetchResult RailwayResponse)
  : IO RailwayData.t :=
  try_catch
    (res <- fetch net RAILWAY_GRAPHQL_URL 10000 ;;
     if negb (res_ok res) then
       throw (JsError ("Railway API error: " ++ res_statusText res))
     else
       data <- json res ;;
       errs <- readErrors data ;;
       match errs with
       | Some es => throw (JsError ("GraphQL error: " ++ join ", " es))
       | None =>
           deployment <- readDeployment data ;;
           ret (RailwayData.mk
                  (match deployment with
                   | Some d =>
                       if String.eqb (DeploymentNode.status d) "SUCCESS"
                       then healthy else degraded
                   | None => degraded
                   end)
                  (match deployment with
                   | Some d => or_null (DeploymentNode.status d)
                   | None => None
                   end)
                  (match deployment with
                   | Some d => or_null (DeploymentNode.createdAt d)
                   | None => None
                   end))
       end)
    (fun err => ret (RailwayData.mk down None None)).

Definition runRailwayCheck (net : nat -> FetchResult RailwayResponse)
  : IO (ToolResult RailwayData.t) :=
  try_catch
    (railwayStatus <- fetchRailwayStatus net ;;
     ret (mkToolResult "railway" true now
            (RailwayData.mk
               (RailwayData.status railwayStatus)
               (RailwayData.latestDeploymentStatus railwayStatus)
               (RailwayData.latestDeploymentAt railwayStatus))
            None))
    (fun err =>
       ret (mkToolResult "railway" false now unknownStatus
              (Some (errorMessage err)))).

End Env.
End RailwayCatching.

(** *** The copy whose [fetchRailwayStatus] lets fetch faults propagate *)

Module RailwayPropagating.

(** The value [JSON.parse(body)] returns, by what the accesses of the code
    find in it: [null], on which every access throws, or any other value
    with its [errors] when they are truthy and, behind [data], [service]
    and [deployments] (each of which may be nullish), its [edges]. A node
    is held with the fields its interface declares. *)
Inductive RailwayResponse : Type :=
| NullBody
| Shaped (errors_ : option (list string))
    (service_ : option (option (option Edges))).

Definition errors (data : RailwayResponse) : option (list string) :=
  match data with
  | NullBody => None
  | Shaped es _ => es
  end.

Definition deploymentOf (data : RailwayResponse) : option DeploymentNode.t :=
  match data with
  | Shaped _ (Some (Some (Some (EdgeList edges)))) => firstNode edges
  | _ => None
  end.

(** [data.errors] *)
Definition readErrors (data : RailwayResponse) : IO (option (list string)) :=
  match data with
  | NullBody => throw (cannotRead "null" "errors")
  | Shaped es _ => ret es
  end.

(** [data.data?.service?.deployments?.edges[0]?.node] *)
Definition readDeployment (data : RailwayResponse) : IO (option DeploymentNode.t) :=
  match data with
  | NullBody => throw (cannotRead "null" "data")
  | Shaped _ (Some (Some (Some (NoEdges n)))) => throw (cannotRead (nullishText n) "0")
  | Shaped _ _ => ret (deploymentOf data)
  end.

Definition resolveStatus (deploymentStatus : string) : HealthStatus :=
  if String.eqb deploymentStatus "SUCCESS" || String.eqb deploymentStatus "ACTIVE"
  then healthy
  else if String.eqb deploymentStatus "FAILED" || String.eqb deploymentStatus "CRASHED"
  then down
  else degraded.

Section Env.

Variable now : string.

Definition fetchRailwayStatus (net : nat -> FetchResult RailwayResponse)
  : IO RailwayData.t :=
  res <- fetch net RAILWAY_GRAPHQL_URL 10000 ;;
  body <- text res ;;
  if negb (res_ok res) then
    ret unknownStatus
  else
    parsed <- try_catch (data <- JSON_parse body ;; ret (Some data))
                (fun _ => ret None) ;;
    match parsed with
    | None => ret unknownStatus
    | Some data =>
        errs <- readErrors data ;;
        match errs with
        | Some _ => ret unknownStatus
        | None =>
            found <- readDeployment data ;;
            match found with
            | None => ret unknownStatus
            | Some deployment =>
                ret (RailwayData.mk
                       (resolveStatus (DeploymentNode.status deployment))
                       (Some (DeploymentNode.status deployment))
                       (Some (DeploymentNode.createdAt deployment)))
            end
        end
    end.

Definition runRailwayCheck (net : nat -> FetchResult RailwayResponse)
  : IO (ToolResult RailwayData.t) :=
  try_catch
    (railwayStatus <- fetchRailwayStatus net ;;
     ret (mkToolResult "railway" true now
            (RailwayData.mk
               (RailwayData.status railwayStatus)
               (RailwayData.latestDeploymentStatus railwayStatus)
               (RailwayData.latestDeploymentAt railwayStatus))
            None))
    (fun err =>
       ret (mkToolResult "railway" false now unknownStatus
              (Some (errorMessage err)))).

End Env.
End RailwayPropagating.

(** ** tools/supabase.ts

    Both copies of the file run the same queries and build the same
    envelope; the later one only adds console output. *)

Module Supabase.

(** What a query of the client resolves to: [{ data, count, error }],
    [error] given by its [message]. *)
Record PostgrestResponse (X : Type) : Type := mkPostgrestResponse {
  pg_data : option X;
  pg_count : option Z;
  pg_error : option string
}.

(** A row of [get_silent_shops]; an activity stamp is held as the
    milliseconds [new Date(stamp).getTime()] gives. *)
Record SilentShopRow : Type := mkSilentShopRow {
  shop_id : string;
  shop_name : string;
  last_activity_at : option Z
}.

(** The outcome of each awaited query, in program order. *)
Record Queries : Type := mkQueries {
  q_connection : Settled (PostgrestResponse unit);
  q_shops : Settled (PostgrestResponse unit);
  q_activeShops : Settled (PostgrestResponse (list unit));
  q_tickets : Settled (PostgrestResponse unit);
  q_aiSessions : Settled (PostgrestResponse unit);
  q_silentShops : Settled (PostgrestResponse (list SilentShopRow))
}.

Section Env.

Variable now : string.
(** [new Date().getTime()] *)
Variable nowMs : Z.

Definition msPerDay : Z := 1000 * 60 * 60 * 24.

Definition toSilentShop (row : SilentShopRow) : SilentShop.t :=
  let daysSilent :=
    match last_activity_at row with
    | Some lastActivity => (nowMs - lastActivity) / msPerDay
    | None => (nowMs - 0) / msPerDay
    end in
  SilentShop.mk (shop_id row) (shop_name row) (last_activity_at row) daysSilent.

Definition runSupabaseCheck (db : Queries) : IO (ToolResult SupabaseData.t) :=
  try_catch
    (connectionCheck <- await (q_connection db) ;;
     match pg_error connectionCheck with
     | Some message =>
         throw (JsError ("Database connection failed: " ++ message))
     | None =>
         shops <- await (q_shops db) ;;
         activeShops <- await (q_activeShops db) ;;
         tickets <- await (q_tickets db) ;;
         aiSessions <- await (q_aiSessions db) ;;
         silentShopsData <- await (q_silentShops db) ;;
         let silentShops :=
           map toSilentShop
             (match pg_data silentShopsData with
              | Some rows => rows
              | None => []
              end) in
         ret (mkToolResult "supabase" true now
                (SupabaseData.mk healthy
                   (or_zero (pg_count shops))
                   (match pg_data activeShops with
                    | Some l => Z.of_nat (List.length l)
                    | None => 0
                    end)
                   (or_zero (pg_count tickets))
                   (or_zero (pg_count aiSessions))
                   silentShops)
                None)
     end)
    (fun err =>
       ret (mkToolResult "supabase" false now
              (SupabaseData.mk down 0 0 0 0 [])
              (Some (errorMessage err)))).

End Env.
End Supabase.

(** ** tools/sentry.ts *)

Module Sentry.

(** An issue as the adapter builds it: each field holds whatever the
    answer has under that name, which the cast to [SentryIssueRaw] does not
    check. *)
Record Issue : Type := mkIssue {
  id : JsVal;
  title : JsVal;
  level : JsVal;
  count : JsVal;
  firstSeen : JsVal;
  lastSeen : JsVal;
  url : JsVal
}.

(** The [data] of the adapter's envelope as it is at run time. *)
Record Payload : Type := mkPayload {
  newIssueCount : JsVal;
  unresolvedCount : JsVal;
  recentIssues : list Issue
}.

Section Env.

Variable SENTRY_ORG : string.
Variable SENTRY_PROJECT : string.
Variable now : string.
(** The ISO stamp of [Date.now() - 24h]. *)
Variable yesterday : string.
(** [URL.toString()] after [searchParams.set] of the given pairs. *)
Variable withSearchParams : string -> list (string * string) -> string.

Definition SENTRY_API_BASE : string := "https://sentry.io/api/0".

Definition fetchSentryIssues (net : nat -> FetchResult JSON) (query : string)
  : IO JSON :=
  try_catch
    (let url :=
       withSearchParams
         (SENTRY_API_BASE ++ "/projects/" ++ SENTRY_ORG ++ "/" ++ SENTRY_PROJECT ++ "/issues/")
         [ ("query", query); ("limit", "10"); ("sort", "date") ] in
     res <- fetch net url 10000 ;;
     if negb (res_ok res) then
       throw (JsError ("Sentry API error: " ++ res_statusText res))
     else
       json res)
    (fun err =>
       ret (JArr [])).

Definition toSentryIssue (issue : JSON) : IO Issue :=
  id <- get issue "id" ;;
  title <- get issue "title" ;;
  level <- get issue "level" ;;
  count <- get issue "count" ;;
  firstSeen <- get issue "firstSeen" ;;
  lastSeen <- get issue "lastSeen" ;;
  permalink <- get issue "permalink" ;;
  ret (mkIssue id title (if truthy level then level else Some (JStr "error"))
         count firstSeen lastSeen permalink).

Definition runSentryCheck (net : nat -> FetchResult JSON)
  : IO (ToolResult Payload) :=
  try_catch
    (newIssuesData <-
       fetchSentryIssues net ("firstSeen:>" ++ yesterday ++ " is:unresolved") ;;
     unresolvedData <- fetchSentryIssues net "is:unresolved" ;;
     recentIssues <- sliceThenMap "unresolvedData" unresolvedData toSentryIssue ;;
     newIssueCount <- lengthOf newIssuesData ;;
     unresolvedCount <- lengthOf unresolvedData ;;
     ret (mkToolResult "sentry" true now
            (mkPayload newIssueCount unresolvedCount recentIssues)
            None))
    (fun err =>
       ret (mkToolResult "sentry" false now
              (mkPayload (Some (JNum 0)) (Some (JNum 0)) [])
              (Some (errorMessage err)))).

End Env.
End Sentry.

(** ** tools/email.ts *)

Module Email.
Section Env.

Variable IMAP_HOST : option string.
Variable IMAP_USER : option string.
Variable IMAP_PASS : option string.
Variable now : string.

(** [!v] on an environment variable. *)
Definition missing (v : option string) : bool :=
  match v with
  | Some s => negb (truthy_string s)
  | None => true
  end.

Definition runEmailCheck : IO (ToolResult EmailData.t) :=
  try_catch
    (if missing IMAP_HOST || missing IMAP_USER || missing IMAP_PASS then
       ret (mkToolResult "email" false now
              (EmailData.mk unknown 0 now)
              (Some "Email configuration not provided. Set IMAP_HOST, IMAP_USER, IMAP_PASS in environment."))
     else
       ret (mkToolResult "email" false now
              (EmailData.mk unknown 0 now)
              (Some "Email check not yet implemented")))
    (fun err =>
       ret (mkToolResult "email" false now
              (EmailData.mk unknown 0 now)
              (Some (errorMessage err)))).

End Env.
End Email.

(** ** tools/github.ts *)

Module GitHub.
Section Env.

Variable now : string.

Definition runGitHubCheck : IO (ToolResult GitHubData.t) :=
  ret (mkToolResult "github" false now
         (GitHubData.mk unknown)
         (Some "GitHub integration not yet implemented")).

End Env.
End GitHub.

(** ** notifications/slack.ts, with the bodies of its functions

    The text of a message is built by the functions below in the order
    the source appends to [message]; [postToSlack] sends it. *)

Module Slack.

(** The line feed of the template strings. *)
Definition nl : string := String (Ascii.ascii_of_nat 10) "".

Definition getStatusEmoji (overallStatus : HealthStatus) : string :=
  match overallStatus with
  | healthy => "🟢"
  | degraded => "🟡"
  | down => "🔴"
  | unknown => "⚪"
  end.

Definition getItemEmoji (status : HealthStatus) : string :=
  match status with
  | healthy => "✅"
  | degraded => "⚠️"
  | down => "🔴"
  | unknown => "❓"
  end.

(** [details] is appended when it is truthy. *)
Definition formatHealthItem (name : string) (status : HealthStatus)
    (details : option string) : string :=
  let line := getItemEmoji status ++ " " ++ name in
  match details with
  | Some d => if truthy_string d then line ++ " — " ++ d else line
  | None => line
  end.

Definition statusText (briefing : MorningBriefing.t) : string :=
  if HealthStatus_eqb (MorningBriefing.overallStatus briefing) healthy
  then "ALL SYSTEMS GO" else "ISSUES DETECTED".

Definition endpointLine (endpoint : UptimeData.t) : string :=
  let details :=
    match UptimeData.responseMs endpoint with
    | Some ms => show_number ms ++ "ms"
    | None => "No response"
    end in
  formatHealthItem (UptimeData.url endpoint) (UptimeData.status endpoint) (Some details)
  ++ nl.

Definition uptimeLines (uptime : Extracted (list UptimeData.t)) : string :=
  match uptime with
  | Envelope r =>
      if success r then String.concat "" (map endpointLine (data r))
      else formatHealthItem "Uptime Check" down (Some "Tool failed") ++ nl
  | Bare _ => formatHealthItem "Uptime Check" down (Some "Tool failed") ++ nl
  end.

Definition railwayLine (railway : Extracted RailwayData.t) : string :=
  match railway with
  | Envelope r =>
      if success r then
        formatHealthItem "Railway API" (RailwayData.status (data r))
          (RailwayData.latestDeploymentStatus (data r)) ++ nl
      else formatHealthItem "Railway API" down (Some "Tool failed") ++ nl
  | Bare _ => formatHealthItem "Railway API" down (Some "Tool failed") ++ nl
  end.

Definition supabaseLine (supabase : Extracted SupabaseData.t) : string :=
  match supabase with
  | Envelope r =>
      if success r then
        formatHealthItem "Supabase" (SupabaseData.connectionStatus (data r)) None ++ nl
      else formatHealthItem "Supabase" down (Some "Tool failed") ++ nl
  | Bare _ => formatHealthItem "Supabase" down (Some "Tool failed") ++ nl
  end.

Definition activityLines (supabase : Extracted SupabaseData.t) : string :=
  match supabase with
  | Envelope r =>
      if success r then
        "🏪 " ++ show_number (SupabaseData.activeShopsLast24h (data r)) ++ " active shops" ++ nl
        ++ "🎫 " ++ show_number (SupabaseData.ticketsCreatedLast24h (data r)) ++ " tickets created" ++ nl
        ++ "🤖 " ++ show_number (SupabaseData.aiSessionsLast24h (data r)) ++ " AI sessions" ++ nl
      else "_Activity data unavailable_" ++ nl
  | Bare _ => "_Activity data unavailable_" ++ nl
  end.

Definition alertIcon (alert : Alert.t) : string :=
  match Alert.severity alert with
  | critical => "🔴"
  | _ => "⚠️"
  end.

Definition alertLine (alert : Alert.t) : string :=
  alertIcon alert ++ " " ++ Alert.message alert
  ++ match Alert.details alert with
     | Some d => if truthy_string d then " — " ++ d else ""
     | None => ""
     end
  ++ nl.

Definition alertsSection (alerts : list Alert.t) : string :=
  if (0 <? Z.of_nat (List.length alerts)) then
    nl ++ "*ALERTS*" ++ nl ++ String.concat "" (map alertLine alerts)
  else "".

Definition supportLines (email : Extracted EmailData.t) : string :=
  match email with
  | Envelope r =>
      if success r then
        "📬 " ++ show_number (EmailData.unreadCount (data r)) ++ " unread emails" ++ nl
      else "⚠️ Email check unavailable" ++ nl
  | Bare _ => "⚠️ Email check unavailable" ++ nl
  end.

Definition errorsLines (sentry : Extracted SentryData.t) : string :=
  match sentry with
  | Envelope r =>
      if success r then
        if SentryData.newIssueCount (data r) =? 0 then
          "✅ No new Sentry issues" ++ nl
        else
          "⚠️ " ++ show_number (SentryData.newIssueCount (data r))
          ++ " new issues since yesterday" ++ nl
          ++ show_number (SentryData.unresolvedCount (data r)) ++ " unresolved total" ++ nl
      else "⚠️ Sentry check unavailable" ++ nl
  | Bare _ => "⚠️ Sentry check unavailable" ++ nl
  end.

Section Env.

Variable SLACK_WEBHOOK_URL : string.
(** [date.toLocaleTimeString('en-US', { ..., timeZone })] and
    [date.toLocaleDateString('en-US', { ..., timeZone })] of the briefing's
    timestamp; they throw a RangeError on a time zone that is not valid. *)
Variable toLocaleTimeString : string -> Thrown + string.
Variable toLocaleDateString : string -> Thrown + string.
(** [new Date(stamp).toLocaleDateString()] of a shop's last activity. *)
Variable shopDate : Z -> string.
(** [new Date().toLocaleTimeString()] when an alert is sent. *)
Variable nowTime : string.
(** [String.prototype.toUpperCase] *)
Variable toUpperCase : string -> string.

Definition shopLine (shop : SilentShop.t) : string :=
  let lastActivity :=
    match SilentShop.lastActivityAt shop with
    | Some stamp => shopDate stamp
    | None => "Never"
    end in
  SilentShop.shopName shop ++ " — " ++ show_number (SilentShop.daysSilent shop)
  ++ " days silent (last: " ++ lastActivity ++ ")" ++ nl.

Definition shopsToWatch (supabase : Extracted SupabaseData.t) : string :=
  match supabase with
  | Envelope r =>
      if success r
         && (0 <? Z.of_nat (List.length (SupabaseData.silentShops (data r))))
      then
        "*SHOPS TO WATCH* 👀" ++ nl
        ++ String.concat "" (map shopLine (SupabaseData.silentShops (data r)))
        ++ nl
      else ""
  | Bare _ => ""
  end.

Definition briefingText (timeStr dateStr : string) (briefing : MorningBriefing.t)
  : string :=
  getStatusEmoji (MorningBriefing.overallStatus briefing)
  ++ " CRIMSON FORGE — " ++ statusText briefing ++ nl
  ++ dateStr ++ " · " ++ timeStr ++ nl ++ nl
  ++ "*INFRASTRUCTURE*" ++ nl
  ++ uptimeLines (MorningBriefing.uptime briefing)
  ++ railwayLine (MorningBriefing.railway briefing)
  ++ supabaseLine (MorningBriefing.supabase briefing)
  ++ nl
  ++ "*ACTIVITY (last 24h)*" ++ nl
  ++ activityLines (MorningBriefing.supabase briefing)
  ++ nl
  ++ shopsToWatch (MorningBriefing.supabase briefing)
  ++ "*SUPPORT*" ++ nl
  ++ supportLines (MorningBriefing.email briefing)
  ++ nl
  ++ "*ERRORS*" ++ nl
  ++ errorsLines (MorningBriefing.sentry briefing)
  ++ alertsSection (MorningBriefing.alerts briefing).

Definition alertText (alert : Alert.t) : string :=
  alertIcon alert ++ " ALERT — " ++ toUpperCase (Alert.tool alert) ++ " ISSUE" ++ nl
  ++ "Detected: " ++ nowTime ++ nl ++ nl
  ++ Alert.message alert ++ nl
  ++ match Alert.details alert with
     | Some d => if truthy_string d then nl ++ d ++ nl else ""
     | None => ""
     end
  ++ match Alert.actionUrl alert with
     | Some u => if truthy_string u then nl ++ "View: " ++ u ++ nl else ""
     | None => ""
     end.

(** A value that a library call returned or threw. *)
Definition lift {A} (r : Thrown + A) : IO A :=
  match r with
  | inl t => throw t
  | inr a => ret a
  end.

Definition postToSlack (net : nat -> FetchResult unit) (text : string) : IO unit :=
  try_catch
    (res <- fetch net SLACK_WEBHOOK_URL 10000 ;;
     if negb (res_ok res) then
       throw (JsError ("Slack webhook error: " ++ res_statusText res))
     else ret tt)
    (fun err =>
       (* Log but don't throw: Slack being down should not crash the system *)
       emit (Log "Error posting to Slack:")).

Definition sendBriefing (net : nat -> FetchResult unit) (briefing : MorningBriefing.t)
  : IO unit :=
  try_catch
    (timeStr <- lift (toLocaleTimeString (MorningBriefing.timestamp briefing)) ;;
     dateStr <- lift (toLocaleDateString (MorningBriefing.timestamp briefing)) ;;
     postToSlack net (briefingText timeStr dateStr briefing))
    (fun err => emit (Log "Error sending briefing to Slack:")).

Definition sendAlert (net : nat -> FetchResult unit) (alert : Alert.t) : IO unit :=
  try_catch
    (postToSlack net (alertText alert))
    (fun err => emit (Log "Error sending alert to Slack:")).

End Env.
End Slack.

(** ** index.ts *)

Module Index.

Definition required : list string :=
  [ "SLACK_WEBHOOK_URL";
    "FRONTEND_URL";
    "API_HEALTH_URL";
    "SUPABASE_URL";
    "SUPABASE_SERVICE_ROLE_KEY";
    "SENTRY_AUTH_TOKEN";
    "SENTRY_ORG";
    "SENTRY_PROJECT";
    "RAILWAY_API_TOKEN";
    "RAILWAY_PROJECT_ID";
    "RAILWAY_SERVICE_ID" ].

(** [!process.env[key]] *)
Definition unset (env : string -> option string) (key : string) : bool :=
  match env key with
  | Some v => negb (truthy_string v)
  | None => true
  end.

(** The lines written to the console and, when the process is ended by
    [process.exit], the exit code. *)
Definition validateEnvironment (env : string -> option string)
  : list string * option Z :=
  let missing := filter (unset env) required in
  if (0 <? Z.of_nat (List.length missing)) then
    (("❌ Missing required environment variables:"
      :: map (fun key => ("   - " ++ key)%string) missing
      ++ [(Slack.nl ++ "Please set all required variables in .env or Railway environment.")%string])%list,
     Some 1)
  else
    (["✅ All required environment variables are set."], None).

End Index.

(** ** Vocabulary of the statements *)

(** [m] returns [a] from some world. *)
Definition produces {A} (m : IO A) (a : A) : Prop :=
  exists w w', m w = (inr a, w').

(** [m] never throws. *)
Definition total {A} (m : IO A) : Prop :=
  forall w, exists a w', m w = (inr a, w').

(** The alerts the quick check delivers, in order. *)
Definition quickAlerts (pid : option string)
    (u : ToolResult (list UptimeData.t)) (r : ToolResult RailwayData.t)
  : list Alert.t :=
  ((if isUptimeDown u then [uptimeDownAlert u] else [])
   ++ (if isRailwayDown r then [railwayDownAlert pid] else []))%list.

Definition passedLine : string :=
  "[SCHEDULER] Silent health check passed. No alerts needed.".

(** The status the datastore and the deployment slots contribute. *)
Definition supabaseStatus (s : Extracted SupabaseData.t) : HealthStatus :=
  or_unknown (option_map SupabaseData.connectionStatus (ex_data s)).

Definition railwayStatus (r : Extracted RailwayData.t) : HealthStatus :=
  or_unknown (option_map RailwayData.status (ex_data r)).

(** Precedence over a list of votes: [unknown] ones are dropped, then
    [down] beats [degraded] beats [healthy]. *)
Definition precedence (votes : list HealthStatus) : HealthStatus :=
  let sts := filter (fun s => negb (HealthStatus_eqb s unknown)) votes in
  if includes sts down then down
  else if includes sts degraded then degraded
  else healthy.

(** The faults a scripted network raises: rejected fetches and bodies
    that cannot be read. *)
Definition net_raises {B} (net : nat -> FetchResult B) (t : Thrown) : Prop :=
  exists n,
    net n = FetchFault t
    \/ exists r, net n = FetchResponse r /\ res_body r = Unreadable t.

Definition rejected_with {T} (p : Settled T) (t : Thrown) : Prop :=
  p = Rejected t.

(** The faults the datastore client raises. *)
Definition db_raises (db : Supabase.Queries) (t : Thrown) : Prop :=
  rejected_with (Supabase.q_connection db) t
  \/ rejected_with (Supabase.q_shops db) t
  \/ rejected_with (Supabase.q_activeShops db) t
  \/ rejected_with (Supabase.q_tickets db) t
  \/ rejected_with (Supabase.q_aiSessions db) t
  \/ rejected_with (Supabase.q_silentShops db) t.

Definition no_fault (t : Thrown) : Prop := False.

(** An envelope some adapter's [run] returned, with the faults its
    environment raised during that run. *)
Inductive Produced : forall T : Type, ToolResult T -> (Thrown -> Prop) -> Prop :=
| by_uptime_retry frontend api now nets e :
    produces (UptimeRetry.runUptimeCheck frontend api now nets) e ->
    Produced e (fun t => exists i, net_raises (nets i) t)
| by_uptime_once frontend api now nets e :
    produces (UptimeOnce.runUptimeCheck frontend api now nets) e ->
    Produced e (fun t => exists i, net_raises (nets i) t)
| by_supabase now nowMs db e :
    produces (Supabase.runSupabaseCheck now nowMs db) e ->
    Produced e (db_raises db)
| by_sentry org project now yesterday withSearchParams net e :
    produces (Sentry.runSentryCheck org project now yesterday withSearchParams net) e ->
    Produced e (net_raises net)
| by_railway_catching now net e :
    produces (RailwayCatching.runRailwayCheck now net) e ->
    Produced e (net_raises net)
| by_railway_propagating now net e :
    produces (RailwayPropagating.runRailwayCheck now net) e ->
    Produced e (net_raises net)
| by_email host user pass now e :
    produces (Email.runEmailCheck host user pass now) e ->
    Produced e no_fault
| by_github now e :
    produces (GitHub.runGitHubCheck now) e ->
    Produced e no_fault.

(** What a ping reports for a response. *)
Definition pinged (url : string) (r : Response unit) : UptimeData.t :=
  UptimeData.mk url (if res_ok r then healthy else degraded)
    (Some (res_elapsedMs r)) (Some (res_status r)).

Definition downEndpoint (url : string) : UptimeData.t :=
  UptimeData.mk url down None None.

(** What a check of [url] may report: the entry is for that url, its
    status is determined, and the timing and the status code are missing
    exactly when the endpoint is down. *)
Definition consistentEntry (url : string) (d : UptimeData.t) : Prop :=
  UptimeData.url d = url
  /\ UptimeData.status d <> unknown
  /\ (UptimeData.status d = down <-> UptimeData.responseMs d = None)
  /\ (UptimeData.status d = down <-> UptimeData.statusCode d = None)
  /\ (UptimeData.status d = healthy <->
      exists c, UptimeData.statusCode d = Some c /\ 200 <= c <= 299).

(** The first two fetches of a task both reject. *)
Definition bothAttemptsFail {B} (net : nat -> FetchResult B) : Prop :=
  exists t1 t2, net 0%nat = FetchFault t1 /\ net 1%nat = FetchFault t2.

(** The parsed bodies on which an access of the catching copy throws:
    [null], and those whose [deployments] has no [edges]. *)
Definition catchingWrongShape (b : RailwayCatching.RailwayResponse) : Prop :=
  b = RailwayCatching.NullBody
  \/ exists es n, b = RailwayCatching.Shaped es (Some (Some (NoEdges n))).

(** The answers that the catching copy of the deployment adapter turns
    into the status [down]: a rejected fetch, a status outside 2xx, a body
    that cannot be read or parsed, GraphQL errors, or a parsed body of the
    wrong shape. *)
Definition catchingFault (o : FetchResult RailwayCatching.RailwayResponse) : Prop :=
  match o with
  | FetchFault _ => True
  | FetchResponse r =>
      res_ok r = false
      \/ match res_body r with
         | Unreadable _ => True
         | Readable (Garbled _) => True
         | Readable (Parses b) =>
             RailwayCatching.errors b <> None \/ catchingWrongShape b
         end
  end.

(** The parsed bodies on which an access of the propagating copy throws,
    with the TypeError: [null], of which [errors] is read, and those
    without truthy [errors] whose [deployments] has no [edges], of which
    entry 0 is read. *)
Definition propagatingWrongShape (b : RailwayPropagating.RailwayResponse)
    (t : Thrown) : Prop :=
  (b = RailwayPropagating.NullBody /\ t = cannotRead "null" "errors")
  \/ exists n,
       b = RailwayPropagating.Shaped None (Some (Some (Some (NoEdges n))))
       /\ t = cannotRead (nullishText n) "0".

(** The faults that reach the handler of the propagating copy's
    [runRailwayCheck]: a rejected fetch, a body that cannot be read, and a
    2xx answer whose parsed body has the wrong shape. *)
Definition propagatingFault (o : FetchResult RailwayPropagating.RailwayResponse)
    (t : Thrown) : Prop :=
  match o with
  | FetchFault t' => t = t'
  | FetchResponse r =>
      match res_body r with
      | Unreadable t' => t = t'
      | Readable (Garbled _) => False
      | Readable (Parses b) => res_ok r = true /\ propagatingWrongShape b t
      end
  end.

(** What one fetch of the issue tracker yields: the parsed body of a 2xx
    answer, whatever it is, and the empty array for any fault. *)
Definition sentryAnswer (o : FetchResult JSON) : JSON :=
  match o with
  | FetchFault _ => JArr []
  | FetchResponse r =>
      if res_ok r then
        match res_body r with
        | Readable (Parses body) => body
        | _ => JArr []
        end
      else JArr []
  end.

(** [v.key] and [v.length] where the read does not throw, that is, on
    every value but [null]. *)
Definition field (v : JSON) (key : string) : JsVal :=
  match v with
  | JObj fields => lookup fields key
  | _ => None
  end.

Definition lengthValue (v : JSON) : JsVal :=
  match v with
  | JArr items => Some (JNum (Z.of_nat (List.length items)))
  | JStr s => Some (JNum (utf16_length s))
  | JObj fields => lookup fields "length"
  | _ => None
  end.

(** The issue built from an entry that is not [null]. *)
Definition issueOf (v : JSON) : Sentry.Issue :=
  Sentry.mkIssue (field v "id") (field v "title")
    (if truthy (field v "level") then field v "level" else Some (JStr "error"))
    (field v "count") (field v "firstSeen") (field v "lastSeen")
    (field v "permalink").

Definition isNull (v : JSON) : bool :=
  match v with
  | JNull => true
  | _ => false
  end.

(** The parsed values on which [v.slice(0, 5).map(toSentryIssue)] returns:
    the arrays with no [null] among their first five entries. *)
Definition issueList (v : JSON) : bool :=
  match v with
  | JArr items => negb (existsb isNull (firstn 5 items))
  | _ => false
  end.

(** The envelope of the issue-tracker adapter's handler. *)
Definition sentryFaultEnvelope (now : string) (err : Thrown)
  : ToolResult Sentry.Payload :=
  mkToolResult "sentry" false now
    (Sentry.mkPayload (Some (JNum 0)) (Some (JNum 0)) [])
    (Some (errorMessage err)).

(** The url of the issue list for a query. *)
Definition sentryUrl (org project : string)
    (withSearchParams : string -> list (string * string) -> string)
    (query : string) : string :=
  withSearchParams
    (Sentry.SENTRY_API_BASE ++ "/projects/" ++ org ++ "/" ++ project ++ "/issues/")
    [ ("query", query); ("limit", "10"); ("sort", "date") ].

(** The webhook took the message: the fetch resolved with a 2xx status. *)
Definition delivered (o : FetchResult unit) : bool :=
  match o with
  | FetchFault _ => false
  | FetchResponse r => res_ok r
  end.


(** An issue-tracker envelope read at the type its interface declares:
    [r] has the verdict and the error of [e], and the two counts of [e]
    are the numbers that [r] holds. *)
Definition sentryReadsAs (e : ToolResult Sentry.Payload)
    (r : ToolResult SentryData.t) : Prop :=
  success r = success e
  /\ error r = error e
  /\ Sentry.newIssueCount (data e) = Some (JNum (SentryData.newIssueCount (data r)))
  /\ Sentry.unresolvedCount (data e) = Some (JNum (SentryData.unresolvedCount (data r))).

(** * Properties *)

Unset Implicit Arguments.

(** ** Traces and computations *)

Lemma notifications_app (t1 t2 : list Event) :
  notifications (t1 ++ t2) = (notifications t1 ++ notifications t2)%list.
Proof.
  induction t1 as [|e t1 IH]; simpl; [reflexivity|].
  destruct e; simpl; rewrite IH; reflexivity.
Qed.

Lemma console_app (t1 t2 : list Event) :
  console (t1 ++ t2) = (console t1 ++ console t2)%list.
Proof.
  induction t1 as [|e t1 IH]; simpl; [reflexivity|].
  destruct e; simpl; rewrite IH; reflexivity.
Qed.

Lemma HealthStatus_eqb_eq (a b : HealthStatus) :
  HealthStatus_eqb a b = true <-> a = b.
Proof. destruct a, b; simpl; split; congruence. Qed.

Lemma HealthStatus_eqb_neq (a b : HealthStatus) :
  HealthStatus_eqb a b = false <-> a <> b.
Proof. destruct a, b; simpl; split; congruence. Qed.

Lemma forOf_sendAlert (alerts : list Alert.t) (w : World) :
  forOf alerts sendAlert w =
  (inr tt, mkWorld (attempts w)
             (trace w ++ map (fun a => Notify (SendAlert a)) alerts)).
Proof.
  revert w. induction alerts as [|a rest IH]; intros w; simpl.
  - unfold ret. rewrite app_nil_r. destruct w; reflexivity.
  - unfold bind, sendAlert, emit. rewrite IH. simpl.
    rewrite <- app_assoc. reflexivity.
Qed.

(** The quick check on two envelopes, evaluated. *)
Lemma runSilentHealthCheck_fulfilled pid u r w :
  runSilentHealthCheck pid (Fulfilled u) (Fulfilled r) w =
  (inr tt,
   mkWorld (attempts w)
     (trace w
      ++ Log "[SCHEDULER] Running silent health check..."
      :: (if isUptimeDown u || isRailwayDown r
          then map (fun a => Notify (SendAlert a)) (quickAlerts pid u r)
          else [Log passedLine]))).
Proof.
  unfold runSilentHealthCheck, quickAlerts, bind, try_catch, emit, await, ret.
  simpl.
  destruct (isUptimeDown u || isRailwayDown r).
  - rewrite forOf_sendAlert. simpl. rewrite <- app_assoc. reflexivity.
  - simpl. rewrite <- app_assoc. reflexivity.
Qed.

Lemma notifications_sendAlerts (alerts : list Alert.t) :
  notifications (map (fun a => Notify (SendAlert a)) alerts) = map SendAlert alerts.
Proof. induction alerts; simpl; congruence. Qed.

Lemma console_sendAlerts (alerts : list Alert.t) :
  console (map (fun a => Notify (SendAlert a)) alerts) = [].
Proof. induction alerts; simpl; congruence. Qed.

(** What the quick check tells the notifier, for any two envelopes. *)
Lemma quick_notifications pid u r w :
  notifications (trace (snd (runSilentHealthCheck pid (Fulfilled u) (Fulfilled r) w)))
  = (notifications (trace w) ++ map SendAlert (quickAlerts pid u r))%list.
Proof.
  rewrite runSilentHealthCheck_fulfilled. simpl.
  rewrite notifications_app. simpl. f_equal.
  destruct (isUptimeDown u || isRailwayDown r) eqn:E.
  - apply notifications_sendAlerts.
  - apply orb_false_elim in E. destruct E as [Eu Er].
    unfold quickAlerts. rewrite Eu, Er. reflexivity.
Qed.

(** A rejected adapter promise on the quick path lands in the outer
    handler: nothing reaches the notifier. *)
Lemma quick_rejected_is_silent pid u reason w :
  notifications
    (trace (snd (runSilentHealthCheck pid (Fulfilled u) (Rejected reason) w)))
  = notifications (trace w).
Proof.
  unfold runSilentHealthCheck, bind, try_catch, emit, await, ret, throw. simpl.
  rewrite !notifications_app. simpl. rewrite !app_nil_r. reflexivity.
Qed.

Lemma forallb_healthy_no_down (eps : list UptimeData.t) :
  Forall (fun e => UptimeData.status e = healthy) eps ->
  existsb (fun e => HealthStatus_eqb (UptimeData.status e) down) eps = false.
Proof.
  induction 1 as [|e eps He _ IH]; simpl; [reflexivity|].
  rewrite He, IH. reflexivity.
Qed.

Lemma filter_singleton_existsb {A} (p : A -> bool) (xs : list A) (x : A) :
  filter p xs = [x] -> existsb p xs = true.
Proof.
  intros H. apply existsb_exists. exists x.
  assert (Hin : In x (filter p xs)) by (rewrite H; left; reflexivity).
  apply filter_In in Hin. exact Hin.
Qed.

(** ** Status derivation of the morning briefing *)

Lemma overallStatus_precedence u s r :
  overallStatus u s r = precedence [uptimeStatus u; supabaseStatus s; railwayStatus r].
Proof. reflexivity. Qed.

(** The uptime slot votes [healthy] or [degraded], nothing else. *)
Lemma uptimeStatus_two_valued u :
  uptimeStatus u = healthy \/ uptimeStatus u = degraded.
Proof.
  unfold uptimeStatus. destruct (ex_data u) as [d|]; [|right; reflexivity].
  destruct (forallb _ d); [left|right]; reflexivity.
Qed.

Lemma uptimeStatus_down_endpoint (u : ToolResult (list UptimeData.t)) :
  existsb (fun e => HealthStatus_eqb (UptimeData.status e) down) (data u) = true ->
  uptimeStatus (Envelope u) = degraded.
Proof.
  intros H. unfold uptimeStatus. simpl.
  destruct (forallb _ (data u)) eqn:F; [|reflexivity].
  apply existsb_exists in H. destruct H as [e [Hin He]].
  rewrite forallb_forall in F. specialize (F e Hin).
  apply HealthStatus_eqb_eq in He, F. congruence.
Qed.

(** Among the votes that are cast, [down] beats [degraded] beats
    [healthy]; only the datastore and the deployment can cast [down]. *)
Lemma overallStatus_down_iff u s r :
  overallStatus u s r = down <-> supabaseStatus s = down \/ railwayStatus r = down.
Proof.
  rewrite overallStatus_precedence.
  destruct (uptimeStatus_two_valued u) as [E|E]; rewrite E;
    destruct (supabaseStatus s), (railwayStatus r); cbn; split; intros H;
    try reflexivity; try discriminate; try (left; reflexivity);
    try (right; reflexivity); destruct H; discriminate.
Qed.

Lemma overallStatus_healthy_iff u s r :
  overallStatus u s r = healthy <->
  uptimeStatus u = healthy
  /\ (supabaseStatus s = healthy \/ supabaseStatus s = unknown)
  /\ (railwayStatus r = healthy \/ railwayStatus r = unknown).
Proof.
  rewrite overallStatus_precedence.
  destruct (uptimeStatus_two_valued u) as [E|E]; rewrite E;
    destruct (supabaseStatus s), (railwayStatus r); cbn; split; intros H;
    try discriminate; try tauto;
    destruct H as [H1 [[H2|H2] [H3|H3]]]; discriminate.
Qed.

(** C1 (as the code has it): a down uptime endpoint is voted [degraded]:
    whenever the uptime envelope lists a down endpoint and neither the
    datastore nor the deployment reports down, the overall status of the
    briefing is [degraded], not [down]. *)
Theorem C1_down_endpoint_votes_degraded :
  forall (u : ToolResult (list UptimeData.t)) s r,
    existsb (fun e => HealthStatus_eqb (UptimeData.status e) down) (data u) = true ->
    supabaseStatus s <> down ->
    railwayStatus r <> down ->
    overallStatus (Envelope u) s r = degraded.
Proof.
  intros u s r Hd Hs Hr.
  rewrite overallStatus_precedence, (uptimeStatus_down_endpoint u Hd).
  destruct (supabaseStatus s), (railwayStatus r); cbn; congruence.
Qed.

Lemma C1_down_endpoint_votes_degraded_witness :
  overallStatus
    (Envelope (mkToolResult "uptime" true "2026-02-24T08:00:00.000Z"
                 [ UptimeData.mk "https://crimsonforge.pro" healthy (Some 187) (Some 200);
                   UptimeData.mk "https://api.crimsonforge.pro/health" down None None ]
                 None))
    (Envelope (mkToolResult "supabase" true "2026-02-24T08:00:00.000Z"
                 (SupabaseData.mk healthy 12 7 87 34 []) None))
    (Envelope (mkToolResult "railway" true "2026-02-24T08:00:00.000Z"
                 (RailwayData.mk healthy (Some "SUCCESS") (Some "2026-02-23T19:12:00.000Z"))
                 None))
  = degraded.
Proof.
  apply C1_down_endpoint_votes_degraded.
  - reflexivity.
  - simpl. discriminate.
  - simpl. discriminate.
Defined.

(** The envelope [runSupabaseCheck] returns when the connection check
    reports an error. *)
Lemma runSupabaseCheck_connection_error now nowMs db r message w :
  Supabase.q_connection db = Fulfilled r ->
  Supabase.pg_error r = Some message ->
  Supabase.runSupabaseCheck now nowMs db w =
  (inr (mkToolResult "supabase" false now (SupabaseData.mk down 0 0 0 0 [])
          (Some ("Database connection failed: " ++ message))), w).
Proof.
  intros Hq He.
  unfold Supabase.runSupabaseCheck, try_catch, bind. rewrite Hq. simpl.
  rewrite He. reflexivity.
Qed.

(** Whatever goes wrong, the datastore envelope with [success = false]
    says that the connection is down. *)
Lemma runSupabaseCheck_faulted now nowMs db e :
  produces (Supabase.runSupabaseCheck now nowMs db) e ->
  success e = false ->
  SupabaseData.connectionStatus (data e) = down.
Proof.
  intros [w [w' H]] Hs.
  unfold Supabase.runSupabaseCheck, try_catch, bind, await, ret, throw in H.
  destruct (Supabase.q_connection db) as [c|t]; simpl in H.
  2: { inversion H; subst; reflexivity. }
  destruct (Supabase.pg_error c); simpl in H.
  1: { inversion H; subst; reflexivity. }
  destruct (Supabase.q_shops db); simpl in H.
  2: { inversion H; subst; reflexivity. }
  destruct (Supabase.q_activeShops db); simpl in H.
  2: { inversion H; subst; reflexivity. }
  destruct (Supabase.q_tickets db); simpl in H.
  2: { inversion H; subst; reflexivity. }
  destruct (Supabase.q_aiSessions db); simpl in H.
  2: { inversion H; subst; reflexivity. }
  destruct (Supabase.q_silentShops db); simpl in H.
  2: { inversion H; subst; reflexivity. }
  inversion H; subst. simpl in Hs. discriminate.
Qed.

(** The deployment adapter's envelope with [success = false] carries the
    status [unknown], in both copies of the file. *)
Lemma runRailwayCheck_propagating_cases now net w :
  exists e w',
    RailwayPropagating.runRailwayCheck now net w = (inr e, w')
    /\ ((success e = true /\ error e = None)
        \/ (exists t,
              success e = false
              /\ error e = Some (errorMessage t)
              /\ data e = unknownStatus
              /\ (net (attempts w) = FetchFault t
                  \/ exists r, net (attempts w) = FetchResponse r
                               /\ res_body r = Unreadable t))
        \/ (exists r b what key,
              success e = false
              /\ error e = Some (errorMessage (cannotRead what key))
              /\ data e = unknownStatus
              /\ net (attempts w) = FetchResponse r
              /\ res_ok r = true
              /\ res_body r = Readable (Parses b)
              /\ propagatingWrongShape b (cannotRead what key))).
Proof.
  unfold RailwayPropagating.runRailwayCheck, RailwayPropagating.fetchRailwayStatus,
    bind, fetch, text, try_catch, JSON_parse, ret, throw, emit.
  destruct (net (attempts w)) as [t|r] eqn:E; simpl.
  - do 2 eexists; split; [reflexivity|]. right. left. exists t. simpl. auto.
  - destruct (res_body r) as [t|txt] eqn:Eb; simpl.
    + do 2 eexists; split; [reflexivity|]. right. left. exists t. simpl.
      repeat split; try reflexivity. right. exists r. auto.
    + destruct (res_ok r) eqn:Eo; simpl.
      2: { do 2 eexists; split; [reflexivity|]. left. auto. }
      destruct txt as [m|b]; simpl.
      { do 2 eexists; split; [reflexivity|]. left. auto. }
      destruct b as [|es sv]; simpl.
      { do 2 eexists; split; [reflexivity|]. right. right.
        exists r, RailwayPropagating.NullBody, "null", "errors". simpl.
        repeat split; try reflexivity; try assumption. left. split; reflexivity. }
      destruct es as [es|]; simpl.
      { do 2 eexists; split; [reflexivity|]. left. auto. }
      destruct sv as [[[[n|edges]|]|]|]; simpl.
      * do 2 eexists; split; [reflexivity|]. right. right.
        exists r, (RailwayPropagating.Shaped None (Some (Some (Some (NoEdges n))))),
          (nullishText n), "0". simpl.
        repeat split; try reflexivity; try assumption. right. exists n.
        split; reflexivity.
      * destruct (firstNode edges); simpl;
          do 2 eexists; (split; [reflexivity|]); left; auto.
      * do 2 eexists; split; [reflexivity|]. left. auto.
      * do 2 eexists; split; [reflexivity|]. left. auto.
      * do 2 eexists; split; [reflexivity|]. left. auto.
Qed.

Lemma cannotRead_not_blank what key : errorMessage (cannotRead what key) <> "".
Proof. unfold cannotRead. simpl. discriminate. Qed.

Lemma notAFunction_not_blank expression :
  errorMessage (notAFunction expression) <> "".
Proof.
  unfold notAFunction. simpl. destruct expression; simpl; discriminate.
Qed.

Lemma runRailwayCheck_propagating_faulted now net e :
  produces (RailwayPropagating.runRailwayCheck now net) e ->
  success e = false ->
  RailwayData.status (data e) = unknown.
Proof.
  intros [w [w' H]] Hs.
  destruct (runRailwayCheck_propagating_cases now net w) as [e' [w'' [H' C]]].
  rewrite H in H'. inversion H'; subst e' w''.
  destruct C as [[C _]|[[t [_ [_ [C _]]]]|[r [b [what [key [_ [_ [C _]]]]]]]]];
    [congruence| |]; rewrite C; reflexivity.
Qed.

(** C2 (as stated, refuted): a source with [success = false] can by
    itself force the overall status to [down]: the datastore envelope of a
    failed connection check does, while the other two sources are healthy. *)
Lemma C2_counterexample :
  ~ (forall u s r,
        (ex_success u = false ->
         precedence [supabaseStatus s; railwayStatus r] <> down ->
         overallStatus u s r <> down)
        /\ (ex_success s = false ->
            precedence [uptimeStatus u; railwayStatus r] <> down ->
            overallStatus u s r <> down)
        /\ (ex_success r = false ->
            precedence [uptimeStatus u; supabaseStatus s] <> down ->
            overallStatus u s r <> down)).
Proof.
  intros H.
  specialize
    (H (Envelope (mkToolResult "uptime" true "2026-02-24T08:00:00.000Z"
                    [ UptimeData.mk "https://crimsonforge.pro" healthy (Some 187) (Some 200) ]
                    None))
       (Envelope (mkToolResult "supabase" false "2026-02-24T08:00:00.000Z"
                    (SupabaseData.mk down 0 0 0 0 [])
                    (Some "Database connection failed: timeout")))
       (Envelope (mkToolResult "railway" true "2026-02-24T08:00:00.000Z"
                    (RailwayData.mk healthy (Some "SUCCESS") None) None))).
  destruct H as [_ [H _]]. apply H.
  - reflexivity.
  - cbv. discriminate.
  - reflexivity.
Qed.

(** The envelope of that counterexample is the one [runSupabaseCheck]
    returns when the connection check reports the error "timeout". *)
Example runSupabaseCheck_on_connection_timeout :
  fst (Supabase.runSupabaseCheck "2026-02-24T08:00:00.000Z" 1771920000000
         (Supabase.mkQueries
            (Fulfilled (Supabase.mkPostgrestResponse None None (Some "timeout")))
            (Rejected JsOther) (Rejected JsOther) (Rejected JsOther)
            (Rejected JsOther) (Rejected JsOther))
         World0)
  = inr (mkToolResult "supabase" false "2026-02-24T08:00:00.000Z"
           (SupabaseData.mk down 0 0 0 0 [])
           (Some "Database connection failed: timeout")).
Proof. reflexivity. Qed.

(** An uptime envelope with [success = false] carries no endpoint, and
    the empty list is voted [healthy]. *)
Example faulted_uptime_envelope_votes_healthy :
  uptimeStatus (Envelope (mkToolResult "uptime" false "2026-02-24T08:00:00.000Z" []
                            (Some "Unknown error")))
  = healthy.
Proof. reflexivity. Qed.

(** C2 (amended): the derivation never reads [success]: the votes and
    the overall status are functions of the three payloads alone. The
    uptime slot always votes, [healthy] when its payload is present and
    every endpoint in it is healthy, [degraded] otherwise. A datastore or
    deployment slot is left out of the vote exactly when its status is
    [unknown], that is, when its payload is absent or says [unknown], and
    then the overall status is the precedence of the other two; this is
    the case of a rejected adapter and of the deployment adapter's envelope
    with [success = false]. The datastore adapter's envelope with
    [success = false] says [down] and drives the overall status to
    [down]. *)
Theorem C2_unknown_left_out_faulted_datastore_down :
  forall u s r,
    (supabaseStatus s = unknown ->
     overallStatus u s r = precedence [uptimeStatus u; railwayStatus r])
    /\ (railwayStatus r = unknown ->
        overallStatus u s r = precedence [uptimeStatus u; supabaseStatus s])
    /\ (forall reason,
          supabaseStatus (getResult (Rejected reason)) = unknown
          /\ railwayStatus (getResult (Rejected reason)) = unknown)
    /\ (forall now net e,
          produces (RailwayPropagating.runRailwayCheck now net) e ->
          success e = false ->
          railwayStatus (Envelope e) = unknown)
    /\ (forall now nowMs db e,
          produces (Supabase.runSupabaseCheck now nowMs db) e ->
          success e = false ->
          overallStatus u (Envelope e) r = down)
    /\ (forall u' s' r',
          ex_data u' = ex_data u ->
          ex_data s' = ex_data s ->
          ex_data r' = ex_data r ->
          statuses u' s' r' = statuses u s r
          /\ overallStatus u' s' r' = overallStatus u s r)
    /\ statuses u s r
       = (uptimeStatus u
          :: (if HealthStatus_eqb (supabaseStatus s) unknown then []
              else [supabaseStatus s])
          ++ (if HealthStatus_eqb (railwayStatus r) unknown then []
              else [railwayStatus r]))%list
    /\ overallStatus u s r
       = (if includes (statuses u s r) down then down
          else if includes (statuses u s r) degraded then degraded
          else healthy)
    /\ (uptimeStatus u = healthy <->
        exists d, ex_data u = Some d
                  /\ Forall (fun e => UptimeData.status e = healthy) d)
    /\ (uptimeStatus u <> healthy -> uptimeStatus u = degraded)
    /\ (supabaseStatus s = unknown <->
        statuses u s r
        = filter (fun st => negb (HealthStatus_eqb st unknown))
            [uptimeStatus u; railwayStatus r])
    /\ (railwayStatus r = unknown <->
        statuses u s r
        = filter (fun st => negb (HealthStatus_eqb st unknown))
            [uptimeStatus u; supabaseStatus s])
    /\ (supabaseStatus s = unknown <->
        ex_data s = None
        \/ exists d, ex_data s = Some d /\ SupabaseData.connectionStatus d = unknown)
    /\ (railwayStatus r = unknown <->
        ex_data r = None
        \/ exists d, ex_data r = Some d /\ RailwayData.status d = unknown).
Proof.
  intros u s r.
  assert (Votes : statuses u s r
                  = (uptimeStatus u
                     :: (if HealthStatus_eqb (supabaseStatus s) unknown then []
                         else [supabaseStatus s])
                     ++ (if HealthStatus_eqb (railwayStatus r) unknown then []
                         else [railwayStatus r]))%list).
  { unfold statuses. fold (supabaseStatus s). fold (railwayStatus r). cbn [filter].
    destruct (uptimeStatus_two_valued u) as [U|U]; rewrite U; cbn [HealthStatus_eqb negb];
      destruct (supabaseStatus s); destruct (railwayStatus r); reflexivity. }
  split; [|split; [|split; [|split; [|split; [|split; [|split; [|split;
    [|split; [|split; [|split; [|split; [|split]]]]]]]]]]]].
  - intros E. rewrite overallStatus_precedence, E.
    destruct (uptimeStatus_two_valued u) as [U|U]; rewrite U;
      destruct (railwayStatus r); reflexivity.
  - intros E. rewrite overallStatus_precedence, E.
    destruct (uptimeStatus_two_valued u) as [U|U]; rewrite U;
      destruct (supabaseStatus s); reflexivity.
  - intros reason. split; reflexivity.
  - intros now net e P Hs. unfold railwayStatus. simpl.
    apply (runRailwayCheck_propagating_faulted _ _ _ P Hs).
  - intros now nowMs db e P Hs. apply overallStatus_down_iff. left.
    unfold supabaseStatus. simpl. apply (runSupabaseCheck_faulted _ _ _ _ P Hs).
  - intros u' s' r' Hu Hs Hr.
    unfold overallStatus, statuses, uptimeStatus. rewrite Hu, Hs, Hr.
    split; reflexivity.
  - exact Votes.
  - reflexivity.
  - unfold uptimeStatus. destruct (ex_data u) as [d|].
    + destruct (forallb _ d) eqn:F.
      * split; [|reflexivity]. intros _. exists d. split; [reflexivity|].
        apply Forall_forall. intros e Hin. rewrite forallb_forall in F.
        apply HealthStatus_eqb_eq. apply F. exact Hin.
      * split; [discriminate|]. intros [d' [H A]]. injection H as <-.
        assert (F' : forallb (fun e => HealthStatus_eqb (UptimeData.status e) healthy) d
                     = true).
        { apply forallb_forall. intros e Hin. apply HealthStatus_eqb_eq.
          rewrite Forall_forall in A. apply A. exact Hin. }
        congruence.
    + split; [discriminate|]. intros [d [H _]]. discriminate.
  - intros H. destruct (uptimeStatus_two_valued u) as [U|U]; [contradiction|exact U].
  - rewrite Votes. cbn [filter].
    destruct (uptimeStatus_two_valued u) as [U|U]; rewrite U; cbn [HealthStatus_eqb negb];
      destruct (supabaseStatus s); destruct (railwayStatus r);
      cbn [HealthStatus_eqb negb app];
      split; intros H; try reflexivity; try discriminate H.
  - rewrite Votes. cbn [filter].
    destruct (uptimeStatus_two_valued u) as [U|U]; rewrite U; cbn [HealthStatus_eqb negb];
      destruct (supabaseStatus s); destruct (railwayStatus r);
      cbn [HealthStatus_eqb negb app];
      split; intros H; try reflexivity; try discriminate H.
  - unfold supabaseStatus. destruct (ex_data s) as [d|]; simpl.
    + split.
      * intros H. right. exists d. split; [reflexivity|exact H].
      * intros [H|[d' [H H']]]; [discriminate|]. injection H as <-. exact H'.
    + split; [intros _; left; reflexivity|reflexivity].
  - unfold railwayStatus. destruct (ex_data r) as [d|]; simpl.
    + split.
      * intros H. right. exists d. split; [reflexivity|exact H].
      * intros [H|[d' [H H']]]; [discriminate|]. injection H as <-. exact H'.
    + split; [intros _; left; reflexivity|reflexivity].
Qed.

Lemma C2_unknown_left_out_faulted_datastore_down_witness :
  overallStatus
    (Envelope (mkToolResult "uptime" true "2026-02-24T08:00:00.000Z"
                 [ UptimeData.mk "https://crimsonforge.pro" healthy (Some 187) (Some 200) ]
                 None))
    (Envelope (mkToolResult "supabase" false "2026-02-24T08:00:00.000Z"
                 (SupabaseData.mk down 0 0 0 0 [])
                 (Some "Database connection failed: timeout")))
    (getResult (Rejected (JsError "socket hang up")))
  = down
  /\ overallStatus
       (Envelope (mkToolResult "uptime" true "2026-02-24T08:00:00.000Z"
                    [ UptimeData.mk "https://crimsonforge.pro" healthy (Some 187) (Some 200) ]
                    None))
       (Envelope (mkToolResult "supabase" true "2026-02-24T08:00:00.000Z"
                    (SupabaseData.mk healthy 12 7 87 34 []) None))
       (getResult (Rejected (JsError "socket hang up")))
     = healthy.
Proof.
  split.
  - refine (proj1 (proj2 (proj2 (proj2 (proj2
      (C2_unknown_left_out_faulted_datastore_down _ (Bare "unused") _)))))
      "2026-02-24T08:00:00.000Z" 0
      (Supabase.mkQueries
         (Fulfilled (Supabase.mkPostgrestResponse None None (Some "timeout")))
         (Rejected JsOther) (Rejected JsOther) (Rejected JsOther)
         (Rejected JsOther) (Rejected JsOther))
      _ _ _).
    + exists World0, World0. reflexivity.
    + reflexivity.
  - rewrite (proj1 (proj2 (C2_unknown_left_out_faulted_datastore_down _ _ _)));
      reflexivity.
Defined.

(** ** Alerts and report of the morning briefing *)

(** C3 (as stated, refuted): an uptime envelope with [success = true] and
    a down endpoint does not put a critical alert into the briefing. *)
Lemma C3_counterexample :
  ~ (forall org now (u : ToolResult (list UptimeData.t)) supabase sentry railway email,
        success u = true ->
        existsb (fun e => HealthStatus_eqb (UptimeData.status e) down) (data u) = true ->
        exists a,
          In a (MorningBriefing.alerts
                  (buildBriefing org now (Fulfilled u) supabase sentry railway email))
          /\ Alert.severity a = critical).
Proof.
  intros H.
  destruct
    (H (Some "crimson-forge") "2026-02-24T08:00:00.000Z"
       (mkToolResult "uptime" true "2026-02-24T08:00:00.000Z"
          [ UptimeData.mk "https://crimsonforge.pro" healthy (Some 187) (Some 200);
            UptimeData.mk "https://api.crimsonforge.pro/health" down None None ]
          None)
       (Fulfilled (mkToolResult "supabase" true "2026-02-24T08:00:00.000Z"
                     (SupabaseData.mk healthy 12 7 87 34 []) None))
       (Fulfilled (mkToolResult "sentry" true "2026-02-24T08:00:00.000Z"
                     (SentryData.mk 0 4 []) None))
       (Fulfilled (mkToolResult "railway" true "2026-02-24T08:00:00.000Z"
                     (RailwayData.mk healthy (Some "SUCCESS") None) None))
       (Fulfilled (mkToolResult "email" false "2026-02-24T08:00:00.000Z"
                     (EmailData.mk unknown 0 "2026-02-24T08:00:00.000Z")
                     (Some "Email check not yet implemented")))
       eq_refl eq_refl) as [a [Hin _]].
  exact Hin.
Qed.

(** C3 (amended): the full cycle builds no critical alert, also when the
    uptime envelope has [success = true] and lists down endpoints. The
    alerts of the report are, in this order and nothing else: one warning
    alert of the issue tracker, exactly when its payload is present with a
    new-issue count that is not zero, and one info alert of the datastore,
    exactly when its payload is present with silent shops. The down
    endpoints are carried by the uptime slot of the report, which is the
    adapter's envelope unchanged. The critical alert that lists the down
    endpoints is sent by the quick check. *)
Theorem C3_briefing_alerts_are_warning_or_info :
  forall org now uptime supabase sentry railway email,
    let briefing := buildBriefing org now uptime supabase sentry railway email in
    Forall (fun a =>
              (Alert.severity a = warning /\ Alert.tool a = "sentry")
              \/ (Alert.severity a = info /\ Alert.tool a = "supabase"))
           (MorningBriefing.alerts briefing)
    /\ (List.length (MorningBriefing.alerts briefing) <= 2)%nat
    /\ MorningBriefing.uptime briefing = getResult uptime
    /\ (forall a, In a (MorningBriefing.alerts briefing) ->
                  Alert.severity a <> critical)
    /\ (forall u, uptime = Fulfilled u -> MorningBriefing.uptime briefing = Envelope u)
    /\ (exists warnings infos,
          MorningBriefing.alerts briefing = (warnings ++ infos)%list
          /\ (warnings = []
              \/ exists d,
                   ex_data (getResult sentry) = Some d
                   /\ SentryData.newIssueCount d <> 0
                   /\ warnings =
                      [ Alert.mk warning "sentry"
                          (show_number (SentryData.newIssueCount d)
                           ++ " new error issues detected")
                          None
                          (Some ("https://sentry.io/organizations/"
                                 ++ show_env org ++ "/issues/")) ])
          /\ ((exists d, ex_data (getResult sentry) = Some d
                         /\ SentryData.newIssueCount d <> 0) ->
              warnings <> [])
          /\ (infos = []
              \/ exists d,
                   ex_data (getResult supabase) = Some d
                   /\ SupabaseData.silentShops d <> []
                   /\ infos =
                      [ Alert.mk info "supabase"
                          (show_number (Z.of_nat (List.length (SupabaseData.silentShops d)))
                           ++ " shops inactive for 3+ days")
                          None None ])
          /\ ((exists d, ex_data (getResult supabase) = Some d
                         /\ SupabaseData.silentShops d <> []) ->
              infos <> []))
    /\ (forall pid (u : ToolResult (list UptimeData.t)) r w,
          success u = true ->
          existsb (fun e => HealthStatus_eqb (UptimeData.status e) down) (data u) = true ->
          exists rest,
            notifications
              (trace (snd (runSilentHealthCheck pid (Fulfilled u) (Fulfilled r) w)))
            = (notifications (trace w)
               ++ SendAlert
                    (Alert.mk critical "uptime" "Services are DOWN"
                       (Some (join ", "
                                (map UptimeData.url
                                   (filter (fun e => HealthStatus_eqb (UptimeData.status e) down)
                                      (data u)))))
                       None)
                  :: rest)%list).
Proof.
  intros org now uptime supabase sentry railway email.
  cbv zeta. unfold buildBriefing, buildAlerts.
  cbn [MorningBriefing.alerts MorningBriefing.uptime].
  split; [|split; [|split; [reflexivity|split; [|split; [|split]]]]].
  - destruct (sentryCondition (getResult sentry));
      destruct (0 <? Z.of_nat (List.length (silentShopsOf (getResult supabase))));
      cbn [app];
      repeat match goal with
             | |- Forall _ (_ :: _) => apply Forall_cons
             | |- Forall _ [] => apply Forall_nil
             end;
      try (left; split; reflexivity); right; split; reflexivity.
  - destruct (sentryCondition (getResult sentry));
      destruct (0 <? Z.of_nat (List.length (silentShopsOf (getResult supabase))));
      simpl; lia.
  - intros a Hin. apply in_app_or in Hin. destruct Hin as [Hin|Hin].
    + destruct (sentryCondition (getResult sentry)); [|destruct Hin].
      destruct Hin as [<-|[]]. discriminate.
    + cbv zeta in Hin.
      destruct (0 <? Z.of_nat (List.length (silentShopsOf (getResult supabase))));
        [|destruct Hin].
      destruct Hin as [<-|[]]. discriminate.
  - intros u ->. reflexivity.
  - eexists. eexists. split; [reflexivity|].
    unfold sentryCondition, sentryAlert, silentShopsOf, silentShopsAlert.
    split; [|split; [|split]].
    + destruct (ex_data (getResult sentry)) as [d|]; cbn [option_map].
      * destruct (SentryData.newIssueCount d =? 0) eqn:E; cbn [negb]; [left; reflexivity|].
        right. exists d. apply Z.eqb_neq in E. auto.
      * left. reflexivity.
    + intros [d [-> N]]. cbn [option_map]. apply Z.eqb_neq in N. rewrite N.
      discriminate.
    + destruct (ex_data (getResult supabase)) as [d|]; cbn [option_map].
      * destruct (SupabaseData.silentShops d) as [|x l] eqn:E; [left; reflexivity|].
        right. exists d. rewrite E. split; [reflexivity|]. split; [discriminate|].
        reflexivity.
      * left. reflexivity.
    + intros [d [-> N]]. cbn [option_map].
      destruct (SupabaseData.silentShops d) as [|x l]; [contradiction|]. discriminate.
  - intros pid u r w Hs Hd. rewrite quick_notifications.
    unfold quickAlerts, isUptimeDown. rewrite Hs, Hd. cbn [andb app map].
    eexists. reflexivity.
Qed.

(** [getResult] turns a rejection into an envelope-like object with
    [success = false] and a non-empty error. *)
Lemma getResult_rejected {T} (reason : Thrown) :
  exists m, @getResult T (Rejected reason) = Bare m /\ m <> "".
Proof.
  destruct reason as [m| |m]; simpl.
  - unfold or_string, truthy_string. destruct (String.eqb m "") eqn:E; simpl.
    + eexists; split; [reflexivity|discriminate].
    + exists m; split; [reflexivity|]. apply String.eqb_neq. exact E.
  - eexists; split; [reflexivity|discriminate].
  - unfold or_string, truthy_string. destruct (String.eqb m "") eqn:E; simpl.
    + eexists; split; [reflexivity|discriminate].
    + exists m; split; [reflexivity|]. apply String.eqb_neq. exact E.
Qed.

(** C4: whatever the five adapters did, each one fulfilled with an
    envelope of either [success] value or rejected, the full cycle returns
    without throwing and hands exactly one report to the notifier; the
    report holds one slot per adapter, the slot of a rejected adapter
    having [success = false] and a non-empty error. *)
Theorem C4_full_cycle_always_reports :
  forall org now stringify uptime supabase sentry railway email w,
    exists w',
      runMorningBriefing org now stringify uptime supabase sentry railway email w
      = (inr tt, w')
      /\ notifications (trace w') =
         (notifications (trace w)
          ++ [SendBriefing (buildBriefing org now uptime supabase sentry railway email)])%list
      /\ (let briefing := buildBriefing org now uptime supabase sentry railway email in
          MorningBriefing.uptime briefing = getResult uptime
          /\ MorningBriefing.supabase briefing = getResult supabase
          /\ MorningBriefing.sentry briefing = getResult sentry
          /\ MorningBriefing.railway briefing = getResult railway
          /\ MorningBriefing.email briefing = getResult email)
      /\ (forall (T : Type) reason,
            ex_success (@getResult T (Rejected reason)) = false
            /\ exists m, ex_error (@getResult T (Rejected reason)) = Some m /\ m <> "").
Proof.
  intros org now stringify uptime supabase sentry railway email w.
  eexists. split; [reflexivity|]. split; [|split].
  - simpl. rewrite !notifications_app. simpl.
    rewrite !app_nil_r. reflexivity.
  - simpl. repeat split.
  - intros T reason. split; [reflexivity|].
    destruct (@getResult_rejected T reason) as [m [E N]].
    exists m. rewrite E. split; [reflexivity|exact N].
Qed.

(** ** The quick check *)

(** C5: when every endpoint of the uptime envelope is healthy and the
    deployment envelope's status is healthy, the quick check returns
    without a single call to the notifier. *)
Theorem C5_quick_path_silence :
  forall pid (u : ToolResult (list UptimeData.t)) (r : ToolResult RailwayData.t) w,
    Forall (fun e => UptimeData.status e = healthy) (data u) ->
    RailwayData.status (data r) = healthy ->
    fst (runSilentHealthCheck pid (Fulfilled u) (Fulfilled r) w) = inr tt
    /\ notifications
         (trace (snd (runSilentHealthCheck pid (Fulfilled u) (Fulfilled r) w)))
       = notifications (trace w).
Proof.
  intros pid u r w Hu Hr. split.
  - rewrite runSilentHealthCheck_fulfilled. reflexivity.
  - rewrite quick_notifications. unfold quickAlerts, isUptimeDown, isRailwayDown.
    rewrite (forallb_healthy_no_down _ Hu), Hr, !andb_false_r. simpl.
    apply app_nil_r.
Qed.

Lemma C5_quick_path_silence_witness :
  notifications
    (trace (snd (runSilentHealthCheck (Some "crimson-forge")
                   (Fulfilled (mkToolResult "uptime" true "2026-02-24T08:15:00.000Z"
                      [ UptimeData.mk "https://crimsonforge.pro" healthy (Some 187) (Some 200);
                        UptimeData.mk "https://api.crimsonforge.pro/health" healthy (Some 92) (Some 200) ]
                      None))
                   (Fulfilled (mkToolResult "railway" true "2026-02-24T08:15:00.000Z"
                      (RailwayData.mk healthy (Some "SUCCESS") None) None))
                   World0)))
  = [].
Proof.
  refine (proj2 (C5_quick_path_silence _ _ _ World0 _ _)).
  - repeat constructor.
  - reflexivity.
Defined.

(** C6: when the uptime envelope has [success = true] and exactly one of
    its endpoints is down while the deployment status is not down, the
    quick check delivers exactly one alert to the notifier: a critical
    one of the uptime tool whose details are that endpoint's url. *)
Theorem C6_quick_path_escalation :
  forall pid (u : ToolResult (list UptimeData.t)) (r : ToolResult RailwayData.t) e w,
    success u = true ->
    filter (fun x => HealthStatus_eqb (UptimeData.status x) down) (data u) = [e] ->
    RailwayData.status (data r) <> down ->
    fst (runSilentHealthCheck pid (Fulfilled u) (Fulfilled r) w) = inr tt
    /\ notifications
         (trace (snd (runSilentHealthCheck pid (Fulfilled u) (Fulfilled r) w)))
       = (notifications (trace w)
          ++ [SendAlert (Alert.mk critical "uptime" "Services are DOWN"
                           (Some (UptimeData.url e)) None)])%list.
Proof.
  intros pid u r e w Hs Hf Hr. split.
  - rewrite runSilentHealthCheck_fulfilled. reflexivity.
  - rewrite quick_notifications. f_equal.
    unfold quickAlerts, isUptimeDown, isRailwayDown.
    rewrite Hs, (filter_singleton_existsb _ _ _ Hf).
    apply HealthStatus_eqb_neq in Hr. rewrite Hr, andb_false_r. simpl.
    unfold uptimeDownAlert, downEndpoints. rewrite Hf. reflexivity.
Qed.

Lemma C6_quick_path_escalation_witness :
  notifications
    (trace (snd (runSilentHealthCheck (Some "crimson-forge")
                   (Fulfilled (mkToolResult "uptime" true "2026-02-24T08:15:00.000Z"
                      [ UptimeData.mk "https://crimsonforge.pro" healthy (Some 187) (Some 200);
                        UptimeData.mk "https://api.crimsonforge.pro/health" down None None ]
                      None))
                   (Fulfilled (mkToolResult "railway" true "2026-02-24T08:15:00.000Z"
                      (RailwayData.mk degraded (Some "DEPLOYING") None) None))
                   World0)))
  = [SendAlert (Alert.mk critical "uptime" "Services are DOWN"
                  (Some "https://api.crimsonforge.pro/health") None)].
Proof.
  refine (proj2 (C6_quick_path_escalation _ _ _
                   (UptimeData.mk "https://api.crimsonforge.pro/health" down None None)
                   World0 _ _ _)).
  - reflexivity.
  - reflexivity.
  - simpl. discriminate.
Defined.

(** C7 (as stated, refuted): a quick check whose uptime adapter faulted
    ([success = false]) while the deployment is healthy is treated as
    all-healthy: it tells the notifier nothing and logs that the check
    passed. *)
Lemma C7_counterexample :
  ~ (forall pid (u : ToolResult (list UptimeData.t)) (r : ToolResult RailwayData.t),
        success u = false \/ success r = false ->
        let w' := snd (runSilentHealthCheck pid (Fulfilled u) (Fulfilled r) World0) in
        ~ (notifications (trace w') = [] /\ In passedLine (console (trace w')))).
Proof.
  intros H.
  apply (H (Some "crimson-forge")
           (mkToolResult "uptime" false "2026-02-24T08:15:00.000Z" []
              (Some "fetch failed"))
           (mkToolResult "railway" true "2026-02-24T08:15:00.000Z"
              (RailwayData.mk healthy (Some "SUCCESS") None) None)).
  - left. reflexivity.
  - split; [reflexivity|]. simpl. right. left. reflexivity.
Qed.

(** C7 (amended): the down test of each adapter is gated on that adapter's
    own [success]: a result with [success = false] raises no alert of its
    own, and the run is silent and logs that the check passed exactly when
    the other adapter is not down; the alert for a down condition that the
    other adapter reports is still delivered. *)
Theorem C7_faulted_result_counts_as_not_down :
  forall pid (u : ToolResult (list UptimeData.t)) (r : ToolResult RailwayData.t) w,
    success u = false \/ success r = false ->
    let w' := snd (runSilentHealthCheck pid (Fulfilled u) (Fulfilled r) w) in
    (success u = false ->
     notifications (trace w') =
     (notifications (trace w)
      ++ (if isRailwayDown r then [SendAlert (railwayDownAlert pid)] else []))%list
     /\ (isRailwayDown r = false ->
         console (trace w') =
         (console (trace w)
          ++ ["[SCHEDULER] Running silent health check..."; passedLine])%list))
    /\ (success r = false ->
        notifications (trace w') =
        (notifications (trace w)
         ++ (if isUptimeDown u then [SendAlert (uptimeDownAlert u)] else []))%list
        /\ (isUptimeDown u = false ->
            console (trace w') =
            (console (trace w)
             ++ ["[SCHEDULER] Running silent health check..."; passedLine])%list)).
Proof.
  intros pid u r w _ w'. subst w'. split; intros Hs.
  - assert (Hu : isUptimeDown u = false) by (unfold isUptimeDown; rewrite Hs; reflexivity).
    split.
    + rewrite quick_notifications. unfold quickAlerts. rewrite Hu.
      destruct (isRailwayDown r); reflexivity.
    + intros Hr. rewrite runSilentHealthCheck_fulfilled, Hu, Hr. simpl.
      rewrite console_app. reflexivity.
  - assert (Hr : isRailwayDown r = false) by (unfold isRailwayDown; rewrite Hs; reflexivity).
    split.
    + rewrite quick_notifications. unfold quickAlerts. rewrite Hr.
      destruct (isUptimeDown u); simpl; rewrite ?app_nil_r; reflexivity.
    + intros Hu. rewrite runSilentHealthCheck_fulfilled, Hu, Hr. simpl.
      rewrite console_app. reflexivity.
Qed.

Lemma C7_faulted_result_counts_as_not_down_witness :
  notifications
    (trace (snd (runSilentHealthCheck (Some "crimson-forge")
                   (Fulfilled (mkToolResult "uptime" true "2026-02-24T08:15:00.000Z"
                      [ UptimeData.mk "https://api.crimsonforge.pro/health" down None None ]
                      None))
                   (Fulfilled (mkToolResult "railway" false "2026-02-24T08:15:00.000Z"
                      unknownStatus (Some "fetch failed")))
                   World0)))
  = [SendAlert (Alert.mk critical "uptime" "Services are DOWN"
                  (Some "https://api.crimsonforge.pro/health") None)].
Proof.
  refine (proj1 (proj2 (C7_faulted_result_counts_as_not_down _ _ _ World0 _) _)).
  - right. reflexivity.
  - reflexivity.
Defined.

(** ** The uptime adapter *)

(** The retrying copy: a first attempt that answers is the result, and
    nothing more is fetched. *)
Lemma checkEndpoint_retry_first_answers net url w r :
  net (attempts w) = FetchResponse r ->
  UptimeRetry.checkEndpoint net url w =
  (inr (pinged url r),
   mkWorld (S (attempts w)) (trace w ++ [Fetch url 20000])).
Proof.
  intros H.
  unfold UptimeRetry.checkEndpoint, UptimeRetry.pingEndpoint, try_catch, bind, fetch, ret.
  rewrite H. reflexivity.
Qed.

(** The retrying copy: after a failed first attempt it sleeps 5000 ms and
    fetches once more; an answer to the retry is the result, and the first
    failure leaves no mark on it. *)
Lemma checkEndpoint_retry_second_answers net url w t r :
  net (attempts w) = FetchFault t ->
  net (S (attempts w)) = FetchResponse r ->
  UptimeRetry.checkEndpoint net url w =
  (inr (pinged url r),
   mkWorld (S (S (attempts w)))
     (trace w ++ [Fetch url 20000; Sleep 5000; Fetch url 20000])).
Proof.
  intros H1 H2.
  unfold UptimeRetry.checkEndpoint, UptimeRetry.pingEndpoint, try_catch, bind, fetch,
    ret, emit.
  rewrite H1. simpl. rewrite H2. simpl.
  rewrite <- !app_assoc. reflexivity.
Qed.

(** The retrying copy: the endpoint is down when both attempts fail. *)
Lemma checkEndpoint_retry_both_fail net url w t1 t2 :
  net (attempts w) = FetchFault t1 ->
  net (S (attempts w)) = FetchFault t2 ->
  UptimeRetry.checkEndpoint net url w =
  (inr (downEndpoint url),
   mkWorld (S (S (attempts w)))
     (trace w ++ [Fetch url 20000; Sleep 5000; Fetch url 20000])).
Proof.
  intros H1 H2.
  unfold UptimeRetry.checkEndpoint, UptimeRetry.pingEndpoint, try_catch, bind, fetch,
    ret, emit.
  rewrite H1. simpl. rewrite H2. simpl.
  rewrite <- !app_assoc. reflexivity.
Qed.

Lemma pinged_not_down url r : UptimeData.status (pinged url r) <> down.
Proof. unfold pinged. simpl. destruct (res_ok r); discriminate. Qed.

(** The retrying copy classifies an endpoint down only after two failed
    attempts, and it never throws. *)
Lemma checkEndpoint_retry_down_iff net url w :
  exists d w',
    UptimeRetry.checkEndpoint net url w = (inr d, w')
    /\ (UptimeData.status d = down <->
        exists t1 t2,
          net (attempts w) = FetchFault t1 /\ net (S (attempts w)) = FetchFault t2).
Proof.
  destruct (net (attempts w)) as [t1|r1] eqn:E1.
  - destruct (net (S (attempts w))) as [t2|r2] eqn:E2.
    + rewrite (checkEndpoint_retry_both_fail net url w t1 t2 E1 E2).
      do 2 eexists; split; [reflexivity|]. split; [eauto|reflexivity].
    + rewrite (checkEndpoint_retry_second_answers net url w t1 r2 E1 E2).
      do 2 eexists; split; [reflexivity|]. split.
      * intros H. destruct (pinged_not_down _ _ H).
      * intros [? [? [_ H]]]. discriminate.
  - rewrite (checkEndpoint_retry_first_answers net url w r1 E1).
    do 2 eexists; split; [reflexivity|]. split.
    + intros H. destruct (pinged_not_down _ _ H).
    + intros [? [? [H _]]]. discriminate.
Qed.

(** The adapter with the retrying check: it returns [success = true] with
    one entry per endpoint, each being what its own check returned. *)
Lemma runUptimeCheck_retry_returns frontend api now nets w :
  exists d0 w0 d1 w1,
    UptimeRetry.checkEndpoint (nets 0%nat) frontend World0 = (inr d0, w0)
    /\ UptimeRetry.checkEndpoint (nets 1%nat) api World0 = (inr d1, w1)
    /\ UptimeRetry.runUptimeCheck frontend api now nets w =
       (inr (mkToolResult "uptime" true now [d0; d1] None),
        mkWorld (attempts w)
          (trace w
           ++ (firstn 1 (trace w0) ++ firstn 1 (trace w1))
           ++ (skipn 1 (trace w0) ++ skipn 1 (trace w1)))).
Proof.
  destruct (checkEndpoint_retry_down_iff (nets 0%nat) frontend World0) as [d0 [w0 [H0 _]]].
  destruct (checkEndpoint_retry_down_iff (nets 1%nat) api World0) as [d1 [w1 [H1 _]]].
  exists d0, w0, d1, w1. split; [exact H0|]. split; [exact H1|].
  unfold UptimeRetry.runUptimeCheck, try_catch, bind, mapi, spawnAll, ret.
  cbn [UptimeRetry.ENDPOINTS List.length seq combine map fst snd flat_map].
  rewrite H0, H1. cbn [fst snd settle map Promise_all]. unfold bind, await, ret.
  cbn [attempts trace]. rewrite !app_nil_r. reflexivity.
Qed.

(** The single-attempt copy never throws either. *)
Lemma checkEndpoint_once_cases net url w :
  UptimeOnce.checkEndpoint net url w =
  (inr (match net (attempts w) with
        | FetchFault _ => downEndpoint url
        | FetchResponse r => pinged url r
        end),
   mkWorld (S (attempts w)) (trace w ++ [Fetch url 10000])).
Proof.
  unfold UptimeOnce.checkEndpoint, try_catch, bind, fetch, ret.
  destruct (net (attempts w)); reflexivity.
Qed.

Lemma runUptimeCheck_once_returns frontend api now nets w :
  exists d0 d1 w',
    UptimeOnce.runUptimeCheck frontend api now nets w =
    (inr (mkToolResult "uptime" true now [d0; d1] None), w').
Proof.
  unfold UptimeOnce.runUptimeCheck, try_catch, bind, mapi, spawnAll, ret.
  cbn [UptimeOnce.ENDPOINTS List.length seq combine map fst snd flat_map].
  rewrite !checkEndpoint_once_cases. cbn [fst snd settle map Promise_all].
  unfold bind, await, ret. do 3 eexists. reflexivity.
Qed.

(** C9 (the single-attempt copy of the adapter): a failed first attempt is
    final there: the endpoint is classified down after one fetch, without
    any delay or second fetch, whatever a retry would have answered. *)
Theorem C9_single_attempt_copy_never_retries :
  forall net url w t,
    net (attempts w) = FetchFault t ->
    UptimeOnce.checkEndpoint net url w =
    (inr (downEndpoint url),
     mkWorld (S (attempts w)) (trace w ++ [Fetch url 10000])).
Proof.
  intros net url w t H. rewrite checkEndpoint_once_cases, H. reflexivity.
Qed.

Lemma C9_single_attempt_copy_never_retries_witness :
  UptimeOnce.checkEndpoint
    (fun n => match n with
              | O => FetchFault (JsError "fetch failed")
              | S _ => FetchResponse (mkResponse 200 "OK" 143 (Readable (Parses tt)))
              end)
    "https://api.crimsonforge.pro/health" World0
  = (inr (downEndpoint "https://api.crimsonforge.pro/health"),
     mkWorld 1 [Fetch "https://api.crimsonforge.pro/health" 10000]).
Proof.
  apply (C9_single_attempt_copy_never_retries _ _ World0 (JsError "fetch failed")).
  reflexivity.
Defined.

(** On the same network the retrying copy reports the second attempt. *)
Example checkEndpoint_retry_on_flaky_network :
  UptimeRetry.checkEndpoint
    (fun n => match n with
              | O => FetchFault (JsError "fetch failed")
              | S _ => FetchResponse (mkResponse 200 "OK" 143 (Readable (Parses tt)))
              end)
    "https://api.crimsonforge.pro/health" World0
  = (inr (UptimeData.mk "https://api.crimsonforge.pro/health" healthy (Some 143) (Some 200)),
     mkWorld 2 [ Fetch "https://api.crimsonforge.pro/health" 20000;
                 Sleep 5000;
                 Fetch "https://api.crimsonforge.pro/health" 20000 ]).
Proof. reflexivity. Qed.

(** ** The other adapters *)

(** The catching copy of the deployment adapter: its inner function
    never throws, so the envelope always has [success = true]; a fetch
    that rejects is reported as a deployment that is down. *)
Lemma fetchRailwayStatus_catching_total net w :
  exists d w', RailwayCatching.fetchRailwayStatus net w = (inr d, w').
Proof.
  unfold RailwayCatching.fetchRailwayStatus, try_catch, bind, fetch, json, text,
    JSON_parse, ret, throw, emit, bind.
  destruct (net (attempts w)) as [t|r]; simpl; [eauto|].
  destruct (negb (res_ok r)); simpl; [eauto|].
  destruct (res_body r) as [t|[m|b]]; simpl; [eauto|eauto|].
  destruct b as [|[es|] [[[n|edges]|]|]]; simpl; eauto.
Qed.

Lemma runRailwayCheck_catching_returns now net w :
  exists d w',
    RailwayCatching.runRailwayCheck now net w =
    (inr (mkToolResult "railway" true now d None), w').
Proof.
  destruct (fetchRailwayStatus_catching_total net w) as [d [w' H]].
  unfold RailwayCatching.runRailwayCheck, try_catch, bind, ret. rewrite H. simpl.
  eauto.
Qed.

Lemma runRailwayCheck_catching_fetch_fault now net w t :
  net (attempts w) = FetchFault t ->
  fst (RailwayCatching.runRailwayCheck now net w) =
  inr (mkToolResult "railway" true now (RailwayData.mk down None None) None).
Proof.
  intros H.
  unfold RailwayCatching.runRailwayCheck, RailwayCatching.fetchRailwayStatus,
    try_catch, bind, fetch, ret, emit.
  rewrite H. reflexivity.
Qed.

(** The helper of the issue-tracker adapter swallows every fault of the
    fetch; what a 2xx answer parses to is returned as it is. *)
Lemma fetchSentryIssues_answer org project withSearchParams net query w :
  Sentry.fetchSentryIssues org project withSearchParams net query w =
  (inr (sentryAnswer (net (attempts w))),
   mkWorld (S (attempts w))
     (trace w ++ [Fetch (sentryUrl org project withSearchParams query) 10000])).
Proof.
  unfold Sentry.fetchSentryIssues, sentryUrl, sentryAnswer, try_catch, bind, fetch,
    json, text, JSON_parse, ret, throw, bind.
  destruct (net (attempts w)) as [t|r]; simpl; [reflexivity|].
  destruct (res_ok r); simpl; [|reflexivity].
  destruct (res_body r) as [t|[m|issues]]; reflexivity.
Qed.

Lemma toSentryIssue_answer issue w :
  Sentry.toSentryIssue issue w =
  (match issue with
   | JNull => inl (cannotRead "null" "id")
   | _ => inr (issueOf issue)
   end, w).
Proof.
  unfold Sentry.toSentryIssue, issueOf, field, get, bind, ret, throw.
  destruct issue; reflexivity.
Qed.

Lemma mapM_toSentryIssue items w :
  mapM Sentry.toSentryIssue items w =
  (if existsb isNull items
   then inl (cannotRead "null" "id")
   else inr (map issueOf items), w).
Proof.
  induction items as [|v items IH]; [reflexivity|].
  cbn [mapM]. unfold bind at 1. rewrite toSentryIssue_answer.
  destruct v; cbn [existsb isNull orb]; try reflexivity;
    unfold bind, ret; rewrite IH; destruct (existsb isNull items); reflexivity.
Qed.

(** The issue-tracker adapter makes its two fetches and never throws: it
    answers [success = true] when the second answer is an array without a
    [null] among its first five entries and the first answer is not
    [null], and the envelope of its handler, with the message of a
    TypeError, in every other case. *)
Lemma runSentryCheck_answer org project now yesterday withSearchParams net w :
  let first := sentryAnswer (net (attempts w)) in
  let second := sentryAnswer (net (S (attempts w))) in
  exists e,
    Sentry.runSentryCheck org project now yesterday withSearchParams net w =
    (inr e,
     mkWorld (S (S (attempts w)))
       (trace w
        ++ [ Fetch (sentryUrl org project withSearchParams
                      ("firstSeen:>" ++ yesterday ++ " is:unresolved")) 10000;
             Fetch (sentryUrl org project withSearchParams "is:unresolved") 10000 ]))
    /\ ((issueList second && negb (isNull first) = true
         /\ exists items,
              second = JArr items
              /\ e = mkToolResult "sentry" true now
                    (Sentry.mkPayload (lengthValue first)
                       (Some (JNum (Z.of_nat (List.length items))))
                       (map issueOf (firstn 5 items)))
                    None)
        \/ (issueList second && negb (isNull first) = false
            /\ exists t, e = sentryFaultEnvelope now t /\ errorMessage t <> "")).
Proof.
  cbv zeta.
  unfold Sentry.runSentryCheck, try_catch, bind at 1.
  rewrite fetchSentryIssues_answer. unfold bind at 1.
  rewrite fetchSentryIssues_answer. cbn [attempts trace].
  rewrite <- app_assoc. cbn [app].
  set (first := sentryAnswer (net (attempts w))).
  set (second := sentryAnswer (net (S (attempts w)))).
  set (w2 := mkWorld _ _).
  unfold bind at 1.
  assert (Hstr : forall x, (x ++ ".slice(...).map")%string <> "").
  { intros x. destruct x; discriminate. }
  destruct second as [|b|n|s|items|fields]; cbn [sliceThenMap issueList andb];
    unfold throw;
    try (eexists; split; [reflexivity|]; right; split; [reflexivity|];
         eexists; split; [reflexivity|];
         first [apply cannotRead_not_blank | apply notAFunction_not_blank]).
  rewrite mapM_toSentryIssue.
  destruct (existsb isNull (firstn 5 items)) eqn:En; cbn [negb andb].
  - eexists; split; [reflexivity|]. right. split; [reflexivity|].
    eexists; split; [reflexivity|]. apply cannotRead_not_blank.
  - unfold bind, lengthOf, ret, throw.
    destruct first as [|b|n|s|items1|fields]; cbn [isNull negb lengthValue];
      try (eexists; split; [reflexivity|]; left; split; [reflexivity|];
           eexists; split; reflexivity).
    eexists; split; [reflexivity|]. right. split; [reflexivity|].
    eexists; split; [reflexivity|]. apply cannotRead_not_blank.
Qed.


(** The inbox adapter always answers [success = false] with one of its
    two fixed reasons. *)
Lemma runEmailCheck_returns host user pass now w :
  exists m,
    Email.runEmailCheck host user pass now w =
    (inr (mkToolResult "email" false now (EmailData.mk unknown 0 now) (Some m)), w)
    /\ m <> "".
Proof.
  unfold Email.runEmailCheck, try_catch, ret.
  destruct (Email.missing host || Email.missing user || Email.missing pass); simpl;
    eexists; (split; [reflexivity|discriminate]).
Qed.

(** The datastore adapter: [success = true] with a healthy connection,
    or [success = false] with the reason of the fault it caught. *)
Lemma runSupabaseCheck_cases now nowMs db w :
  exists e,
    Supabase.runSupabaseCheck now nowMs db w = (inr e, w)
    /\ ((success e = true /\ error e = None
         /\ SupabaseData.connectionStatus (data e) = healthy)
        \/ (success e = false
            /\ data e = SupabaseData.mk down 0 0 0 0 []
            /\ ((exists message,
                   error e = Some ("Database connection failed: " ++ message))
                \/ (exists t, db_raises db t /\ error e = Some (errorMessage t))))).
Proof.
  unfold Supabase.runSupabaseCheck, try_catch, bind, await, ret, throw, db_raises,
    rejected_with.
  destruct (Supabase.q_connection db) as [c|t]; simpl.
  2: { eexists; split; [reflexivity|]. right. simpl. repeat split. right. eauto. }
  destruct (Supabase.pg_error c); simpl.
  1: { eexists; split; [reflexivity|]. right. simpl. repeat split. left. eauto. }
  destruct (Supabase.q_shops db) as [?|t]; simpl.
  2: { eexists; split; [reflexivity|]. right. simpl. repeat split. right. eauto 8. }
  destruct (Supabase.q_activeShops db) as [?|t]; simpl.
  2: { eexists; split; [reflexivity|]. right. simpl. repeat split. right. eauto 8. }
  destruct (Supabase.q_tickets db) as [?|t]; simpl.
  2: { eexists; split; [reflexivity|]. right. simpl. repeat split. right. eauto 8. }
  destruct (Supabase.q_aiSessions db) as [?|t]; simpl.
  2: { eexists; split; [reflexivity|]. right. simpl. repeat split. right. eauto 8. }
  destruct (Supabase.q_silentShops db) as [?|t]; simpl.
  2: { eexists; split; [reflexivity|]. right. simpl. repeat split. right.
       exists t. split; [|reflexivity]. do 5 right. reflexivity. }
  eexists; split; [reflexivity|]. left. simpl. auto.
Qed.

(** ** The envelope, across the adapters *)

Lemma errorMessage_blank_cases (t : Thrown) :
  errorMessage t <> "" \/ t = JsError "".
Proof.
  destruct t as [m| |m]; simpl; [|left; discriminate|left; discriminate].
  destruct (string_dec m "") as [E|E]; [right; subst; reflexivity|left; exact E].
Qed.

(** No adapter lets a fault escape: every [run] returns an envelope. *)
Lemma adapters_never_throw :
  (forall frontend api now nets,
      total (UptimeRetry.runUptimeCheck frontend api now nets))
  /\ (forall frontend api now nets,
         total (UptimeOnce.runUptimeCheck frontend api now nets))
  /\ (forall now nowMs db, total (Supabase.runSupabaseCheck now nowMs db))
  /\ (forall org project now yesterday withSearchParams net,
         total (Sentry.runSentryCheck org project now yesterday withSearchParams net))
  /\ (forall now net, total (RailwayCatching.runRailwayCheck now net))
  /\ (forall now net, total (RailwayPropagating.runRailwayCheck now net))
  /\ (forall host user pass now, total (Email.runEmailCheck host user pass now))
  /\ (forall now, total (GitHub.runGitHubCheck now)).
Proof.
  repeat split; intros; intros w.
  - destruct (runUptimeCheck_retry_returns frontend api now nets w)
      as [d0 [w0 [d1 [w1 [_ [_ H]]]]]]. eauto.
  - destruct (runUptimeCheck_once_returns frontend api now nets w)
      as [d0 [d1 [w' H]]]. eauto.
  - destruct (runSupabaseCheck_cases now nowMs db w) as [e [H _]]. eauto.
  - destruct (runSentryCheck_answer org project now yesterday withSearchParams net w)
      as [e [H _]]. eauto.
  - destruct (runRailwayCheck_catching_returns now net w) as [d [w' H]]. eauto.
  - destruct (runRailwayCheck_propagating_cases now net w) as [e [w' [H _]]]. eauto.
  - destruct (runEmailCheck_returns host user pass now w) as [m [H _]]. eauto.
  - unfold GitHub.runGitHubCheck, ret. eauto.
Qed.

(** C8 (as stated, refuted): the error of an envelope with
    [success = false] can be the empty string: the deployment adapter
    copies the message of the fault it caught, whatever it is. *)
Lemma C8_counterexample :
  ~ (forall (T : Type) (e : ToolResult T) raised,
        Produced e raised ->
        (success e = false <-> exists m, error e = Some m /\ m <> "")).
Proof.
  intros H.
  assert (P : Produced
                (mkToolResult "railway" false "2026-02-24T08:00:00.000Z"
                   unknownStatus (Some ""))
                (net_raises (fun _ : nat =>
                   @FetchFault RailwayPropagating.RailwayResponse (JsError "")))).
  { apply by_railway_propagating with (now := "2026-02-24T08:00:00.000Z").
    exists World0. eexists. reflexivity. }
  apply H in P. destruct P as [P _].
  destruct (P eq_refl) as [m [E N]]. simpl in E. congruence.
Qed.

(** C8 (amended): for every envelope an adapter returns, [success = false]
    holds exactly when the error is set, so an envelope with
    [success = true] carries none; a set error is the message of the fault
    that was caught (or a fixed text), hence not empty unless the
    environment raised an [Error] whose message is empty. *)
Theorem C8_error_set_iff_not_success :
  forall (T : Type) (e : ToolResult T) (raised : Thrown -> Prop),
    Produced e raised ->
    (success e = false <-> error e <> None)
    /\ (success e = true -> error e = None)
    /\ (forall m, error e = Some m -> m <> "" \/ raised (JsError "")).
Proof.
  intros T e raised P.
  destruct P as [frontend api now nets e [w [w' H]]
                |frontend api now nets e [w [w' H]]
                |now nowMs db e [w [w' H]]
                |org project now yesterday wsp net e [w [w' H]]
                |now net e [w [w' H]]
                |now net e [w [w' H]]
                |host user pass now e [w [w' H]]
                |now e [w [w' H]]].
  - destruct (runUptimeCheck_retry_returns frontend api now nets w)
      as [d0 [w0 [d1 [w1 [_ [_ H']]]]]].
    rewrite H in H'. inversion H'; subst. simpl.
    repeat split; try congruence.
  - destruct (runUptimeCheck_once_returns frontend api now nets w)
      as [d0 [d1 [w1 H']]].
    rewrite H in H'. inversion H'; subst. simpl.
    repeat split; try congruence.
  - destruct (runSupabaseCheck_cases now nowMs db w) as [e' [H' C]].
    rewrite H in H'. inversion H'; subst e'.
    destruct C as [[S [E _]]|[S [_ [[msg E]|[t [R E]]]]]]; rewrite S, E;
      repeat split; try congruence; intros m Hm; injection Hm as <-.
    + left. discriminate.
    + destruct (errorMessage_blank_cases t) as [N|N]; [left; exact N|].
      right. subst t. exact R.
  - destruct (runSentryCheck_answer org project now yesterday wsp net w)
      as [e' [H' C]].
    rewrite H in H'. inversion H'; subst e'.
    destruct C as [[_ [items [_ E]]]|[_ [t [E N]]]]; rewrite E; simpl;
      repeat split; try congruence.
    intros m Hm. injection Hm as <-. left. exact N.
  - destruct (runRailwayCheck_catching_returns now net w) as [d [w1 H']].
    rewrite H in H'. inversion H'; subst. simpl.
    repeat split; try congruence.
  - destruct (runRailwayCheck_propagating_cases now net w) as [e' [w1 [H' C]]].
    rewrite H in H'. inversion H'; subst e' w1.
    destruct C as [[S E]|[[t [S [E [_ R]]]]|[r [b [what [key [S [E _]]]]]]]];
      rewrite S, E;
      repeat split; try congruence; intros m Hm; injection Hm as <-.
    + destruct (errorMessage_blank_cases t) as [N|N]; [left; exact N|].
      right. subst t. exists (attempts w). exact R.
    + left. apply cannotRead_not_blank.
  - destruct (runEmailCheck_returns host user pass now w) as [m0 [H' N]].
    rewrite H in H'. inversion H'; subst. simpl.
    repeat split; try congruence. intros m Hm. injection Hm as <-. left. exact N.
  - unfold GitHub.runGitHubCheck, ret in H. inversion H; subst. simpl.
    repeat split; try congruence. intros m Hm. injection Hm as <-. left. discriminate.
Qed.

Lemma C8_error_set_iff_not_success_witness :
  let e := mkToolResult "railway" false "2026-02-24T08:00:00.000Z"
             unknownStatus (Some "fetch failed") in
  (success e = false <-> error e <> None)
  /\ (success e = true -> error e = None)
  /\ (forall m, error e = Some m ->
        m <> ""
        \/ net_raises (fun _ : nat =>
             @FetchFault RailwayPropagating.RailwayResponse (JsError "fetch failed"))
             (JsError "")).
Proof.
  apply C8_error_set_iff_not_success.
  apply by_railway_propagating with (now := "2026-02-24T08:00:00.000Z").
  exists World0. eexists. reflexivity.
Defined.

(** ** Faults inside the deployment adapter *)

(** C10 (as stated, refuted): a malformed response body is not turned
    into an envelope with [success = false] and a reason: the adapter
    answers [success = true] with the status [unknown] and no error. *)
Lemma C10_counterexample :
  ~ (forall now (net : nat -> FetchResult RailwayPropagating.RailwayResponse)
            r syntaxError e,
        net 0%nat = FetchResponse r ->
        res_body r = Readable (Garbled syntaxError) ->
        fst (RailwayPropagating.runRailwayCheck now net World0) = inr e ->
        success e = false /\ error e <> None).
Proof.
  intros H.
  destruct
    (H "2026-02-24T08:00:00.000Z"
       (fun _ => FetchResponse
                   (mkResponse 200 "OK" 35
                      (Readable (Garbled "Unexpected token < in JSON at position 0"))))
       _ _ _ eq_refl eq_refl eq_refl) as [S _].
  discriminate.
Qed.

(** The later copy of the deployment adapter, by the answer of the
    network. *)
Lemma runRailwayCheck_propagating_answer now net w :
  exists e w',
    RailwayPropagating.runRailwayCheck now net w = (inr e, w')
    /\ (forall t,
          propagatingFault (net (attempts w)) t ->
          success e = false
          /\ error e = Some (errorMessage t)
          /\ data e = unknownStatus)
    /\ (success e = false ->
        exists t, propagatingFault (net (attempts w)) t)
    /\ (forall r txt,
          net (attempts w) = FetchResponse r ->
          res_body r = Readable txt ->
          res_ok r = false
          \/ (exists syntaxError, txt = Garbled syntaxError)
          \/ (exists b, txt = Parses b
                        /\ (forall t, ~ propagatingWrongShape b t)
                        /\ (RailwayPropagating.errors b <> None
                            \/ RailwayPropagating.deploymentOf b = None)) ->
          success e = true
          /\ error e = None
          /\ data e = unknownStatus)
    /\ (success e = true -> error e = None)
    /\ (success e = true ->
        RailwayData.status (data e) = down ->
        exists r b d,
          net (attempts w) = FetchResponse r
          /\ res_ok r = true
          /\ res_body r = Readable (Parses b)
          /\ RailwayPropagating.errors b = None
          /\ RailwayPropagating.deploymentOf b = Some d
          /\ (DeploymentNode.status d = "FAILED"
              \/ DeploymentNode.status d = "CRASHED")).
Proof.
  unfold RailwayPropagating.runRailwayCheck, RailwayPropagating.fetchRailwayStatus,
    bind, fetch, text, try_catch, JSON_parse, ret, throw, emit.
  destruct (net (attempts w)) as [t|r] eqn:E; simpl.
  { do 2 eexists. split; [reflexivity|]. simpl.
    split; [|split; [|split; [|split]]].
    - intros t' ->. repeat split.
    - intros _. exists t. reflexivity.
    - intros r txt H. discriminate.
    - discriminate.
    - discriminate. }
  destruct (res_body r) as [t|txt] eqn:Eb; simpl.
  { do 2 eexists. split; [reflexivity|]. simpl.
    split; [|split; [|split; [|split]]].
    - intros t' ->. repeat split.
    - intros _. exists t. reflexivity.
    - intros r' txt H. injection H as <-. congruence.
    - discriminate.
    - discriminate. }
  destruct (res_ok r) eqn:Eok; simpl.
  2: { do 2 eexists. split; [reflexivity|]. simpl.
       split; [|split; [|split; [|split]]].
       - intros t. destruct txt as [m|b]; [intros []|]. intros [H _]. discriminate.
       - discriminate.
       - intros; repeat split.
       - reflexivity.
       - discriminate. }
  destruct txt as [m|b]; simpl.
  { do 2 eexists. split; [reflexivity|]. simpl.
    split; [|split; [|split; [|split]]].
    - intros t [].
    - discriminate.
    - intros; repeat split.
    - reflexivity.
    - discriminate. }
  destruct b as [|[es|] sv]; simpl.
  { do 2 eexists. split; [reflexivity|]. simpl.
    split; [|split; [|split; [|split]]].
    - intros t [_ [[_ ->]|[n [H _]]]]; [repeat split|discriminate].
    - intros _. exists (cannotRead "null" "errors"). split; [reflexivity|].
      left. split; reflexivity.
    - intros r' txt H1 H2 H. injection H1 as <-. rewrite Eb in H2.
      injection H2 as <-.
      destruct H as [H|[[m H]|[b' [H [W _]]]]]; [congruence|discriminate|].
      injection H as <-. destruct (W (cannotRead "null" "errors")).
      left. split; reflexivity.
    - discriminate.
    - discriminate. }
  { do 2 eexists. split; [reflexivity|]. simpl.
    split; [|split; [|split; [|split]]].
    - intros t [_ [[H _]|[n [H _]]]]; discriminate.
    - discriminate.
    - intros; repeat split.
    - reflexivity.
    - discriminate. }
  destruct sv as [[[[n|edges]|]|]|]; simpl.
  - do 2 eexists. split; [reflexivity|]. simpl.
    split; [|split; [|split; [|split]]].
    + intros t [_ [[H _]|[n' [H ->]]]]; [discriminate|].
      injection H as <-. repeat split.
    + intros _. exists (cannotRead (nullishText n) "0"). split; [reflexivity|].
      right. exists n. split; reflexivity.
    + intros r' txt H1 H2 H. injection H1 as <-. rewrite Eb in H2.
      injection H2 as <-.
      destruct H as [H|[[m H]|[b' [H [W _]]]]]; [congruence|discriminate|].
      injection H as <-. destruct (W (cannotRead (nullishText n) "0")).
      right. exists n. split; reflexivity.
    + discriminate.
    + discriminate.
  - destruct (firstNode edges) as [d|] eqn:Ed; simpl.
    + do 2 eexists. split; [reflexivity|]. simpl.
      split; [|split; [|split; [|split]]].
      * intros t [_ [[H _]|[n' [H _]]]]; discriminate.
      * discriminate.
      * intros r' txt H1 H2 H. injection H1 as <-. rewrite Eb in H2.
        injection H2 as <-.
        destruct H as [H|[[m H]|[b' [H [_ [H'|H']]]]]];
          [congruence|discriminate| |]; injection H as <-; simpl in H'.
        -- congruence.
        -- rewrite Ed in H'. discriminate.
      * reflexivity.
      * intros _ Hd.
        exists r, (RailwayPropagating.Shaped None (Some (Some (Some (EdgeList edges))))), d.
        repeat split; auto.
        unfold RailwayPropagating.resolveStatus in Hd.
        destruct (String.eqb (DeploymentNode.status d) "SUCCESS"
                  || String.eqb (DeploymentNode.status d) "ACTIVE"); [discriminate|].
        destruct (String.eqb (DeploymentNode.status d) "FAILED") eqn:F.
        -- left. apply String.eqb_eq. exact F.
        -- destruct (String.eqb (DeploymentNode.status d) "CRASHED") eqn:C.
           ++ right. apply String.eqb_eq. exact C.
           ++ simpl in Hd. discriminate.
    + do 2 eexists. split; [reflexivity|]. simpl.
      split; [|split; [|split; [|split]]].
      * intros t [_ [[H _]|[n' [H _]]]]; discriminate.
      * discriminate.
      * intros; repeat split.
      * reflexivity.
      * discriminate.
  - do 2 eexists. split; [reflexivity|]. simpl.
    split; [|split; [|split; [|split]]].
    + intros t [_ [[H _]|[n' [H _]]]]; discriminate.
    + discriminate.
    + intros; repeat split.
    + reflexivity.
    + discriminate.
  - do 2 eexists. split; [reflexivity|]. simpl.
    split; [|split; [|split; [|split]]].
    + intros t [_ [[H _]|[n' [H _]]]]; discriminate.
    + discriminate.
    + intros; repeat split.
    + reflexivity.
    + discriminate.
  - do 2 eexists. split; [reflexivity|]. simpl.
    split; [|split; [|split; [|split]]].
    + intros t [_ [[H _]|[n' [H _]]]]; discriminate.
    + discriminate.
    + intros; repeat split.
    + reflexivity.
    + discriminate.
Qed.

(** The earlier copy of the deployment adapter, by the answer of the
    network. *)
Lemma runRailwayCheck_catching_answer now net w :
  exists d w',
    RailwayCatching.runRailwayCheck now net w =
    (inr (mkToolResult "railway" true now d None), w')
    /\ RailwayData.status d <> unknown
    /\ (RailwayData.status d = down <-> catchingFault (net (attempts w)))
    /\ (RailwayData.status d = down ->
        RailwayData.latestDeploymentStatus d = None
        /\ RailwayData.latestDeploymentAt d = None)
    /\ (forall r b,
          net (attempts w) = FetchResponse r ->
          res_ok r = true ->
          res_body r = Readable (Parses b) ->
          RailwayCatching.errors b = None ->
          ~ catchingWrongShape b ->
          RailwayCatching.deploymentOf b = None ->
          d = RailwayData.mk degraded None None).
Proof.
  unfold RailwayCatching.runRailwayCheck, RailwayCatching.fetchRailwayStatus,
    try_catch, bind, fetch, json, text, JSON_parse, ret, throw, emit, bind.
  destruct (net (attempts w)) as [t|r] eqn:E; simpl.
  { do 2 eexists. split; [reflexivity|]. simpl.
    repeat split; try discriminate. }
  assert (Inj : forall r' : Response RailwayCatching.RailwayResponse,
             FetchResponse r = FetchResponse r' -> r' = r)
    by (intros r' H; injection H as <-; reflexivity).
  destruct (res_ok r) eqn:Eok; simpl.
  2: { do 2 eexists. split; [reflexivity|]. simpl.
       repeat split; try discriminate; auto.
       intros r' b H H'. apply Inj in H. subst r'. congruence. }
  destruct (res_body r) as [t|[m|b]] eqn:Eb; simpl.
  { do 2 eexists. split; [reflexivity|]. simpl.
    repeat split; try discriminate; auto.
    intros r' b H _ H'. apply Inj in H. subst r'. congruence. }
  { do 2 eexists. split; [reflexivity|]. simpl.
    repeat split; try discriminate; auto.
    intros r' b H _ H'. apply Inj in H. subst r'. congruence. }
  assert (Body : forall r' b', FetchResponse r = FetchResponse r' ->
                               res_body r' = Readable (Parses b') -> b' = b).
  { intros r' b' H H'. apply Inj in H. subst r'. congruence. }
  destruct b as [|[es|] dv]; simpl.
  { do 2 eexists. split; [reflexivity|]. simpl.
    repeat split; try discriminate.
    - intros _. right. right. left. reflexivity.
    - intros r' b' H _ H' _ W. apply (Body _ _ H) in H'. subst b'.
      destruct W. left. reflexivity. }
  { do 2 eexists. split; [reflexivity|]. simpl.
    repeat split; try discriminate.
    - intros _. right. left. discriminate.
    - intros r' b' H _ H' He. apply (Body _ _ H) in H'. subst b'.
      discriminate. }
  assert (NoFault : forall ev,
             (forall n, ev <> Some (Some (NoEdges n))) ->
             ~ (true = false
                \/ (RailwayCatching.errors (RailwayCatching.Shaped None ev) <> None
                    \/ catchingWrongShape (RailwayCatching.Shaped None ev)))).
  { intros ev Hn [H|[H|[H|[es [n H]]]]]; try discriminate.
    - apply H. reflexivity.
    - injection H as _ H. destruct (Hn n H). }
  destruct dv as [[[n|edges]|]|]; simpl.
  - do 2 eexists. split; [reflexivity|]. simpl.
    repeat split; try discriminate.
    + intros _. right. right. right. exists None, n. reflexivity.
    + intros r' b' H _ H' _ W. apply (Body _ _ H) in H'. subst b'.
      destruct W. right. exists None, n. reflexivity.
  - do 2 eexists. split; [reflexivity|]. cbn [RailwayData.status
      RailwayData.latestDeploymentStatus RailwayData.latestDeploymentAt].
    assert (NF := NoFault (Some (Some (EdgeList edges)))
                    ltac:(intros n; discriminate)).
    destruct (firstNode edges) as [d|] eqn:Ed.
    + destruct (String.eqb (DeploymentNode.status d) "SUCCESS");
        (split; [discriminate|]);
        (split; [split; [discriminate|intros H; destruct (NF H)]|]);
        (split; [discriminate|]);
        intros r' b' H _ H' _ _ Hd; apply (Body _ _ H) in H'; subst b';
        simpl in Hd; congruence.
    + split; [discriminate|].
      split; [split; [discriminate|intros H; destruct (NF H)]|].
      split; [discriminate|]. reflexivity.
  - do 2 eexists. split; [reflexivity|]. simpl.
    assert (NF := NoFault (Some None) ltac:(intros n; discriminate)).
    split; [discriminate|].
    split; [split; [discriminate|intros H; destruct (NF H)]|].
    split; [discriminate|]. reflexivity.
  - do 2 eexists. split; [reflexivity|]. simpl.
    assert (NF := NoFault None ltac:(intros n; discriminate)).
    split; [discriminate|].
    split; [split; [discriminate|intros H; destruct (NF H)]|].
    split; [discriminate|]. reflexivity.
Qed.

(** C10 (amended): no adapter lets a fault escape: every [run] returns
    an envelope. In the later copy of the deployment adapter a rejected
    fetch, a body that cannot be read and a 2xx body of the wrong shape
    reach the handler of [runRailwayCheck], and these are the only ways to
    [success = false]: the error is then the fault's message and the
    status [unknown]; a status outside 2xx, a body that is not JSON,
    GraphQL errors and a well-shaped answer without a deployment give
    [success = true] with the status [unknown] and no error;
    [success = true] with the status [down] is reported only for a
    well-formed answer whose latest deployment is FAILED or CRASHED. In the
    earlier copy every fault is caught inside [fetchRailwayStatus]: the
    envelope always has [success = true] and no error, its status is never
    [unknown], and it is [down] exactly for a fault. *)
Theorem C10_deployment_adapter_fault_handling :
  ((forall frontend api now nets,
       total (UptimeRetry.runUptimeCheck frontend api now nets))
   /\ (forall frontend api now nets,
          total (UptimeOnce.runUptimeCheck frontend api now nets))
   /\ (forall now nowMs db, total (Supabase.runSupabaseCheck now nowMs db))
   /\ (forall org project now yesterday withSearchParams net,
          total (Sentry.runSentryCheck org project now yesterday withSearchParams net))
   /\ (forall now net, total (RailwayCatching.runRailwayCheck now net))
   /\ (forall now net, total (RailwayPropagating.runRailwayCheck now net))
   /\ (forall host user pass now, total (Email.runEmailCheck host user pass now))
   /\ (forall now, total (GitHub.runGitHubCheck now)))
  /\ (forall now net w,
        exists e w',
          RailwayPropagating.runRailwayCheck now net w = (inr e, w')
          /\ (forall t,
                propagatingFault (net (attempts w)) t ->
                success e = false
                /\ error e = Some (errorMessage t)
                /\ data e = unknownStatus)
          /\ (success e = false ->
              exists t, propagatingFault (net (attempts w)) t)
          /\ (forall r txt,
                net (attempts w) = FetchResponse r ->
                res_body r = Readable txt ->
                res_ok r = false
                \/ (exists syntaxError, txt = Garbled syntaxError)
                \/ (exists b, txt = Parses b
                              /\ (forall t, ~ propagatingWrongShape b t)
                              /\ (RailwayPropagating.errors b <> None
                                  \/ RailwayPropagating.deploymentOf b = None)) ->
                success e = true
                /\ error e = None
                /\ data e = unknownStatus)
          /\ (success e = true -> error e = None)
          /\ (success e = true ->
              RailwayData.status (data e) = down ->
              exists r b d,
                net (attempts w) = FetchResponse r
                /\ res_ok r = true
                /\ res_body r = Readable (Parses b)
                /\ RailwayPropagating.errors b = None
                /\ RailwayPropagating.deploymentOf b = Some d
                /\ (DeploymentNode.status d = "FAILED"
                    \/ DeploymentNode.status d = "CRASHED")))
  /\ (forall now net w,
        exists e w',
          RailwayCatching.runRailwayCheck now net w = (inr e, w')
          /\ success e = true
          /\ error e = None
          /\ RailwayData.status (data e) <> unknown
          /\ (RailwayData.status (data e) = down <-> catchingFault (net (attempts w)))).
Proof.
  split; [exact adapters_never_throw|]. split.
  - intros now net w.
    destruct (runRailwayCheck_propagating_answer now net w) as [e [w' [H C]]].
    exists e, w'. split; [exact H|]. exact C.
  - intros now net w.
    destruct (runRailwayCheck_catching_answer now net w) as [d [w' [H [U [D _]]]]].
    do 2 eexists. split; [exact H|]. simpl. auto.
Qed.

Lemma C10_deployment_adapter_fault_handling_witness :
  exists e w',
    RailwayPropagating.runRailwayCheck "2026-02-24T08:00:00.000Z"
      (fun _ => FetchResponse (mkResponse 200 "OK" 35
                  (Readable (Parses RailwayPropagating.NullBody)))) World0
    = (inr e, w')
    /\ success e = false
    /\ error e = Some "Cannot read properties of null (reading 'errors')"
    /\ data e = unknownStatus.
Proof.
  destruct (proj1 (proj2 C10_deployment_adapter_fault_handling)
              "2026-02-24T08:00:00.000Z"
              (fun _ => FetchResponse (mkResponse 200 "OK" 35
                          (Readable (Parses RailwayPropagating.NullBody)))) World0)
    as [e [w' [H [F _]]]].
  exists e, w'. split; [exact H|].
  apply (F (cannotRead "null" "errors")).
  simpl. split; [reflexivity|]. left. split; reflexivity.
Defined.

(** The catching copy on the same fault: [success = true], status [down]. *)
Example runRailwayCheck_catching_on_fetch_fault :
  fst (RailwayCatching.runRailwayCheck "2026-02-24T08:00:00.000Z"
         (fun _ => FetchFault (JsError "fetch failed")) World0)
  = inr (mkToolResult "railway" true "2026-02-24T08:00:00.000Z"
           (RailwayData.mk down None None) None).
Proof. reflexivity. Qed.

(** The adapter with the retrying check, seen by its caller: when the
    first attempt on an endpoint fails and the retry is answered, the
    envelope has [success = true] and holds the retry's data for that
    endpoint. *)
Lemma runUptimeCheck_retry_second_attempt frontend api now nets w t r :
  nets 1%nat 0%nat = FetchFault t ->
  nets 1%nat 1%nat = FetchResponse r ->
  exists d0 w',
    UptimeRetry.runUptimeCheck frontend api now nets w =
    (inr (mkToolResult "uptime" true now [d0; pinged api r] None), w').
Proof.
  intros H1 H2.
  destruct (runUptimeCheck_retry_returns frontend api now nets w)
    as [d0 [w0 [d1 [w1 [_ [E1 H]]]]]].
  rewrite (checkEndpoint_retry_second_answers (nets 1%nat) api World0 t r H1 H2) in E1.
  injection E1 as <- _. eauto.
Qed.

(** * Further properties of the code *)

(** ** scheduler.ts *)

(** The quick check when a promise rejects, evaluated. *)
Lemma runSilentHealthCheck_rejected pid uptime railway w :
  (exists reason, uptime = Rejected reason)
  \/ (exists reason, railway = Rejected reason) ->
  runSilentHealthCheck pid uptime railway w =
  (inr tt,
   mkWorld (attempts w)
     ((trace w ++ [Log "[SCHEDULER] Running silent health check..."])
      ++ [Log "[SCHEDULER] Error in silent health check:"])).
Proof.
  intros H.
  unfold runSilentHealthCheck, bind, try_catch, emit, await, ret, throw. simpl.
  destruct H as [[reason ->]|[reason ->]]; [reflexivity|].
  destruct uptime; reflexivity.
Qed.

(** X1: when either adapter promise of the quick check rejects, the outer
    handler takes over: the run returns normally, nothing is sent to the
    notifier (also when the uptime envelope lists down endpoints), and the
    console shows the error line. *)
Theorem quick_check_rejection_sends_nothing :
  forall pid uptime railway w,
    (exists reason, uptime = Rejected reason)
    \/ (exists reason, railway = Rejected reason) ->
    fst (runSilentHealthCheck pid uptime railway w) = inr tt
    /\ notifications (trace (snd (runSilentHealthCheck pid uptime railway w)))
       = notifications (trace w)
    /\ console (trace (snd (runSilentHealthCheck pid uptime railway w)))
       = (console (trace w)
          ++ [ "[SCHEDULER] Running silent health check...";
               "[SCHEDULER] Error in silent health check:" ])%list.
Proof.
  intros pid uptime railway w H.
  rewrite (runSilentHealthCheck_rejected pid uptime railway w H). simpl.
  rewrite !notifications_app, !console_app. simpl.
  rewrite !app_nil_r, <- app_assoc. repeat split.
Qed.

Lemma quick_check_rejection_sends_nothing_witness :
  notifications
    (trace (snd (runSilentHealthCheck (Some "crimson-forge")
                   (Fulfilled (mkToolResult "uptime" true "2026-02-24T08:15:00.000Z"
                      [ UptimeData.mk "https://api.crimsonforge.pro/health" down None None ]
                      None))
                   (Rejected (JsError "socket hang up"))
                   World0)))
  = [].
Proof.
  refine (proj1 (proj2 (quick_check_rejection_sends_nothing _ _ _ World0 _))).
  right. exists (JsError "socket hang up"). reflexivity.
Defined.

(** X2: whatever the two adapters did, the quick check only ever sends
    alerts, never a briefing; every alert is critical; there are at most
    two, the uptime one before the deployment one, and exactly these two
    when both report down. *)
Theorem quick_check_sends_at_most_two_critical_alerts :
  forall pid uptime railway w,
    exists alerts,
      notifications (trace (snd (runSilentHealthCheck pid uptime railway w)))
      = (notifications (trace w) ++ map SendAlert alerts)%list
      /\ Forall (fun a => Alert.severity a = critical) alerts
      /\ (List.length alerts <= 2)%nat
      /\ (forall u r,
            uptime = Fulfilled u -> railway = Fulfilled r ->
            isUptimeDown u = true -> isRailwayDown r = true ->
            alerts = [uptimeDownAlert u; railwayDownAlert pid]).
Proof.
  intros pid uptime railway w.
  destruct uptime as [u|reason].
  2: { exists []. split.
       - rewrite (runSilentHealthCheck_rejected pid (Rejected reason) railway w
                    (or_introl (ex_intro _ reason eq_refl))).
         simpl. rewrite !notifications_app. simpl. rewrite !app_nil_r. reflexivity.
       - repeat split; [constructor|simpl; lia|]. intros; discriminate. }
  destruct railway as [r|reason].
  2: { exists []. split.
       - rewrite (runSilentHealthCheck_rejected pid (Fulfilled u) (Rejected reason) w
                    (or_intror (ex_intro _ reason eq_refl))).
         simpl. rewrite !notifications_app. simpl. rewrite !app_nil_r. reflexivity.
       - repeat split; [constructor|simpl; lia|]. intros; discriminate. }
  exists (quickAlerts pid u r). split; [apply quick_notifications|].
  unfold quickAlerts.
  destruct (isUptimeDown u) eqn:Eu; destruct (isRailwayDown r) eqn:Er; simpl;
    (split; [repeat constructor|split; [lia|]]);
    intros u' r' Hu Hr Hu' Hr'; injection Hu as <-; injection Hr as <-;
    congruence.
Qed.

(** X3: the overall status of a briefing is never [unknown]; it is [down]
    exactly when the datastore or the deployment says down, [healthy]
    exactly when every endpoint is healthy and the two other slots are
    healthy or left out, and [degraded] in every other case. *)
Theorem overallStatus_classification :
  forall u s r,
    overallStatus u s r <> unknown
    /\ (overallStatus u s r = down <->
        supabaseStatus s = down \/ railwayStatus r = down)
    /\ (overallStatus u s r = healthy <->
        uptimeStatus u = healthy
        /\ (supabaseStatus s = healthy \/ supabaseStatus s = unknown)
        /\ (railwayStatus r = healthy \/ railwayStatus r = unknown))
    /\ (overallStatus u s r = degraded <->
        supabaseStatus s <> down /\ railwayStatus r <> down
        /\ (uptimeStatus u = degraded
            \/ supabaseStatus s = degraded \/ railwayStatus r = degraded)).
Proof.
  intros u s r. split; [|split; [apply overallStatus_down_iff|split;
    [apply overallStatus_healthy_iff|]]].
  - rewrite overallStatus_precedence.
    destruct (uptimeStatus_two_valued u) as [E|E]; rewrite E;
      destruct (supabaseStatus s), (railwayStatus r); discriminate.
  - rewrite overallStatus_precedence.
    destruct (uptimeStatus_two_valued u) as [E|E]; rewrite E;
      destruct (supabaseStatus s), (railwayStatus r); cbn; split;
      try discriminate; try (intros _; repeat split; (discriminate || auto; fail));
      try (intros [H1 [H2 [H3|[H3|H3]]]]; congruence);
      intros _; repeat split; try discriminate; auto.
Qed.

(** X4: a rejected uptime adapter leaves a slot without payload, which is
    voted [degraded]: the briefing is then never [healthy], and when the
    datastore and deployment adapters rejected as well it is [degraded]. *)
Theorem rejected_uptime_is_never_healthy :
  forall reason s r,
    overallStatus (getResult (Rejected reason)) s r <> healthy
    /\ (forall reason1 reason2,
          overallStatus (getResult (Rejected reason))
            (getResult (Rejected reason1)) (getResult (Rejected reason2))
          = degraded).
Proof.
  intros reason s r. split.
  - intros H. apply overallStatus_healthy_iff in H. destruct H as [H _].
    simpl in H. discriminate.
  - intros reason1 reason2. reflexivity.
Qed.

Lemma sentryCondition_true_iff (sentry : Extracted SentryData.t) :
  sentryCondition sentry = true <->
  exists d, ex_data sentry = Some d /\ SentryData.newIssueCount d <> 0.
Proof.
  unfold sentryCondition. destruct (ex_data sentry) as [d|]; simpl.
  - rewrite negb_true_iff, Z.eqb_neq. split.
    + intros H. exists d. auto.
    + intros [d' [E H]]. injection E as <-. exact H.
  - split; [discriminate|]. intros [d [E _]]. discriminate.
Qed.

(** X5: the alert list of a briefing is empty exactly when the issue
    tracker slot has no payload or a new-issue count of zero and the
    datastore slot has no payload or no silent shop; the [success] flags of
    the two slots play no part. *)
Theorem briefing_alerts_empty_iff :
  forall org sentry supabase,
    buildAlerts org sentry supabase = [] <->
    (forall d, ex_data sentry = Some d -> SentryData.newIssueCount d = 0)
    /\ (forall d, ex_data supabase = Some d -> SupabaseData.silentShops d = []).
Proof.
  intros org sentry supabase. unfold buildAlerts.
  destruct (sentryCondition sentry) eqn:C.
  - split; [discriminate|]. intros [H _].
    apply sentryCondition_true_iff in C. destruct C as [d [E N]].
    destruct (N (H d E)).
  - assert (Hs : forall d, ex_data sentry = Some d -> SentryData.newIssueCount d = 0).
    { intros d E. destruct (Z.eq_dec (SentryData.newIssueCount d) 0) as [Z0|NZ]; [exact Z0|].
      assert (T : sentryCondition sentry = true)
        by (apply sentryCondition_true_iff; exists d; auto).
      congruence. }
    unfold silentShopsOf. destruct (ex_data supabase) as [d|]; simpl.
    + destruct (SupabaseData.silentShops d) as [|x l] eqn:L; simpl.
      * split; [|reflexivity]. intros _. split; [exact Hs|].
        intros d' E. injection E as <-. exact L.
      * split; [discriminate|]. intros [_ H]. specialize (H d eq_refl). congruence.
    + split; [|reflexivity]. intros _. split; [exact Hs|]. intros d E. discriminate.
Qed.



(** ** tools/uptime.ts *)

(** X6: the retrying check of an endpoint never throws and costs one
    fetch, or two fetches with one pause of 5000 ms between them; nothing
    else is fetched and the pause is never taken twice. *)
Theorem checkEndpoint_retry_cost :
  forall net url w,
    exists d w',
      UptimeRetry.checkEndpoint net url w = (inr d, w')
      /\ ((attempts w' = S (attempts w)
           /\ trace w' = (trace w ++ [Fetch url 20000])%list)
          \/ (attempts w' = S (S (attempts w))
              /\ trace w' =
                 (trace w ++ [Fetch url 20000; Sleep 5000; Fetch url 20000])%list)).
Proof.
  intros net url w.
  destruct (net (attempts w)) as [t1|r1] eqn:E1.
  - destruct (net (S (attempts w))) as [t2|r2] eqn:E2.
    + rewrite (checkEndpoint_retry_both_fail net url w t1 t2 E1 E2).
      do 2 eexists. split; [reflexivity|]. right. split; reflexivity.
    + rewrite (checkEndpoint_retry_second_answers net url w t1 r2 E1 E2).
      do 2 eexists. split; [reflexivity|]. right. split; reflexivity.
  - rewrite (checkEndpoint_retry_first_answers net url w r1 E1).
    do 2 eexists. split; [reflexivity|]. left. split; reflexivity.
Qed.

Lemma pinged_consistent url r : consistentEntry url (pinged url r).
Proof.
  unfold consistentEntry, pinged, res_ok. simpl.
  destruct (200 <=? res_status r) eqn:L; destruct (res_status r <=? 299) eqn:U;
    simpl; repeat split; try discriminate; try (intros H; discriminate H);
    try (intros _; exists (res_status r); split; [reflexivity|];
         apply Z.leb_le in L; apply Z.leb_le in U; lia);
    intros [c [E [H1 H2]]]; injection E as <-;
    try (apply Z.leb_gt in L; lia); apply Z.leb_gt in U; lia.
Qed.

Lemma downEndpoint_consistent url : consistentEntry url (downEndpoint url).
Proof.
  unfold consistentEntry, downEndpoint. simpl.
  repeat split; try discriminate; try reflexivity.
  intros [c [E _]]. discriminate.
Qed.

Lemma checkEndpoint_retry_consistent net url w :
  exists d w',
    UptimeRetry.checkEndpoint net url w = (inr d, w') /\ consistentEntry url d.
Proof.
  destruct (net (attempts w)) as [t1|r1] eqn:E1.
  - destruct (net (S (attempts w))) as [t2|r2] eqn:E2.
    + rewrite (checkEndpoint_retry_both_fail net url w t1 t2 E1 E2).
      do 2 eexists. split; [reflexivity|apply downEndpoint_consistent].
    + rewrite (checkEndpoint_retry_second_answers net url w t1 r2 E1 E2).
      do 2 eexists. split; [reflexivity|apply pinged_consistent].
  - rewrite (checkEndpoint_retry_first_answers net url w r1 E1).
    do 2 eexists. split; [reflexivity|apply pinged_consistent].
Qed.

Lemma checkEndpoint_once_consistent net url w :
  exists d w',
    UptimeOnce.checkEndpoint net url w = (inr d, w') /\ consistentEntry url d.
Proof.
  rewrite checkEndpoint_once_cases. do 2 eexists. split; [reflexivity|].
  destruct (net (attempts w)); [apply downEndpoint_consistent|apply pinged_consistent].
Qed.

(** X7: in both copies the check of an endpoint returns an entry for the
    url it was given, with a determined status; the response time and the
    status code are null exactly when the status is down, and the status is
    healthy exactly when the status code is in 200-299. *)
Theorem checkEndpoint_entry_is_consistent :
  forall net url w,
    (exists d w',
        UptimeRetry.checkEndpoint net url w = (inr d, w') /\ consistentEntry url d)
    /\ (exists d w',
           UptimeOnce.checkEndpoint net url w = (inr d, w') /\ consistentEntry url d).
Proof.
  intros net url w. split.
  - apply checkEndpoint_retry_consistent.
  - apply checkEndpoint_once_consistent.
Qed.

(** X8: in both copies the uptime adapter never takes its own fault
    branch: it returns [success = true] without error and with exactly two
    entries, the frontend's first and the API's second, whatever the
    network does. *)
Theorem runUptimeCheck_always_two_entries :
  forall frontend api now nets w,
    (exists d0 d1 w',
        UptimeRetry.runUptimeCheck frontend api now nets w =
        (inr (mkToolResult "uptime" true now [d0; d1] None), w')
        /\ consistentEntry frontend d0 /\ consistentEntry api d1)
    /\ (exists d0 d1 w',
           UptimeOnce.runUptimeCheck frontend api now nets w =
           (inr (mkToolResult "uptime" true now [d0; d1] None), w')
           /\ consistentEntry frontend d0 /\ consistentEntry api d1).
Proof.
  intros frontend api now nets w. split.
  - destruct (runUptimeCheck_retry_returns frontend api now nets w)
      as [d0 [w0 [d1 [w1 [H0 [H1 H]]]]]].
    exists d0, d1. eexists. split; [exact H|].
    destruct (checkEndpoint_retry_consistent (nets 0%nat) frontend World0)
      as [d0' [w0' [H0' C0]]].
    destruct (checkEndpoint_retry_consistent (nets 1%nat) api World0)
      as [d1' [w1' [H1' C1]]].
    rewrite H0 in H0'. rewrite H1 in H1'.
    injection H0' as <- _. injection H1' as <- _. auto.
  - unfold UptimeOnce.runUptimeCheck, try_catch, bind, mapi, spawnAll, ret.
    cbn [UptimeOnce.ENDPOINTS List.length seq combine map fst snd flat_map].
    rewrite !checkEndpoint_once_cases. cbn [fst snd settle map Promise_all].
    unfold bind, await, ret. cbn [attempts World0].
    do 3 eexists. split; [reflexivity|]. split.
    + destruct (nets 0%nat 0%nat); [apply downEndpoint_consistent|apply pinged_consistent].
    + destruct (nets 1%nat 0%nat); [apply downEndpoint_consistent|apply pinged_consistent].
Qed.

Lemma checkEndpoint_retry_down_iff_fresh net url :
  exists d w',
    UptimeRetry.checkEndpoint net url World0 = (inr d, w')
    /\ (UptimeData.status d = down <-> bothAttemptsFail net).
Proof.
  destruct (checkEndpoint_retry_down_iff net url World0) as [d [w' [H I]]].
  exists d, w'. split; [exact H|exact I].
Qed.

(** X9: the retrying uptime adapter feeds the quick check: its envelope
    counts as down exactly when both attempts on the frontend or both
    attempts on the API failed, and otherwise, with a deployment that is
    not down, the quick check sends nothing. *)
Theorem uptime_alert_needs_two_failed_attempts :
  forall frontend api now nets pid r w,
    exists e w0,
      UptimeRetry.runUptimeCheck frontend api now nets w = (inr e, w0)
      /\ (isUptimeDown e = true <->
          bothAttemptsFail (nets 0%nat) \/ bothAttemptsFail (nets 1%nat))
      /\ (isUptimeDown e = false ->
          isRailwayDown r = false ->
          notifications
            (trace (snd (runSilentHealthCheck pid (Fulfilled e) (Fulfilled r) World0)))
          = []).
Proof.
  intros frontend api now nets pid r w.
  destruct (runUptimeCheck_retry_returns frontend api now nets w)
    as [d0 [w0 [d1 [w1 [H0 [H1 H]]]]]].
  destruct (checkEndpoint_retry_down_iff_fresh (nets 0%nat) frontend)
    as [d0' [w0' [H0' I0]]].
  destruct (checkEndpoint_retry_down_iff_fresh (nets 1%nat) api)
    as [d1' [w1' [H1' I1]]].
  rewrite H0 in H0'. rewrite H1 in H1'.
  injection H0' as <- _. injection H1' as <- _.
  do 2 eexists. split; [exact H|]. split.
  - unfold isUptimeDown. simpl. rewrite orb_false_r, orb_true_iff.
    rewrite !HealthStatus_eqb_eq, I0, I1. reflexivity.
  - intros Hu Hr. rewrite quick_notifications. unfold quickAlerts.
    rewrite Hu, Hr. reflexivity.
Qed.


(** ** tools/railway.ts *)




(** X11: the copy of the deployment adapter that catches inside
    [fetchRailwayStatus] always answers [success = true] without error and
    never with the status [unknown]; the status is [down] exactly when the
    fetch rejected, the answer was outside 2xx, its body could not be read
    or parsed, it carried GraphQL errors, or the parsed body had the wrong
    shape ([null], or deployments without edges), and then both deployment
    fields are null; an answer of the right shape without any deployment
    is [degraded] with both fields null. *)
Theorem runRailwayCheck_catching_classification :
  forall now net w,
    exists d w',
      RailwayCatching.runRailwayCheck now net w =
      (inr (mkToolResult "railway" true now d None), w')
      /\ RailwayData.status d <> unknown
      /\ (RailwayData.status d = down <-> catchingFault (net (attempts w)))
      /\ (RailwayData.status d = down ->
          RailwayData.latestDeploymentStatus d = None
          /\ RailwayData.latestDeploymentAt d = None)
      /\ (forall r b,
            net (attempts w) = FetchResponse r ->
            res_ok r = true ->
            res_body r = Readable (Parses b) ->
            RailwayCatching.errors b = None ->
            ~ catchingWrongShape b ->
            RailwayCatching.deploymentOf b = None ->
            d = RailwayData.mk degraded None None).
Proof.
  intros now net w. apply runRailwayCheck_catching_answer.
Qed.

(** X12: a rejected fetch of the deployment status, seen by the two cycles.
    With the catching copy of the adapter the quick check sends the
    critical deployment alert and the briefing is [down]; with the
    propagating copy the quick check sends nothing and the deployment is
    left out of the briefing's status. *)
Theorem deployment_fetch_fault_in_the_cycles :
  forall now pid t netC netP (u : ToolResult (list UptimeData.t)) s,
    netC 0%nat = FetchFault t ->
    netP 0%nat = FetchFault t ->
    isUptimeDown u = false ->
    exists eC eP,
      fst (RailwayCatching.runRailwayCheck now netC World0) = inr eC
      /\ fst (RailwayPropagating.runRailwayCheck now netP World0) = inr eP
      /\ notifications
           (trace (snd (runSilentHealthCheck pid (Fulfilled u) (Fulfilled eC) World0)))
         = [SendAlert (railwayDownAlert pid)]
      /\ notifications
           (trace (snd (runSilentHealthCheck pid (Fulfilled u) (Fulfilled eP) World0)))
         = []
      /\ overallStatus (Envelope u) s (Envelope eC) = down
      /\ overallStatus (Envelope u) s (Envelope eP)
         = precedence [uptimeStatus (Envelope u); supabaseStatus s].
Proof.
  intros now pid t netC netP u s HC HP Hu.
  exists (mkToolResult "railway" true now (RailwayData.mk down None None) None),
         (mkToolResult "railway" false now unknownStatus (Some (errorMessage t))).
  split; [apply (runRailwayCheck_catching_fetch_fault now netC World0 t HC)|].
  split.
  { unfold RailwayPropagating.runRailwayCheck, RailwayPropagating.fetchRailwayStatus,
      bind, fetch, try_catch, ret. simpl. rewrite HP. reflexivity. }
  split; [|split; [|split]].
  - rewrite quick_notifications. unfold quickAlerts. rewrite Hu. reflexivity.
  - rewrite quick_notifications. unfold quickAlerts. rewrite Hu. reflexivity.
  - apply overallStatus_down_iff. right. reflexivity.
  - rewrite overallStatus_precedence.
    destruct (uptimeStatus_two_valued (Envelope u)) as [U|U]; rewrite U;
      destruct (supabaseStatus s); reflexivity.
Qed.

Lemma deployment_fetch_fault_in_the_cycles_witness :
  exists eC eP,
    fst (RailwayCatching.runRailwayCheck "2026-02-24T08:15:00.000Z"
           (fun _ => FetchFault (JsError "fetch failed")) World0) = inr eC
    /\ fst (RailwayPropagating.runRailwayCheck "2026-02-24T08:15:00.000Z"
              (fun _ => FetchFault (JsError "fetch failed")) World0) = inr eP
    /\ success eC = true /\ success eP = false.
Proof.
  destruct (deployment_fetch_fault_in_the_cycles
              "2026-02-24T08:15:00.000Z" (Some "crimson-forge") (JsError "fetch failed")
              (fun _ => FetchFault (JsError "fetch failed"))
              (fun _ => FetchFault (JsError "fetch failed"))
              (mkToolResult "uptime" true "2026-02-24T08:15:00.000Z"
                 [ UptimeData.mk "https://crimsonforge.pro" healthy (Some 187) (Some 200) ]
                 None)
              (Bare "unused") eq_refl eq_refl eq_refl)
    as [eC [eP [HC [HP _]]]].
  exists eC, eP. split; [exact HC|]. split; [exact HP|].
  simpl in HC, HP. injection HC as <-. injection HP as <-. split; reflexivity.
Defined.

(** ** tools/supabase.ts *)




(** X15: when the connection check fails, by an error it reports or by
    rejecting, the datastore check stops there: the envelope does not
    depend on what the five other queries would have answered. *)
Theorem runSupabaseCheck_stops_at_connection_failure :
  forall now nowMs db db' w,
    Supabase.q_connection db = Supabase.q_connection db' ->
    (forall c, Supabase.q_connection db = Fulfilled c -> Supabase.pg_error c <> None) ->
    Supabase.runSupabaseCheck now nowMs db w = Supabase.runSupabaseCheck now nowMs db' w
    /\ exists e,
         Supabase.runSupabaseCheck now nowMs db w = (inr e, w)
         /\ success e = false
         /\ data e = SupabaseData.mk down 0 0 0 0 [].
Proof.
  intros now nowMs db db' w E H.
  unfold Supabase.runSupabaseCheck, try_catch, bind, await, ret, throw.
  rewrite <- E. destruct (Supabase.q_connection db) as [c|t]; simpl.
  - specialize (H c eq_refl). destruct (Supabase.pg_error c); [|contradiction].
    simpl. split; [reflexivity|]. eexists. split; [reflexivity|]. split; reflexivity.
  - split; [reflexivity|]. eexists. split; [reflexivity|]. split; reflexivity.
Qed.

Lemma runSupabaseCheck_stops_at_connection_failure_witness :
  Supabase.runSupabaseCheck "2026-02-24T08:00:00.000Z" 1771920000000
    (Supabase.mkQueries (Rejected (JsError "fetch failed"))
       (Rejected JsOther) (Rejected JsOther) (Rejected JsOther)
       (Rejected JsOther) (Rejected JsOther)) World0
  = Supabase.runSupabaseCheck "2026-02-24T08:00:00.000Z" 1771920000000
      (Supabase.mkQueries (Rejected (JsError "fetch failed"))
         (Fulfilled (Supabase.mkPostgrestResponse None (Some 12) None))
         (Fulfilled (Supabase.mkPostgrestResponse (Some [tt]) None None))
         (Fulfilled (Supabase.mkPostgrestResponse None (Some 87) None))
         (Fulfilled (Supabase.mkPostgrestResponse None (Some 34) None))
         (Fulfilled (Supabase.mkPostgrestResponse (Some []) None None))) World0.
Proof.
  refine (proj1 (runSupabaseCheck_stops_at_connection_failure _ _ _ _ World0 _ _)).
  - reflexivity.
  - intros c H. discriminate.
Defined.

(** ** tools/sentry.ts *)

Lemma issueOf_level_truthy v : truthy (Sentry.level (issueOf v)) = true.
Proof.
  unfold issueOf. cbn [Sentry.level].
  destruct (truthy (field v "level")) eqn:E; [exact E|reflexivity].
Qed.

(** X16: the issue-tracker adapter always makes exactly two fetches, each
    with a 10 s timeout: the new-issues query, then the unresolved query,
    which is made also when the first one failed; it never throws. No
    fault of a fetch reaches its handler: two failed queries give
    [success = true] with zero counts. Its envelope has [success = false]
    exactly when a 2xx body is not what the cast takes it for: the second
    answer is not an array or has a [null] among its first five entries,
    or the first answer is [null]; the error is then the message of the
    TypeError, which is not empty, and the payload is the zero one. *)
Theorem runSentryCheck_always_two_fetches :
  forall org project now yesterday withSearchParams net w,
    exists e w',
      Sentry.runSentryCheck org project now yesterday withSearchParams net w
      = (inr e, w')
      /\ attempts w' = S (S (attempts w))
      /\ trace w' =
         (trace w
          ++ [ Fetch (sentryUrl org project withSearchParams
                        ("firstSeen:>" ++ yesterday ++ " is:unresolved")) 10000;
               Fetch (sentryUrl org project withSearchParams "is:unresolved") 10000 ])%list
      /\ (success e = true <->
          issueList (sentryAnswer (net (S (attempts w)))) = true
          /\ sentryAnswer (net (attempts w)) <> JNull)
      /\ (success e = true -> error e = None)
      /\ (success e = false ->
          (exists m, error e = Some m /\ m <> "")
          /\ data e = Sentry.mkPayload (Some (JNum 0)) (Some (JNum 0)) [])
      /\ (sentryAnswer (net (attempts w)) = JArr [] ->
          sentryAnswer (net (S (attempts w))) = JArr [] ->
          e = mkToolResult "sentry" true now
                (Sentry.mkPayload (Some (JNum 0)) (Some (JNum 0)) []) None).
Proof.
  intros.
  destruct (runSentryCheck_answer org project now yesterday withSearchParams net w)
    as [e [H C]].
  cbv zeta in C. do 2 eexists. split; [exact H|].
  split; [reflexivity|]. split; [reflexivity|].
  destruct C as [[G [items [E2 ->]]]|[G [t [-> N]]]]; cbn [success error data].
  - apply andb_true_iff in G. destruct G as [G1 G2]. apply negb_true_iff in G2.
    split; [|split; [|split]].
    + split; [|reflexivity]. intros _. split; [exact G1|].
      intros Hn. rewrite Hn in G2. discriminate.
    + reflexivity.
    + discriminate.
    + intros H1 H2. rewrite H1. rewrite E2 in H2. injection H2 as ->. reflexivity.
  - split; [|split; [|split]].
    + split; [discriminate|]. intros [G1 G2]. rewrite G1 in G.
      destruct (sentryAnswer (net (attempts w))); try discriminate G.
      destruct G2. reflexivity.
    + discriminate.
    + intros _. split; [|reflexivity]. eexists. split; [reflexivity|exact N].
    + intros H1 H2. rewrite H1, H2 in G. discriminate.
Qed.

(** X17: the payload of an issue-tracker envelope with [success = true]:
    the unresolved answer was an array, the unresolved count is its length
    and the recent issues are built from its first five entries (from all
    of them when there are fewer), each with a truthy level; the new-issue
    count is the [length] of the first answer, whatever that is: the
    number of entries of an array, so zero for a query that failed, and
    undefined for a number or a boolean. *)
Theorem runSentryCheck_payload :
  forall org project now yesterday withSearchParams net w,
    exists e w',
      Sentry.runSentryCheck org project now yesterday withSearchParams net w
      = (inr e, w')
      /\ (success e = true ->
          exists items,
            sentryAnswer (net (S (attempts w))) = JArr items
            /\ Sentry.unresolvedCount (data e)
               = Some (JNum (Z.of_nat (List.length items)))
            /\ Sentry.recentIssues (data e) = map issueOf (firstn 5 items)
            /\ List.length (Sentry.recentIssues (data e))
               = Nat.min 5 (List.length items)
            /\ Forall (fun issue => truthy (Sentry.level issue) = true)
                 (Sentry.recentIssues (data e))
            /\ Sentry.newIssueCount (data e)
               = lengthValue (sentryAnswer (net (attempts w)))
            /\ (forall entries,
                  sentryAnswer (net (attempts w)) = JArr entries ->
                  Sentry.newIssueCount (data e)
                  = Some (JNum (Z.of_nat (List.length entries))))
            /\ ((exists n, sentryAnswer (net (attempts w)) = JNum n)
                \/ (exists b, sentryAnswer (net (attempts w)) = JBool b) ->
                Sentry.newIssueCount (data e) = None)).
Proof.
  intros.
  destruct (runSentryCheck_answer org project now yesterday withSearchParams net w)
    as [e [H C]].
  cbv zeta in C. do 2 eexists. split; [exact H|].
  destruct C as [[G [items [E2 ->]]]|[G [t [-> N]]]]; cbn [success error data];
    [|discriminate].
  intros _. exists items. cbn [Sentry.unresolvedCount Sentry.recentIssues
                               Sentry.newIssueCount].
  split; [exact E2|]. split; [reflexivity|]. split; [reflexivity|].
  split; [rewrite length_map, length_firstn; reflexivity|].
  split.
  { apply Forall_forall. intros issue Hin. apply in_map_iff in Hin.
    destruct Hin as [v [<- _]]. apply issueOf_level_truthy. }
  split; [reflexivity|]. split.
  - intros entries ->. reflexivity.
  - intros [[n ->]|[b ->]]; reflexivity.
Qed.

(** ** tools/email.ts *)

(** X19: the inbox adapter blames the configuration exactly when one of
    the three IMAP variables is unset or empty, and otherwise says that the
    check is not implemented; in both cases the envelope has
    [success = false], status [unknown] and zero unread messages, and no
    fetch is made. *)
Theorem runEmailCheck_reason :
  forall host user pass now w,
    exists m,
      Email.runEmailCheck host user pass now w =
      (inr (mkToolResult "email" false now (EmailData.mk unknown 0 now) (Some m)), w)
      /\ (m = "Email configuration not provided. Set IMAP_HOST, IMAP_USER, IMAP_PASS in environment."
          <-> (host = None \/ host = Some "") \/ (user = None \/ user = Some "")
              \/ (pass = None \/ pass = Some ""))
      /\ (m = "Email check not yet implemented"
          <-> (exists h, host = Some h /\ h <> "")
              /\ (exists u, user = Some u /\ u <> "")
              /\ (exists p, pass = Some p /\ p <> "")).
Proof.
  intros host user pass now w.
  assert (M : forall v, Email.missing v = true <-> v = None \/ v = Some "").
  { intros [s|]; simpl; unfold truthy_string; rewrite ?negb_involutive.
    - rewrite String.eqb_eq. split; [intros ->; auto|].
      intros [H|H]; [discriminate|injection H as ->; reflexivity].
    - split; auto. }
  assert (N : forall v, Email.missing v = false <-> exists s, v = Some s /\ s <> "").
  { intros [s|]; simpl; unfold truthy_string; rewrite ?negb_involutive.
    - rewrite String.eqb_neq. split.
      + intros H. exists s. auto.
      + intros [s' [E H]]. injection E as <-. exact H.
    - split; [discriminate|]. intros [s [E _]]. discriminate. }
  unfold Email.runEmailCheck, try_catch, ret.
  destruct (Email.missing host || Email.missing user || Email.missing pass) eqn:E; simpl.
  - eexists. split; [reflexivity|]. split.
    + split; [intros _|reflexivity].
      apply orb_true_iff in E. destruct E as [E|E].
      * apply orb_true_iff in E. destruct E as [E|E]; apply M in E; auto.
      * apply M in E. auto.
    + split; [discriminate|]. intros [Hh [Hu Hp]].
      apply N in Hh, Hu, Hp. rewrite Hh, Hu, Hp in E. discriminate.
  - eexists. split; [reflexivity|].
    apply orb_false_iff in E. destruct E as [E Ep].
    apply orb_false_iff in E. destruct E as [Eh Eu].
    split.
    + split; [discriminate|]. intros [H|[H|H]]; apply M in H; congruence.
    + split; [intros _|reflexivity]. repeat split; apply N; assumption.
Qed.

(** ** index.ts *)

Lemma unset_false_iff env key :
  Index.unset env key = false <-> exists v, env key = Some v /\ v <> "".
Proof.
  unfold Index.unset, truthy_string. destruct (env key) as [v|].
  - rewrite negb_involutive, String.eqb_neq. split.
    + intros H. exists v. auto.
    + intros [v' [E H]]. injection E as <-. exact H.
  - split; [discriminate|]. intros [v [E _]]. discriminate.
Qed.

(** X20: the start-up validation ends the process, with exit code 1,
    exactly when one of the eleven required variables is unset or empty,
    and then the console names exactly those variables; otherwise it does
    not exit, which means that every required variable has a non-empty
    value. *)
Theorem validateEnvironment_exits_iff_missing :
  forall env,
    (snd (Index.validateEnvironment env) = Some 1 <->
     exists key, In key Index.required /\ Index.unset env key = true)
    /\ (snd (Index.validateEnvironment env) = None <->
        forall key, In key Index.required -> exists v, env key = Some v /\ v <> "")
    /\ (snd (Index.validateEnvironment env) = Some 1 ->
        forall key,
          In ("   - " ++ key)%string (fst (Index.validateEnvironment env)) <->
          In key Index.required /\ Index.unset env key = true).
Proof.
  intros env. unfold Index.validateEnvironment.
  destruct (filter (Index.unset env) Index.required) as [|k ks] eqn:F.
  - cbn [List.length Z.of_nat Z.ltb Z.compare snd fst].
    assert (A : forall key, In key Index.required -> Index.unset env key = false).
    { intros key Hin. destruct (Index.unset env key) eqn:U; [|reflexivity].
      assert (Hf : In key (filter (Index.unset env) Index.required))
        by (apply filter_In; auto).
      rewrite F in Hf. destruct Hf. }
    split; [|split].
    + split; [discriminate|]. intros [key [Hin U]]. rewrite (A key Hin) in U. discriminate.
    + split; [|reflexivity]. intros _ key Hin. apply unset_false_iff. auto.
    + discriminate.
  - assert (L : (0 <? Z.of_nat (List.length (k :: ks))) = true)
      by (apply Z.ltb_lt; simpl List.length; lia).
    rewrite L. cbn [snd fst].
    assert (Hk : In k Index.required /\ Index.unset env k = true).
    { apply filter_In. rewrite F. left. reflexivity. }
    split; [|split].
    + split; [|reflexivity]. intros _. exists k. exact Hk.
    + split; [discriminate|]. intros H. destruct Hk as [Hin U].
      destruct (H k Hin) as [v Hv].
      assert (U' : Index.unset env k = false) by (apply unset_false_iff; eauto).
      congruence.
    + intros _ key. rewrite <- filter_In, F. split.
      * intros [H|H]; [discriminate|].
        apply in_app_or in H. destruct H as [H|[H|[]]].
        -- apply in_map_iff in H. destruct H as [key' [E Hin]].
           injection E as <-. exact Hin.
        -- discriminate.
      * intros H. right. apply in_or_app. left.
        apply in_map_iff. exists key. auto.
Qed.

(** X21: the start-up validation reads the eleven required variables and
    nothing else: two environments that agree on them get the same
    outcome. CF_SERVICE_ID, the variable the deployment adapter reads its
    service id from, is not among them. *)
Theorem validateEnvironment_reads_only_required :
  forall env env',
    (forall key, In key Index.required -> env key = env' key) ->
    Index.validateEnvironment env = Index.validateEnvironment env'
    /\ ~ In "CF_SERVICE_ID" Index.required.
Proof.
  intros env env' H. split.
  - unfold Index.validateEnvironment.
    assert (F : filter (Index.unset env) Index.required
                = filter (Index.unset env') Index.required).
    { apply filter_ext_in. intros key Hin. unfold Index.unset.
      rewrite (H key Hin). reflexivity. }
    rewrite F. reflexivity.
  - unfold Index.required. intros Hin.
    repeat (destruct Hin as [Hin|Hin]; [discriminate|]). exact Hin.
Qed.

Lemma validateEnvironment_reads_only_required_witness :
  Index.validateEnvironment (fun key => Some "set")
  = Index.validateEnvironment
      (fun key => if String.eqb key "CF_SERVICE_ID" then None else Some "set")
  /\ snd (Index.validateEnvironment
            (fun key => if String.eqb key "CF_SERVICE_ID" then None else Some "set"))
     = None.
Proof.
  split; [|reflexivity].
  refine (proj1 (validateEnvironment_reads_only_required _ _ _)).
  intros key Hin. unfold Index.required in Hin.
  repeat (destruct Hin as [<-|Hin]; [reflexivity|]). destruct Hin.
Defined.

(** ** notifications/slack.ts *)

Lemma postToSlack_answer url net text w :
  Slack.postToSlack url net text w =
  (inr tt,
   mkWorld (S (attempts w))
     (trace w
      ++ Fetch url 10000
      :: (if delivered (net (attempts w)) then [] else [Log "Error posting to Slack:"]))).
Proof.
  unfold Slack.postToSlack, delivered, try_catch, bind, fetch, ret, throw, emit.
  destruct (net (attempts w)) as [t|r]; simpl.
  - rewrite <- app_assoc. reflexivity.
  - destruct (res_ok r); simpl; [reflexivity|].
    rewrite <- app_assoc. reflexivity.
Qed.

(** X22: sending an alert never throws, whatever the webhook does: it
    makes exactly one POST to the webhook with a 10 s timeout and never
    retries; when the fetch rejects or the answer is outside 2xx the only
    trace of the failure is one console line. *)
Theorem sendAlert_posts_once_and_never_throws :
  forall url nowTime toUpperCase net alert w,
    Slack.sendAlert url nowTime toUpperCase net alert w =
    (inr tt,
     mkWorld (S (attempts w))
       (trace w
        ++ Fetch url 10000
        :: (if delivered (net (attempts w)) then [] else [Log "Error posting to Slack:"]))).
Proof.
  intros. unfold Slack.sendAlert, try_catch. rewrite postToSlack_answer. reflexivity.
Qed.

(** X23: a briefing whose date cannot be formatted (the time zone is not
    valid) is dropped: nothing is posted to the webhook, one console line
    is written and the call returns normally. When both formats succeed,
    exactly one POST is made, and a failed delivery is only logged. *)
Theorem sendBriefing_drops_on_format_fault :
  forall url toLocaleTimeString toLocaleDateString shopDate net briefing w,
    ((exists t, toLocaleTimeString (MorningBriefing.timestamp briefing) = inl t)
     \/ (exists t, toLocaleDateString (MorningBriefing.timestamp briefing) = inl t) ->
     Slack.sendBriefing url toLocaleTimeString toLocaleDateString shopDate net briefing w
     = (inr tt,
        mkWorld (attempts w) (trace w ++ [Log "Error sending briefing to Slack:"])))
    /\ (forall timeStr dateStr,
          toLocaleTimeString (MorningBriefing.timestamp briefing) = inr timeStr ->
          toLocaleDateString (MorningBriefing.timestamp briefing) = inr dateStr ->
          Slack.sendBriefing url toLocaleTimeString toLocaleDateString shopDate net briefing w
          = (inr tt,
             mkWorld (S (attempts w))
               (trace w
                ++ Fetch url 10000
                :: (if delivered (net (attempts w)) then []
                    else [Log "Error posting to Slack:"])))).
Proof.
  intros. split.
  - intros H. unfold Slack.sendBriefing, Slack.lift, try_catch, bind, throw, ret, emit.
    destruct (toLocaleTimeString (MorningBriefing.timestamp briefing)) as [t|timeStr].
    + reflexivity.
    + destruct H as [[t H]|[t H]]; [discriminate|]. rewrite H. reflexivity.
  - intros timeStr dateStr Ht Hd.
    unfold Slack.sendBriefing, Slack.lift, try_catch, bind.
    rewrite Ht, Hd. unfold ret. rewrite postToSlack_answer. reflexivity.
Qed.

Lemma sendBriefing_drops_on_format_fault_witness :
  Slack.sendBriefing "https://hooks.slack.com/services/T000/B000/XXXX"
    (fun _ => inl (JsError "Invalid time zone specified: Mars/Olympus"))
    (fun _ => inl (JsError "Invalid time zone specified: Mars/Olympus"))
    (fun _ => "2/19/2026")
    (fun _ => FetchResponse (mkResponse 200 "OK" 80 (Readable (Parses tt))))
    (buildBriefing (Some "crimson-forge") "2026-02-24T08:00:00.000Z"
       (Rejected JsOther) (Rejected JsOther) (Rejected JsOther)
       (Rejected JsOther) (Rejected JsOther))
    World0
  = (inr tt, mkWorld 0 [Log "Error sending briefing to Slack:"]).
Proof.
  refine (proj1 (sendBriefing_drops_on_format_fault _ _ _ _ _ _ World0) _).
  left. eexists. reflexivity.
Defined.

(** X24: the heading of a briefing built by the scheduler reads ALL
    SYSTEMS GO, with the green mark, exactly when every endpoint of the
    uptime slot is healthy and the datastore and the deployment are each
    healthy or left out (status unknown, or no payload); in every other
    case it reads ISSUES DETECTED. *)
Theorem briefing_heading_all_systems_go_iff :
  forall org now uptime supabase sentry railway email,
    let briefing := buildBriefing org now uptime supabase sentry railway email in
    let calm :=
      uptimeStatus (getResult uptime) = healthy
      /\ (supabaseStatus (getResult supabase) = healthy
          \/ supabaseStatus (getResult supabase) = unknown)
      /\ (railwayStatus (getResult railway) = healthy
          \/ railwayStatus (getResult railway) = unknown) in
    (Slack.statusText briefing = "ALL SYSTEMS GO" <-> calm)
    /\ (Slack.statusText briefing = "ISSUES DETECTED" <-> ~ calm)
    /\ (Slack.getStatusEmoji (MorningBriefing.overallStatus briefing) = "🟢" <-> calm).
Proof.
  intros org now uptime supabase sentry railway email. cbv zeta.
  unfold Slack.statusText, buildBriefing. cbn [MorningBriefing.overallStatus].
  pose proof (overallStatus_healthy_iff (getResult uptime) (getResult supabase)
                (getResult railway)) as I.
  destruct (overallStatus (getResult uptime) (getResult supabase) (getResult railway))
    eqn:O; cbn; rewrite <- I; repeat split; intros H;
    try discriminate; try reflexivity; try congruence;
    try (exfalso; apply H; reflexivity).
Qed.

(** X25: a deployment slot that is left out of the overall status because
    its adapter failed is still listed as down in the briefing: for a slot
    with [success = false] and status unknown (a rejected adapter, or the
    propagating copy's fault envelope) the line reads "Railway API — Tool
    failed" with the red mark, while the overall status is the one of the
    two other sources alone. *)
Theorem failed_deployment_is_listed_but_not_counted :
  forall org now uptime supabase sentry railway email,
    ex_success (getResult railway) = false ->
    railwayStatus (getResult railway) = unknown ->
    let briefing := buildBriefing org now uptime supabase sentry railway email in
    Slack.railwayLine (MorningBriefing.railway briefing)
    = ("🔴 Railway API — Tool failed" ++ Slack.nl)%string
    /\ MorningBriefing.overallStatus briefing
       = precedence [uptimeStatus (getResult uptime); supabaseStatus (getResult supabase)].
Proof.
  intros org now uptime supabase sentry railway email Hs Hu. cbv zeta.
  unfold buildBriefing. cbn [MorningBriefing.railway MorningBriefing.overallStatus].
  split.
  - unfold Slack.railwayLine. destruct (getResult railway) as [r|m]; [|reflexivity].
    simpl in Hs. rewrite Hs. reflexivity.
  - rewrite overallStatus_precedence, Hu.
    destruct (uptimeStatus_two_valued (getResult uptime)) as [U|U]; rewrite U;
      destruct (supabaseStatus (getResult supabase)); reflexivity.
Qed.

Lemma failed_deployment_is_listed_but_not_counted_witness :
  let briefing :=
    buildBriefing (Some "crimson-forge") "2026-02-24T08:00:00.000Z"
      (Fulfilled (mkToolResult "uptime" true "2026-02-24T08:00:00.000Z"
                    [ UptimeData.mk "https://crimsonforge.pro" healthy (Some 187) (Some 200) ]
                    None))
      (Fulfilled (mkToolResult "supabase" true "2026-02-24T08:00:00.000Z"
                    (SupabaseData.mk healthy 12 7 87 34 []) None))
      (Rejected JsOther)
      (Rejected (JsError "socket hang up"))
      (Rejected JsOther) in
  Slack.railwayLine (MorningBriefing.railway briefing)
  = ("🔴 Railway API — Tool failed" ++ Slack.nl)%string
  /\ Slack.statusText briefing = "ALL SYSTEMS GO".
Proof.
  cbv zeta. split.
  - refine (proj1 (failed_deployment_is_listed_but_not_counted _ _ _ _ _ _ _ _ _));
      reflexivity.
  - reflexivity.
Defined.

(** X26: for an envelope the datastore adapter returned, the briefing shows
    the section SHOPS TO WATCH exactly when the scheduler raised the info
    alert about inactive shops. *)
Theorem shops_section_matches_info_alert :
  forall now nowMs db e org sentry shopDate,
    produces (Supabase.runSupabaseCheck now nowMs db) e ->
    (Slack.shopsToWatch shopDate (Envelope e) <> "" <->
     exists a, In a (buildAlerts org sentry (Envelope e)) /\ Alert.severity a = info).
Proof.
  intros now nowMs db e org sentry shopDate [w [w' H]].
  destruct (runSupabaseCheck_cases now nowMs db w) as [e' [H' C]].
  rewrite H in H'. injection H' as <- _.
  assert (S : (exists a, In a (buildAlerts org sentry (Envelope e))
                         /\ Alert.severity a = info)
              <-> SupabaseData.silentShops (data e) <> []).
  { unfold buildAlerts, silentShopsOf. simpl.
    destruct (SupabaseData.silentShops (data e)) as [|x l]; simpl.
    - split; [|congruence]. intros [a [Hin Ha]].
      destruct (sentryCondition sentry); simpl in Hin.
      + destruct Hin as [<-|[]]. discriminate.
      + destruct Hin.
    - split; [discriminate|]. intros _. eexists. split.
      + apply in_or_app. right. left. reflexivity.
      + reflexivity. }
  rewrite S. unfold Slack.shopsToWatch.
  destruct C as [[Hs _]|[Hs [Hd _]]]; rewrite Hs; simpl.
  - destruct (SupabaseData.silentShops (data e)) as [|x l]; simpl.
    + split; congruence.
    + split; discriminate.
  - rewrite Hd. simpl. split; congruence.
Qed.

Lemma shops_section_matches_info_alert_witness :
  let e := mkToolResult "supabase" true "2026-02-24T08:00:00.000Z"
             (SupabaseData.mk healthy 12 2 87 34
                [SilentShop.mk "s-1" "AutoPro Downtown" (Some 1771488000000) 5])
             None in
  Slack.shopsToWatch (fun _ => "2/19/2026") (Envelope e) <> "" <->
  exists a, In a (buildAlerts (Some "crimson-forge") (Bare "unused") (Envelope e))
            /\ Alert.severity a = info.
Proof.
  cbv zeta.
  apply (shops_section_matches_info_alert "2026-02-24T08:00:00.000Z" 1771920000000
           (Supabase.mkQueries
              (Fulfilled (Supabase.mkPostgrestResponse (Some tt) None None))
              (Fulfilled (Supabase.mkPostgrestResponse None (Some 12) None))
              (Fulfilled (Supabase.mkPostgrestResponse (Some [tt; tt]) None None))
              (Fulfilled (Supabase.mkPostgrestResponse None (Some 87) None))
              (Fulfilled (Supabase.mkPostgrestResponse None (Some 34) None))
              (Fulfilled (Supabase.mkPostgrestResponse
                            (Some [Supabase.mkSilentShopRow "s-1" "AutoPro Downtown"
                                     (Some 1771488000000)])
                            None None)))).
  exists World0, World0. vm_compute. reflexivity.
Defined.

(** X27: in a briefing built by the scheduler every alert is written with
    the warning mark, never the red one, as the mark, a blank and the
    alert's message: the link of the alert is not printed and there are no
    details. *)
Theorem briefing_alert_lines_are_warnings :
  forall org sentry supabase a,
    In a (buildAlerts org sentry supabase) ->
    Slack.alertLine a = ("⚠️ " ++ Alert.message a ++ Slack.nl)%string.
Proof.
  intros org sentry supabase a Hin. unfold buildAlerts in Hin.
  apply in_app_or in Hin. destruct Hin as [Hin|Hin].
  - destruct (sentryCondition sentry); [|destruct Hin].
    destruct Hin as [<-|[]]. reflexivity.
  - cbv zeta in Hin.
    destruct (0 <? Z.of_nat (List.length (silentShopsOf supabase))); [|destruct Hin].
    destruct Hin as [<-|[]]. reflexivity.
Qed.

Lemma briefing_alert_lines_are_warnings_witness :
  Slack.alertLine
    (sentryAlert (Some "crimson-forge")
       (Envelope (mkToolResult "sentry" true "2026-02-24T08:00:00.000Z"
                    (SentryData.mk 3 4 []) None)))
  = ("⚠️ 3 new error issues detected" ++ Slack.nl)%string.
Proof.
  apply (briefing_alert_lines_are_warnings (Some "crimson-forge")
           (Envelope (mkToolResult "sentry" true "2026-02-24T08:00:00.000Z"
                        (SentryData.mk 3 4 []) None))
           (Bare "unused")).
  left. reflexivity.
Defined.

(** ** From the issue tracker to the briefing *)

Lemma sentry_envelope_read org project now yesterday withSearchParams net w e w' r :
  Sentry.runSentryCheck org project now yesterday withSearchParams net w = (inr e, w') ->
  sentryReadsAs e r ->
  (success r = true
   /\ issueList (sentryAnswer (net (S (attempts w)))) = true
   /\ lengthValue (sentryAnswer (net (attempts w)))
      = Some (JNum (SentryData.newIssueCount (data r))))
  \/ (success r = false
      /\ SentryData.newIssueCount (data r) = 0
      /\ (issueList (sentryAnswer (net (S (attempts w)))) = false
          \/ sentryAnswer (net (attempts w)) = JNull)).
Proof.
  intros H [Rs [_ [Rn _]]].
  destruct (runSentryCheck_answer org project now yesterday withSearchParams net w)
    as [e' [H' C]].
  cbv zeta in C. rewrite H in H'. injection H' as <- _.
  destruct C as [[G [items [E2 ->]]]|[G [t [-> N]]]]; cbn [success data] in *.
  - left. apply andb_true_iff in G. destruct G as [G1 _].
    split; [exact Rs|]. split; [exact G1|]. exact Rn.
  - unfold sentryFaultEnvelope in Rs, Rn. simpl in Rs, Rn. injection Rn as Rn.
    right. split; [exact Rs|]. split; [symmetry; exact Rn|].
    apply andb_false_iff in G. destruct G as [G|G]; [left; exact G|right].
    apply negb_false_iff in G. destruct (sentryAnswer (net (attempts w)));
      try discriminate G. reflexivity.
Qed.

Lemma no_warning_without_condition org (r : ToolResult SentryData.t) supabase :
  sentryCondition (Envelope r) = false ->
  forall a, In a (buildAlerts org (Envelope r) supabase) -> Alert.severity a <> warning.
Proof.
  intros C a Hin. unfold buildAlerts in Hin. rewrite C in Hin. cbn [app] in Hin.
  cbv zeta in Hin.
  destruct (0 <? Z.of_nat (List.length (silentShopsOf supabase))); [|destruct Hin].
  destruct Hin as [<-|[]]. discriminate.
Qed.

(** X18: the issue-tracker adapter feeds the briefing. For an envelope
    whose counts are numbers, the warning alert is raised exactly when the
    adapter answered [success = true] with a new-issue count that is not
    zero, which is then the length of the first answer. A first query
    that failed raises no alert; neither does a second answer that is not
    a list of issues, whatever the first query found: the handler's
    envelope has a count of zero. *)
Theorem sentry_alert_needs_an_answered_query :
  forall org project now yesterday withSearchParams net w e w' r sentryOrg supabase,
    Sentry.runSentryCheck org project now yesterday withSearchParams net w = (inr e, w') ->
    sentryReadsAs e r ->
    (sentryCondition (Envelope r) = true <->
     success e = true /\ SentryData.newIssueCount (data r) <> 0)
    /\ (sentryCondition (Envelope r) = true ->
        lengthValue (sentryAnswer (net (attempts w)))
        = Some (JNum (SentryData.newIssueCount (data r)))
        /\ In (sentryAlert sentryOrg (Envelope r))
              (buildAlerts sentryOrg (Envelope r) supabase))
    /\ (sentryAnswer (net (attempts w)) = JArr [] ->
        sentryCondition (Envelope r) = false)
    /\ (issueList (sentryAnswer (net (S (attempts w)))) = false ->
        forall a, In a (buildAlerts sentryOrg (Envelope r) supabase) ->
                  Alert.severity a <> warning).
Proof.
  intros org project now yesterday withSearchParams net w e w' r sentryOrg supabase H R.
  pose proof (sentry_envelope_read _ _ _ _ _ _ _ _ _ _ H R) as C.
  destruct R as [Rs [_ _]].
  assert (Cond : sentryCondition (Envelope r) = negb (SentryData.newIssueCount (data r) =? 0))
    by reflexivity.
  split; [|split; [|split]].
  - rewrite Cond, negb_true_iff, Z.eqb_neq. rewrite <- Rs.
    destruct C as [[S _]|[S [Z0 _]]]; rewrite S.
    + split; [intros N; split; [reflexivity|exact N]|intros [_ N]; exact N].
    + split; [intros N; destruct (N Z0)|intros [D _]; discriminate].
  - intros T. split.
    + destruct C as [[_ [_ L]]|[_ [Z0 _]]]; [exact L|].
      rewrite Cond, Z0 in T. discriminate.
    + unfold buildAlerts. rewrite T. left. reflexivity.
  - intros A. rewrite Cond, negb_false_iff, Z.eqb_eq.
    destruct C as [[_ [_ L]]|[_ [Z0 _]]]; [|exact Z0].
    rewrite A in L. simpl in L. injection L as L. symmetry. exact L.
  - intros I. apply no_warning_without_condition.
    rewrite Cond, negb_false_iff, Z.eqb_eq.
    destruct C as [[_ [I' _]]|[_ [Z0 _]]]; [congruence|exact Z0].
Qed.

Lemma sentry_alert_needs_an_answered_query_witness :
  sentryCondition
    (Envelope (mkToolResult "sentry" false "2026-02-24T08:00:00.000Z"
                 (SentryData.mk 0 0 [])
                 (Some "unresolvedData.slice is not a function")))
  = true
  <-> false = true /\ 0 <> 0.
Proof.
  refine (proj1
    (sentry_alert_needs_an_answered_query "crimson-forge" "overseer"
       "2026-02-24T08:00:00.000Z" "2026-02-23T08:00:00.000Z"
       (fun url _ => url)
       (fun n : nat =>
          match n with
          | O => FetchResponse (mkResponse 200 "OK" 120
                   (Readable (Parses (JArr [JObj [("id", JStr "4711")];
                                            JObj [("id", JStr "4712")]]))))
          | S _ => FetchResponse (mkResponse 200 "OK" 95
                     (Readable (Parses (JObj [("detail", JStr "Internal Error")]))))
          end)
       World0
       (sentryFaultEnvelope "2026-02-24T08:00:00.000Z"
          (notAFunction "unresolvedData.slice"))
       _
       (mkToolResult "sentry" false "2026-02-24T08:00:00.000Z"
          (SentryData.mk 0 0 [])
          (Some "unresolvedData.slice is not a function"))
       (Some "crimson-forge") (Bare "unused")
       _ _)).
  - reflexivity.
  - repeat split.
Defined.

(** X28: the errors section of the briefing, for an issue-tracker
    envelope whose counts are numbers: it says that the check is
    unavailable exactly when the adapter answered [success = false], and
    then no warning alert is raised either; it says that there are no new
    issues exactly when the adapter answered [success = true] and no
    warning alert is raised. *)
Theorem errors_section_and_warning_alert :
  forall org project now yesterday withSearchParams net w e w' r sentryOrg supabase,
    Sentry.runSentryCheck org project now yesterday withSearchParams net w = (inr e, w') ->
    sentryReadsAs e r ->
    (Slack.errorsLines (Envelope r) = ("⚠️ Sentry check unavailable" ++ Slack.nl)%string
     <-> success e = false)
    /\ (success e = false ->
        forall a, In a (buildAlerts sentryOrg (Envelope r) supabase) ->
                  Alert.severity a <> warning)
    /\ (Slack.errorsLines (Envelope r) = ("✅ No new Sentry issues" ++ Slack.nl)%string
        <-> success e = true
            /\ forall a, In a (buildAlerts sentryOrg (Envelope r) supabase) ->
                         Alert.severity a <> warning).
Proof.
  intros org project now yesterday withSearchParams net w e w' r sentryOrg supabase H R.
  pose proof (sentry_envelope_read _ _ _ _ _ _ _ _ _ _ H R) as C.
  destruct R as [Rs [_ _]]. rewrite <- Rs.
  assert (Cond : sentryCondition (Envelope r) = negb (SentryData.newIssueCount (data r) =? 0))
    by reflexivity.
  unfold Slack.errorsLines.
  split; [|split].
  - destruct (success r); [|split; reflexivity].
    split; [|discriminate]. intros L. exfalso.
    destruct (SentryData.newIssueCount (data r) =? 0); [discriminate L|].
    unfold show_number in L.
    destruct (Z.to_int (SentryData.newIssueCount (data r))) as [u|u];
      destruct u; discriminate L.
  - intros S. apply no_warning_without_condition.
    rewrite Cond, negb_false_iff, Z.eqb_eq.
    destruct C as [[S' _]|[_ [Z0 _]]]; [congruence|exact Z0].
  - destruct (success r); [|split; [discriminate|intros [D _]; discriminate]].
    destruct (SentryData.newIssueCount (data r) =? 0) eqn:Z0.
    + split; [|reflexivity]. intros _. split; [reflexivity|].
      apply no_warning_without_condition. rewrite Cond. reflexivity.
    + split.
      * intros L. exfalso. unfold show_number in L.
        destruct (Z.to_int (SentryData.newIssueCount (data r))) as [u|u];
          destruct u; discriminate L.
      * intros [_ A]. exfalso.
        apply (A (sentryAlert sentryOrg (Envelope r))); [|reflexivity].
        unfold buildAlerts. rewrite Cond. left. reflexivity.
Qed.

Lemma errors_section_and_warning_alert_witness :
  Slack.errorsLines
    (Envelope (mkToolResult "sentry" false "2026-02-24T08:00:00.000Z"
                 (SentryData.mk 0 0 [])
                 (Some "Cannot read properties of null (reading 'slice')")))
  = ("⚠️ Sentry check unavailable" ++ Slack.nl)%string.
Proof.
  refine (proj2 (proj1
    (errors_section_and_warning_alert "crimson-forge" "overseer"
       "2026-02-24T08:00:00.000Z" "2026-02-23T08:00:00.000Z"
       (fun url _ => url)
       (fun n : nat =>
          match n with
          | O => FetchResponse (mkResponse 200 "OK" 120
                   (Readable (Parses (JArr [JObj [("id", JStr "4711")]]))))
          | S _ => FetchResponse (mkResponse 200 "OK" 95 (Readable (Parses JNull)))
          end)
       World0
       (sentryFaultEnvelope "2026-02-24T08:00:00.000Z" (cannotRead "null" "slice"))
       _
       (mkToolResult "sentry" false "2026-02-24T08:00:00.000Z"
          (SentryData.mk 0 0 [])
          (Some "Cannot read properties of null (reading 'slice')"))
       (Some "crimson-forge") (Bare "unused")
       _ _)) _).
  - reflexivity.
  - repeat split.
  - reflexivity.
Defined.
